(** * Bedrock gateway examples: image generation fallback and model discovery

    A shallow embedding of the Python scripts
    [setup_stable_diffusion.py], [stable_diffusion_image_generator.py] and
    [claude_gateway.py].

    Python values are a tagged union, Python exceptions are values of an
    error type, and every function that talks to the outside (HTTP gateway,
    Bedrock SDK, wall clock, file system, standard output) is a state
    transformer over an explicit [World]. *)

From Stdlib Require Import ZArith NArith Ascii String List Bool Lia.
From Stdlib.Strings Require Import Byte.
From Stdlib Require Import DecimalString DecimalNat DecimalZ.
From stdpp Require Import base option list gmap strings.

Local Open Scope string_scope.
Local Open Scope list_scope.

(** ** Python strings

    [str] is modelled as [string]; identifiers, file names and base64 text
    handled by the scripts are ASCII. *)
Module PyStr.

Definition to_list : string -> list ascii := list_ascii_of_string.

(** [s.startswith(p)] *)
Definition startswith (s p : string) : bool := String.prefix p s.

(** [sub in s] on two strings *)
Fixpoint contains (sub s : string) : bool :=
  String.prefix sub s ||
  match s with
  | EmptyString => false
  | String _ s' => contains sub s'
  end.

(** [s.split(c)] for a one-character separator: never the empty list. *)
Fixpoint split (c : ascii) (s : string) : list string :=
  match s with
  | EmptyString => [EmptyString]
  | String a s' =>
      if Ascii.eqb a c then EmptyString :: split c s'
      else match split c s' with
           | h :: t => String a h :: t
           | [] => [String a EmptyString]
           end
  end.

(** [s.replace(a, b)] for one-character [a] and [b] *)
Fixpoint replace (a b : ascii) (s : string) : string :=
  match s with
  | EmptyString => EmptyString
  | String c s' => String (if Ascii.eqb c a then b else c) (replace a b s')
  end.

Definition lower_char (c : ascii) : ascii :=
  let n := N_of_ascii c in
  if (65 <=? n)%N && (n <=? 90)%N then ascii_of_N (n + 32) else c.

(** [s.lower()] *)
Fixpoint lower (s : string) : string :=
  match s with
  | EmptyString => EmptyString
  | String c s' => String (lower_char c) (lower s')
  end.

(** [str(n)] for a non-negative and for an arbitrary integer *)
Definition of_nat (n : nat) : string := NilEmpty.string_of_uint (Nat.to_uint n).
Definition of_Z (z : Z) : string := NilZero.string_of_int (Z.to_int z).

(** zero-padded decimal of fixed width, as [%02d] / [%04d] *)
Fixpoint zeros (k : nat) : string :=
  match k with O => EmptyString | S k' => String "0" (zeros k') end.
Definition pad (width n : nat) : string :=
  let d := of_nat n in zeros (width - String.length d) ++ d.

(** [sep.join(l)] *)
Definition join (sep : string) (l : list string) : string := String.concat sep l.

End PyStr.

(** ** Python values and exceptions *)

#[warnings="-register-all"]
Inductive pyval : Type :=
| PNone
| PBool (b : bool)
| PInt (z : Z)
| PFloat (num : Z) (den : positive)
| PStr (s : string)
| PList (l : list pyval)
| PDict (d : list (string * pyval)).

(** Classes of the exceptions the scripts can meet; every one derives from
    [Exception], so [except Exception] catches each of them.  Interpreter
    signals that derive from [BaseException] only (keyboard interrupt,
    interpreter exit) are outside the model. *)
Inductive exn_class :=
| KeyError | TypeError | AttributeError | IndexError | ValueError
| BinasciiError | OSError | JSONDecodeError
| ConnectionError | Timeout | ClientError | RuntimeError.

Record exn := Exc { exn_cls : exn_class; exn_msg : string }.

Module Py.

(** [bool(v)] *)
Definition truthy (v : pyval) : bool :=
  match v with
  | PNone => false
  | PBool b => b
  | PInt z => negb (z =? 0)%Z
  | PFloat n _ => negb (n =? 0)%Z
  | PStr s => negb (String.eqb s EmptyString)
  | PList l => match l with [] => false | _ => true end
  | PDict d => match d with [] => false | _ => true end
  end.

Definition type_name (v : pyval) : string :=
  match v with
  | PNone => "NoneType" | PBool _ => "bool" | PInt _ => "int"
  | PFloat _ _ => "float" | PStr _ => "str" | PList _ => "list"
  | PDict _ => "dict"
  end.

(** dictionary lookup by key; a parsed JSON object has each key once *)
Fixpoint lookup (k : string) (d : list (string * pyval)) : option pyval :=
  match d with
  | [] => None
  | (k', v) :: d' => if String.eqb k k' then Some v else lookup k d'
  end.

Definition is_str (k : string) (v : pyval) : bool :=
  match v with PStr s => String.eqb s k | _ => false end.

(** [k in v] for a string literal [k] *)
Definition contains (k : string) (v : pyval) : exn + bool :=
  match v with
  | PDict d => inr (match lookup k d with Some _ => true | None => false end)
  | PList l => inr (existsb (is_str k) l)
  | PStr s => inr (PyStr.contains k s)
  | _ => inl (Exc TypeError
                ("argument of type '" ++ type_name v ++ "' is not iterable"))
  end.

(** [v[k]] for a string literal [k] *)
Definition getitem (v : pyval) (k : string) : exn + pyval :=
  match v with
  | PDict d => match lookup k d with
               | Some x => inr x
               | None => inl (Exc KeyError ("'" ++ k ++ "'"))
               end
  | PList _ => inl (Exc TypeError "list indices must be integers or slices, not str")
  | PStr _ => inl (Exc TypeError "string indices must be integers, not 'str'")
  | _ => inl (Exc TypeError ("'" ++ type_name v ++ "' object is not subscriptable"))
  end.

(** [v.get(k, default)] *)
Definition get (v : pyval) (k : string) (default : pyval) : exn + pyval :=
  match v with
  | PDict d => inr (match lookup k d with Some x => x | None => default end)
  | _ => inl (Exc AttributeError
                ("'" ++ type_name v ++ "' object has no attribute 'get'"))
  end.

Definition chars (s : string) : list pyval :=
  map (fun c => PStr (String c EmptyString)) (PyStr.to_list s).

(** the elements a [for] loop over [v] visits *)
Definition iter (v : pyval) : exn + list pyval :=
  match v with
  | PList l => inr l
  | PDict d => inr (map (fun kv => PStr (fst kv)) d)
  | PStr s => inr (chars s)
  | _ => inl (Exc TypeError ("'" ++ type_name v ++ "' object is not iterable"))
  end.

Definition no_attribute (v : pyval) (attr : string) : exn :=
  Exc AttributeError ("'" ++ type_name v ++ "' object has no attribute '" ++ attr ++ "'").

(** [v.startswith(p)] *)
Definition startswith (v : pyval) (p : string) : exn + bool :=
  match v with
  | PStr s => inr (PyStr.startswith s p)
  | _ => inl (no_attribute v "startswith")
  end.

(** [v.split(c)[i]], reached only after [v.startswith] returned *)
Definition split_item (v : pyval) (c : ascii) (i : nat) : exn + pyval :=
  match v with
  | PStr s => match nth_error (PyStr.split c s) i with
              | Some x => inr (PStr x)
              | None => inl (Exc IndexError "list index out of range")
              end
  | _ => inl (no_attribute v "split")
  end.

(** [v.lower()] *)
Definition lower (v : pyval) : exn + string :=
  match v with
  | PStr s => inr (PyStr.lower s)
  | _ => inl (Exc AttributeError
                ("'" ++ type_name v ++ "' object has no attribute 'lower'"))
  end.

End Py.

(** ** The outside world

    One [request] is logged for every call an adapter makes through the
    HTTP client or the Bedrock SDK; the reply is read from [transport],
    which may depend on how many calls came before and on the request. *)

Inductive request :=
| RequestsPost (url : string) (headers : list (string * string))
               (json : pyval) (timeout : option Z)
| RequestsGet (url : string) (headers : list (string * string))
| InvokeModel (region modelId : string) (body : pyval) (contentType accept : string)
| ListFoundationModels (region : string).

(** What comes back when the call returns: the status code, the raw text and
    the parsed JSON body ([None] when the body is not JSON, so that
    [response.json()] / [json.loads] raises). *)
Record response := Response {
  status_code : Z;
  text : string;
  json_body : option pyval }.

Inductive outcome :=
| Responds (r : response)
| Fails (e : exn).

#[global] Instance byte_eq_decision : EqDecision byte := Byte.byte_eq_dec.

(** [datetime.now()] *)
Record datetime := DateTime {
  year : nat; month : nat; day : nat;
  hour : nat; minute : nat; second : nat }.

(** How [open(path, 'wb')] followed by [f.write(data)] ends on a path. *)
Inductive disk_outcome :=
| DiskOk
| OpenFails (e : exn)          (* nothing is created *)
| WriteFails (e : exn) (written : nat).
    (* the file is created, and the write raises when [written] bytes of the
       data have reached it: they stay in the file *)

(** A printed line: the literal text of the f-string and the values it
    interpolates, kept unrendered where they are not strings. *)
Inductive frag :=
| Lit (s : string)
| Val (v : pyval).

Record World := mkWorld {
  transport : nat -> request -> outcome;
  calls : list request;                  (* oldest first *)
  clock : nat -> datetime;
  clock_reads : nat;
  disk : string -> disk_outcome;
  fs : gmap string (list byte);
  stdout : list (list frag);             (* printed lines, oldest first *)
  sdk_clients : string -> string -> option exn }.
    (* how [boto3.client(service, region_name=region)] ends for a service and
       a region: with a client, or with the exception it raises *)

(** ** Computations: state passing with exceptions *)

Inductive res (A : Type) : Type :=
| Ret (a : A)
| Raise (e : exn).
Arguments Ret {A} a.
Arguments Raise {A} e.

Definition M (A : Type) : Type := World -> res A * World.

Definition ret {A} (a : A) : M A := fun w => (Ret a, w).
Definition raise {A} (e : exn) : M A := fun w => (Raise e, w).

Definition bind {A B} (c : M A) (k : A -> M B) : M B :=
  fun w => match c w with
           | (Ret a, w') => k a w'
           | (Raise e, w') => (Raise e, w')
           end.

(** [try: body except Exception as e: handler(e)] *)
Definition try_except {A} (body : M A) (handler : exn -> M A) : M A :=
  fun w => match body w with
           | (Ret a, w') => (Ret a, w')
           | (Raise e, w') => handler e w'
           end.

Definition lift {A} (r : exn + A) : M A :=
  match r with inr a => ret a | inl e => raise e end.

Declare Scope py_scope.
Delimit Scope py_scope with py.
Notation "'let*' x ':=' c 'in' k" := (bind c (fun x => k))
  (at level 10, x name, c at level 100, k at level 200) : py_scope.
Notation "c ;; k" := (bind c (fun _ => k))
  (at level 100, k at level 200, right associativity) : py_scope.
Local Open Scope py_scope.

(** the four ways a computation changes the world *)
Definition put_line (line : list frag) (w : World) : World :=
  mkWorld (transport w) (calls w) (clock w) (clock_reads w) (disk w) (fs w)
          (stdout w ++ [line]) (sdk_clients w).
Definition log_call (rq : request) (w : World) : World :=
  mkWorld (transport w) (calls w ++ [rq]) (clock w) (clock_reads w) (disk w) (fs w)
          (stdout w) (sdk_clients w).
Definition tick (w : World) : World :=
  mkWorld (transport w) (calls w) (clock w) (S (clock_reads w)) (disk w) (fs w)
          (stdout w) (sdk_clients w).
Definition set_fs (m : gmap string (list byte)) (w : World) : World :=
  mkWorld (transport w) (calls w) (clock w) (clock_reads w) (disk w) m (stdout w)
          (sdk_clients w).

(** [print(f"...")] *)
Definition printf (line : list frag) : M unit := fun w => (Ret tt, put_line line w).
Definition print (line : string) : M unit := printf [Lit line].

(** the line break written as a backslash-n escape in the scripts *)
Definition nl : string := String (ascii_of_nat 10) EmptyString.

(** one call through the HTTP client or the SDK *)
Definition send (rq : request) : M response :=
  fun w =>
    match transport w (length (calls w)) rq with
    | Responds r => (Ret r, log_call rq w)
    | Fails e => (Raise e, log_call rq w)
    end.

(** [response.json()] and [json.loads(response['body'].read().decode('utf-8'))] *)
Definition parse_json (r : response) : M pyval :=
  match json_body r with
  | Some v => ret v
  | None => raise (Exc JSONDecodeError "Expecting value: line 1 column 1 (char 0)")
  end.

(** [datetime.now()] *)
Definition now : M datetime := fun w => (Ret (clock w (clock_reads w)), tick w).

(** [with open(filename, 'wb') as f: f.write(data)] *)
Definition write_file (filename : string) (data : list byte) : M unit :=
  fun w =>
    match disk w filename with
    | DiskOk => (Ret tt, set_fs (<[filename := data]> (fs w)) w)
    | OpenFails e => (Raise e, w)
    | WriteFails e written =>
        (Raise e, set_fs (<[filename := take written data]> (fs w)) w)
    end.

(** [boto3.client(service, region_name=region)]: no request is sent *)
Definition boto3_client (service region : string) : M unit :=
  fun w => match sdk_clients w service region with
           | None => (Ret tt, w)
           | Some e => (Raise e, w)
           end.

(** [dt.strftime("%Y%m%d_%H%M%S")] *)
Definition strftime (d : datetime) : string :=
  PyStr.pad 4 (year d) ++ PyStr.pad 2 (month d) ++ PyStr.pad 2 (day d) ++ "_" ++
  PyStr.pad 2 (hour d) ++ PyStr.pad 2 (minute d) ++ PyStr.pad 2 (second d).

(** ** [base64.b64decode]

    The decoder of the standard library in its default, non-validating mode
    ([binascii.a2b_base64]): characters outside the alphabet are skipped, a
    completed pad sequence ends the input, and left-over characters of an
    unfinished quad are an error. *)
Module Base64.

Definition value (c : ascii) : option N :=
  let n := N_of_ascii c in
  if (65 <=? n)%N && (n <=? 90)%N then Some (n - 65)%N
  else if (97 <=? n)%N && (n <=? 122)%N then Some (n - 71)%N
  else if (48 <=? n)%N && (n <=? 57)%N then Some (n + 4)%N
  else if (n =? 43)%N then Some 62%N
  else if (n =? 47)%N then Some 63%N
  else None.

Definition byte_of (n : N) : byte := byte_of_ascii (ascii_of_N n).

(** [acc] holds the decoded bytes, newest first *)
Fixpoint a2b (s : string) (quad_pos : nat) (leftchar : N) (pads : nat)
         (acc : list byte) : exn + list byte :=
  match s with
  | EmptyString =>
      match quad_pos with
      | 0 => inr (rev acc)
      | 1 => inl (Exc BinasciiError
               "Invalid base64-encoded string: number of data characters cannot be 1 more than a multiple of 4")
      | _ => inl (Exc BinasciiError "Incorrect padding")
      end
  | String c s' =>
      if Ascii.eqb c "=" then
        if (2 <=? quad_pos)%nat then
          if (4 <=? quad_pos + S pads)%nat then inr (rev acc)
          else a2b s' quad_pos leftchar (S pads) acc
        else a2b s' quad_pos leftchar pads acc
      else
        match value c with
        | None => a2b s' quad_pos leftchar pads acc
        | Some v =>
            match quad_pos with
            | 0 => a2b s' 1 v 0 acc
            | 1 => a2b s' 2 (N.land v 15) 0
                     (byte_of (N.lor (N.shiftl leftchar 2) (N.shiftr v 4)) :: acc)
            | 2 => a2b s' 3 (N.land v 3) 0
                     (byte_of (N.lor (N.shiftl leftchar 4) (N.shiftr v 2)) :: acc)
            | _ => a2b s' 0 0%N 0
                     (byte_of (N.lor (N.shiftl leftchar 6) v) :: acc)
            end
        end
  end.

Definition is_ascii (c : ascii) : bool := (N_of_ascii c <? 128)%N.

(** [base64.b64decode(v)] *)
Definition b64decode (v : pyval) : exn + list byte :=
  match v with
  | PStr s =>
      if forallb is_ascii (PyStr.to_list s) then a2b s 0 0%N 0 []
      else inl (Exc ValueError "string argument should contain only ASCII characters")
  | _ => inl (Exc TypeError
                ("argument should be a bytes-like object or ASCII string, not '"
                 ++ Py.type_name v ++ "'"))
  end.

End Base64.


(** ** [setup_stable_diffusion.py] *)
Module SetupStableDiffusion.

(** the [self] of [StableDiffusionImageGenerator]; its two SDK clients are
    the [InvokeModel] and [ListFoundationModels] requests of that region *)
Record StableDiffusionImageGenerator := { region : string }.

(** [StableDiffusionImageGenerator(region=region)]: [__init__] creates the
    two clients, outside any [try] *)
Definition init (region : string) : M StableDiffusionImageGenerator :=
  boto3_client "bedrock-runtime" region ;;
  boto3_client "bedrock" region ;;
  ret {| region := region |}.

Definition image_keywords : list string := ["stable"; "diffusion"; "image"; "titan"].

(** [any(keyword in model['modelId'].lower() for keyword in [...])] *)
Fixpoint any_keyword (model : pyval) (keywords : list string) : M bool :=
  match keywords with
  | [] => ret false
  | keyword :: rest =>
      let* model_id := lift (Py.getitem model "modelId") in
      let* low := lift (Py.lower model_id) in
      if PyStr.contains keyword low then ret true else any_keyword model rest
  end.

Definition print_model (model : pyval) : M unit :=
  let* model_id := lift (Py.getitem model "modelId") in
  printf [Lit "Model ID: "; Val model_id] ;;
  let* name := lift (Py.getitem model "modelName") in
  printf [Lit "  Name: "; Val name] ;;
  let* provider := lift (Py.getitem model "providerName") in
  printf [Lit "  Provider: "; Val provider] ;;
  let* inp := lift (Py.get model "inputModalities" (PList [])) in
  printf [Lit "  Input Modalities: "; Val inp] ;;
  let* outp := lift (Py.get model "outputModalities" (PList [])) in
  printf [Lit "  Output Modalities: "; Val outp] ;;
  let* inf := lift (Py.get model "inferenceTypesSupported" (PList [])) in
  printf [Lit "  Inference Types: "; Val inf] ;;
  print "".

(** the [for model in models] loop; [image_models] is the list built so far *)
Fixpoint collect_image_models (models : list pyval) (image_models : list pyval)
  : M (list pyval) :=
  match models with
  | [] => ret image_models
  | model :: rest =>
      let* hit := any_keyword model image_keywords in
      if hit then
        print_model model ;;
        collect_image_models rest (image_models ++ [model])
      else collect_image_models rest image_models
  end.

Definition list_available_models (self : StableDiffusionImageGenerator)
  : M (list pyval) :=
  try_except
    (let* r := send (ListFoundationModels (region self)) in
     let* response := parse_json r in
     let* models := lift (Py.get response "modelSummaries" (PList [])) in
     print "=== Available Bedrock Models ===" ;;
     let* items := lift (Py.iter models) in
     collect_image_models items [])
    (fun e => print ("Error listing models: " ++ exn_msg e) ;; ret []).

Definition stability_request_body (prompt : string) : pyval :=
  PDict [("text_prompts", PList [PDict [("text", PStr prompt); ("weight", PFloat 1 1)]]);
         ("cfg_scale", PInt 7); ("seed", PInt 0); ("steps", PInt 30);
         ("width", PInt 1024); ("height", PInt 1024); ("samples", PInt 1)].

Definition generate_image_stability_ai (self : StableDiffusionImageGenerator)
           (prompt model_id : string) : M pyval :=
  try_except
    (let request_body := stability_request_body prompt in
     print ("Generating image with Stability AI model: " ++ model_id) ;;
     print ("Prompt: " ++ prompt) ;;
     let* response := send (InvokeModel (region self) model_id request_body
                                        "application/json" "application/json") in
     let* response_body := parse_json response in
     ret response_body)
    (fun e => print ("Error generating image with Stability AI: " ++ exn_msg e) ;;
              ret PNone).

Definition titan_request_body (prompt : string) : pyval :=
  PDict [("taskType", PStr "TEXT_IMAGE");
         ("textToImageParams",
           PDict [("text", PStr prompt);
                  ("negativeText", PStr "low quality, blurry, distorted")]);
         ("imageGenerationConfig",
           PDict [("numberOfImages", PInt 1); ("height", PInt 1024);
                  ("width", PInt 1024); ("cfgScale", PFloat 7 1); ("seed", PInt 42)])].

Definition generate_image_titan (self : StableDiffusionImageGenerator)
           (prompt model_id : string) : M pyval :=
  try_except
    (let request_body := titan_request_body prompt in
     print ("Generating image with Titan model: " ++ model_id) ;;
     print ("Prompt: " ++ prompt) ;;
     let* response := send (InvokeModel (region self) model_id request_body
                                        "application/json" "application/json") in
     let* response_body := parse_json response in
     ret response_body)
    (fun e => print ("Error generating image with Titan: " ++ exn_msg e) ;;
              ret PNone).

Definition save_image_from_base64 (self : StableDiffusionImageGenerator)
           (base64_data : pyval) (filename : string) : M bool :=
  try_except
    (let* is_url := lift (Py.startswith base64_data "data:image") in
     let* base64_data :=
       (if is_url then lift (Py.split_item base64_data "," 1) else ret base64_data) in
     let* image_data := lift (Base64.b64decode base64_data) in
     write_file filename image_data ;;
     print ("✓ Image saved as: " ++ filename) ;;
     ret true)
    (fun e => print ("Error saving image: " ++ exn_msg e) ;; ret false).

(** the two bound methods that appear in [models_to_try] *)
Inductive generate_func := GenerateImageStabilityAI | GenerateImageTitan.

Definition call (self : StableDiffusionImageGenerator) (f : generate_func)
  : string -> string -> M pyval :=
  match f with
  | GenerateImageStabilityAI => generate_image_stability_ai self
  | GenerateImageTitan => generate_image_titan self
  end.

Definition models_to_try : list (string * generate_func) :=
  [("stabilityai.stable-diffusion-3-5-large", GenerateImageStabilityAI);
   ("stability.stable-diffusion-xl-v1:0", GenerateImageStabilityAI);
   ("amazon.titan-image-generator-v1", GenerateImageTitan)].

(** [f"generated_image_{model_id.replace(':', '_').replace('.', '_')}_{timestamp}_{i}.png"] *)
Definition image_filename (model_id timestamp : string) (i : nat) : string :=
  "generated_image_" ++ PyStr.replace "." "_" (PyStr.replace ":" "_" model_id)
    ++ "_" ++ timestamp ++ "_" ++ PyStr.of_nat i ++ ".png".

(** [for i, artifact in enumerate(result['artifacts'])], from index [i] on *)
Fixpoint save_artifacts (self : StableDiffusionImageGenerator)
         (model_id timestamp : string) (i : nat) (artifacts : list pyval)
  : M (option string) :=
  match artifacts with
  | [] => ret None
  | artifact :: rest =>
      let* has := lift (Py.contains "base64" artifact) in
      if has then
        let filename := image_filename model_id timestamp i in
        let* b64 := lift (Py.getitem artifact "base64") in
        let* saved := save_image_from_base64 self b64 filename in
        if saved then ret (Some filename)
        else save_artifacts self model_id timestamp (S i) rest
      else save_artifacts self model_id timestamp (S i) rest
  end.

(** [for i, image_data in enumerate(result['images'])], from index [i] on *)
Fixpoint save_images (self : StableDiffusionImageGenerator)
         (model_id timestamp : string) (i : nat) (images : list pyval)
  : M (option string) :=
  match images with
  | [] => ret None
  | image_data :: rest =>
      let filename := image_filename model_id timestamp i in
      let* saved := save_image_from_base64 self image_data filename in
      if saved then ret (Some filename)
      else save_images self model_id timestamp (S i) rest
  end.

(** the body of [if result:] for one model: the file name returned from
    inside the loops, or [None] when the loop over models goes on *)
Definition save_result (self : StableDiffusionImageGenerator)
           (model_id timestamp : string) (result : pyval) : M (option string) :=
  if Py.truthy result then
    let* has_artifacts := lift (Py.contains "artifacts" result) in
    if has_artifacts then
      let* artifacts := lift (Py.getitem result "artifacts") in
      let* items := lift (Py.iter artifacts) in
      save_artifacts self model_id timestamp 0 items
    else
      let* has_images := lift (Py.contains "images" result) in
      if has_images then
        let* images := lift (Py.getitem result "images") in
        let* items := lift (Py.iter images) in
        save_images self model_id timestamp 0 items
      else ret None
  else ret None.

(** one round of [for model_id, generate_func in models_to_try] *)
Definition attempt (self : StableDiffusionImageGenerator)
           (prompt timestamp : string) (m : string * generate_func)
  : M (option string) :=
  let (model_id, generate_func) := m in
  print (nl ++ "--- Attempting with " ++ model_id ++ " ---") ;;
  let* result := call self generate_func prompt model_id in
  save_result self model_id timestamp result.

Fixpoint try_models (self : StableDiffusionImageGenerator)
         (prompt timestamp : string) (models : list (string * generate_func))
  : M (option string) :=
  match models with
  | [] => ret None
  | m :: rest =>
      let* found := attempt self prompt timestamp m in
      match found with
      | Some filename => ret (Some filename)
      | None => try_models self prompt timestamp rest
      end
  end.

(** [generate_image] over a given list of models *)
Definition generate_image_from (models : list (string * generate_func))
           (self : StableDiffusionImageGenerator) (prompt : string)
  : M (option string) :=
  let* t := now in
  let timestamp := strftime t in
  try_models self prompt timestamp models.

Definition generate_image (self : StableDiffusionImageGenerator) (prompt : string)
  : M (option string) :=
  generate_image_from models_to_try self prompt.

End SetupStableDiffusion.

(** ** [stable_diffusion_image_generator.py] *)
Module StableDiffusionScript.

Definition api_key : string := "bedrock".
Definition api_base_url : string := "http://localhost:50399/api/v1".

Definition gateway_request (prompt model_id : string) (width height : Z) : request :=
  RequestsPost (api_base_url ++ "/images/generations")
    [("Content-Type", "application/json"); ("Authorization", ("Bearer " ++ api_key)%string)]
    (PDict [("model", PStr model_id); ("prompt", PStr prompt); ("n", PInt 1);
            ("size", PStr (PyStr.of_Z width ++ "x" ++ PyStr.of_Z height));
            ("response_format", PStr "b64_json")])
    (Some 60%Z).

Definition generate_image_via_gateway (prompt model_id : string) (width height : Z)
  : M pyval :=
  try_except
    (print ("Attempting to generate image with model: " ++ model_id) ;;
     print ("Prompt: " ++ prompt) ;;
     let* response := send (gateway_request prompt model_id width height) in
     if (status_code response =? 200)%Z then
       let* result := parse_json response in
       ret result
     else
       printf [Lit "Error: API returned status code "; Val (PInt (status_code response))] ;;
       print ("Response: " ++ text response) ;;
       ret PNone)
    (fun e => print ("Error calling image generation API: " ++ exn_msg e) ;; ret PNone).

Definition bedrock_request_body (prompt : string) : pyval :=
  PDict [("text_prompts", PList [PDict [("text", PStr prompt); ("weight", PFloat 1 1)]]);
         ("cfg_scale", PInt 7); ("seed", PInt 0); ("steps", PInt 30);
         ("width", PInt 1024); ("height", PInt 1024)].

(** creating the SDK client and calling it are one logged request *)
Definition generate_image_direct_bedrock (prompt model_id : string) : M pyval :=
  try_except
    (let request_body := bedrock_request_body prompt in
     print ("Attempting direct Bedrock call with model: " ++ model_id) ;;
     print ("Prompt: " ++ prompt) ;;
     let* response := send (InvokeModel "us-east-1" model_id request_body
                                        "application/json" "application/json") in
     let* response_body := parse_json response in
     ret response_body)
    (fun e => print ("Error with direct Bedrock call: " ++ exn_msg e) ;; ret PNone).

Definition save_image_from_base64 (base64_data : pyval) (filename : string) : M bool :=
  try_except
    (let* is_url := lift (Py.startswith base64_data "data:image") in
     let* base64_data :=
       (if is_url then lift (Py.split_item base64_data "," 1) else ret base64_data) in
     let* image_data := lift (Base64.b64decode base64_data) in
     write_file filename image_data ;;
     print ("Image saved as: " ++ filename) ;;
     ret true)
    (fun e => print ("Error saving image: " ++ exn_msg e) ;; ret false).

Definition model_ids_to_try : list string :=
  ["stabilityai.stable-diffusion-3-5-large";
   "stabilityai.stable-diffusion-xl-v1";
   "stability.stable-diffusion-xl-v1:0";
   "amazon.titan-image-generator-v1"].

(** [f"generated_image_{timestamp}_{i}.png"] *)
Definition image_filename (timestamp : string) (i : nat) : string :=
  "generated_image_" ++ timestamp ++ "_" ++ PyStr.of_nat i ++ ".png".

(** [for i, image_data in enumerate(result['data'])], from index [i] on;
    the result is the value of [success] when the loop is left *)
Fixpoint save_data (model_id : string) (i : nat) (data : list pyval) : M bool :=
  match data with
  | [] => ret false
  | image_data :: rest =>
      let* t := now in
      let timestamp := strftime t in
      let filename := image_filename timestamp i in
      let* has := lift (Py.contains "b64_json" image_data) in
      if has then
        let* b64 := lift (Py.getitem image_data "b64_json") in
        let* saved := save_image_from_base64 b64 filename in
        if saved then
          print ("‚úì Successfully generated image using " ++ model_id) ;;
          ret true
        else save_data model_id (S i) rest
      else save_data model_id (S i) rest
  end.

(** [for i, artifact in enumerate(result['artifacts'])], from index [i] on *)
Fixpoint save_artifacts (model_id : string) (i : nat) (artifacts : list pyval) : M bool :=
  match artifacts with
  | [] => ret false
  | artifact :: rest =>
      let* has := lift (Py.contains "base64" artifact) in
      if has then
        let* t := now in
        let timestamp := strftime t in
        let filename := image_filename timestamp i in
        let* b64 := lift (Py.getitem artifact "base64") in
        let* saved := save_image_from_base64 b64 filename in
        if saved then
          print ("‚úì Successfully generated image using " ++ model_id) ;;
          ret true
        else save_artifacts model_id (S i) rest
      else save_artifacts model_id (S i) rest
  end.

(** [if result and key in result: for ... in enumerate(result[key])] *)
Definition save_under (key : string) (loop : nat -> list pyval -> M bool)
           (result : pyval) : M bool :=
  if Py.truthy result then
    let* has := lift (Py.contains key result) in
    if has then
      let* payloads := lift (Py.getitem result key) in
      let* items := lift (Py.iter payloads) in
      loop 0 items
    else ret false
  else ret false.

(** one round of [for model_id in model_ids_to_try]; the result is [success] *)
Definition attempt (prompt model_id : string) : M bool :=
  print (nl ++ "--- Trying model: " ++ model_id ++ " ---") ;;
  let* result := generate_image_via_gateway prompt model_id 1024 1024 in
  let* success := save_under "data" (save_data model_id) result in
  if success then ret true
  else
    print "Gateway failed, trying direct Bedrock API..." ;;
    let* result := generate_image_direct_bedrock prompt model_id in
    save_under "artifacts" (save_artifacts model_id) result.

Fixpoint try_models (prompt : string) (model_ids : list string) : M bool :=
  match model_ids with
  | [] => ret false
  | model_id :: rest =>
      let* success := attempt prompt model_id in
      if success then ret true else try_models prompt rest
  end.

Definition is_image_id (low : string) : bool :=
  PyStr.contains "stable" low || PyStr.contains "image" low || PyStr.contains "titan" low.

(** [for model in models.get('data', [])] of the failure report *)
Fixpoint print_image_models (models : list pyval) : M unit :=
  match models with
  | [] => ret tt
  | model :: rest =>
      let* id := lift (Py.getitem model "id") in
      let* low := lift (Py.lower id) in
      (if is_image_id low then
         let* id := lift (Py.getitem model "id") in
         printf [Lit "  - "; Val id]
       else ret tt) ;;
      print_image_models rest
  end.

Definition show_available_models : M unit :=
  try_except
    (let* response := send (RequestsGet "http://localhost:50399/api/v1/models"
                                        [("Authorization", "Bearer bedrock")]) in
     if (status_code response =? 200)%Z then
       let* models := parse_json response in
       let* data := lift (Py.get models "data" (PList [])) in
       let* items := lift (Py.iter data) in
       print_image_models items
     else ret tt)
    (fun _ => ret tt).

(** [main] over a given list of model ids; [argv] is [sys.argv] *)
Definition main_from (model_ids : list string) (argv : list string) : M bool :=
  let prompt :=
    if (1 <? length argv)%nat then PyStr.join " " (tl argv)
    else "A beautiful sunset over a mountain landscape, digital art style" in
  print "=== Stable Diffusion Image Generator ===" ;;
  print ("Generating image for prompt: '" ++ prompt ++ "'") ;;
  print "" ;;
  let* success := try_models prompt model_ids in
  (if negb success then
     print (nl ++ "‚ùå Failed to generate image with any available model.") ;;
     print (nl ++ "Possible solutions:") ;;
     print "1. Check if Stable Diffusion models are enabled in your AWS Bedrock console" ;;
     print "2. Verify your AWS region supports the requested models" ;;
     print "3. Ensure you have proper IAM permissions for Bedrock image generation" ;;
     print "4. Try a different model ID" ;;
     print (nl ++ "Available models from gateway:") ;;
     show_available_models
   else
     print (nl ++ "üéâ Image generation completed successfully!") ;;
     print "Check the current directory for the generated image file.") ;;
  ret success.

(** [main]; the script returns nothing, the value here is its local [success] *)
Definition main (argv : list string) : M bool := main_from model_ids_to_try argv.

End StableDiffusionScript.

(** ** [claude_gateway.py] *)
Module ClaudeGateway.

Definition api_key : string := "bedrock".
Definition api_base_url : string := "http://localhost:8000/api/v1".

(** [[model["id"] for model in ...]] *)
Fixpoint model_ids (models : list pyval) : M (list pyval) :=
  match models with
  | [] => ret []
  | model :: rest =>
      let* id := lift (Py.getitem model "id") in
      let* ids := model_ids rest in
      ret (id :: ids)
  end.

Definition get_available_models : M (list pyval) :=
  try_except
    (let* response := send (RequestsGet (api_base_url ++ "/models")
                              [("Authorization", ("Bearer " ++ api_key)%string)]) in
     if (status_code response =? 200)%Z then
       let* models_data := parse_json response in
       let* data := lift (Py.get models_data "data" (PList [])) in
       let* items := lift (Py.iter data) in
       model_ids items
     else
       printf [Lit "Error: API returned status code "; Val (PInt (status_code response))] ;;
       print ("Response: " ++ text response) ;;
       ret [])
    (fun e => print ("Error getting models: " ++ exn_msg e) ;; ret []).

(** [[model for model in models if "claude" in model.lower()]] *)
Fixpoint claude_models (models : list pyval) : M (list pyval) :=
  match models with
  | [] => ret []
  | model :: rest =>
      let* low := lift (Py.lower model) in
      let* found := claude_models rest in
      ret (if PyStr.contains "claude" low then model :: found else found)
  end.

(** [for model in models: print(f"- {model}")] *)
Fixpoint print_models (models : list pyval) : M unit :=
  match models with
  | [] => ret tt
  | model :: rest => printf [Lit "- "; Val model] ;; print_models rest
  end.

(** the [if model_id is None:] block: the model to call, or [None] when the
    function returns early *)
Definition choose_model (model_id : option pyval) : M (option pyval) :=
  match model_id with
  | Some given => ret (Some given)
  | None =>
      let* models := get_available_models in
      let* found := claude_models models in
      match found with
      | first :: _ =>
          printf [Lit "Using model: "; Val first] ;;
          ret (Some first)
      | [] =>
          print "No Claude models available. Available models:" ;;
          print_models models ;;
          ret None
      end
  end.

(** [v[i]] for an integer literal [i] *)
Definition getindex (v : pyval) (i : nat) : exn + pyval :=
  match v with
  | PList l => match nth_error l i with
               | Some x => inr x
               | None => inl (Exc IndexError "list index out of range")
               end
  | PDict _ => inl (Exc KeyError (PyStr.of_nat i))
  | PStr s => match String.get i s with
              | Some c => inr (PStr (String c EmptyString))
              | None => inl (Exc IndexError "string index out of range")
              end
  | _ => inl (Exc TypeError ("'" ++ Py.type_name v ++ "' object is not subscriptable"))
  end.

Definition chat_request (prompt : string) (model_id : pyval) : request :=
  RequestsPost (api_base_url ++ "/chat/completions")
    [("Content-Type", "application/json");
     ("Authorization", ("Bearer " ++ api_key)%string)]
    (PDict [("model", model_id);
            ("messages", PList [PDict [("role", PStr "user"); ("content", PStr prompt)]]);
            ("max_tokens", PInt 4096)])
    None.

Definition call_claude_model (prompt : string) (model_id : option pyval) : M pyval :=
  let* chosen := choose_model model_id in
  match chosen with
  | None => ret PNone
  | Some model_id =>
      try_except
        (let* response := send (chat_request prompt model_id) in
         if (status_code response =? 200)%Z then
           let* response_data := parse_json response in
           let* choices := lift (Py.getitem response_data "choices") in
           let* choice := lift (getindex choices 0) in
           let* message := lift (Py.getitem choice "message") in
           let* content := lift (Py.getitem message "content") in
           ret content
         else
           printf [Lit "Error: API returned status code ";
                   Val (PInt (status_code response))] ;;
           print ("Response: " ++ text response) ;;
           ret PNone)
        (fun e => print ("Error calling Claude model: " ++ exn_msg e) ;; ret PNone)
  end.

End ClaudeGateway.

(** ** Derived notions used to state the properties *)

(** the error monad of the pure helpers *)
Definition and_then {A B} (r : exn + A) (k : A -> exn + B) : exn + B :=
  match r with inl e => inl e | inr a => k a end.

(** what [save_image_from_base64] hands to the file: the data-URL header is
    cut off, the rest is decoded *)
Definition decode_payload (base64_data : pyval) : exn + list byte :=
  and_then (Py.startswith base64_data "data:image") (fun is_url =>
  and_then (if is_url then Py.split_item base64_data "," 1 else inr base64_data)
           Base64.b64decode).

(** the characters of base64 text: letters, digits, [+], [/] and the pad [=] *)
Definition base64_char (c : ascii) : bool :=
  match Base64.value c with Some _ => true | None => Ascii.eqb c "=" end.
Definition base64_text (b : string) : bool := forallb base64_char (PyStr.to_list b).

Definition data_url_header : string := "data:image/png;base64,".

(** [save_image_from_base64] in one step: decode, then write, then report;
    [saved_line] is the text printed before the file name on success *)
Definition persist (saved_line : string) (base64_data : pyval) (filename : string)
           (w : World) : res bool * World :=
  match decode_payload base64_data with
  | inl e => (Ret false, put_line [Lit ("Error saving image: " ++ exn_msg e)] w)
  | inr data =>
      match disk w filename with
      | DiskOk =>
          (Ret true, put_line [Lit (saved_line ++ filename)]
                       (set_fs (<[filename := data]> (fs w)) w))
      | OpenFails e =>
          (Ret false, put_line [Lit ("Error saving image: " ++ exn_msg e)] w)
      | WriteFails e written =>
          (Ret false, put_line [Lit ("Error saving image: " ++ exn_msg e)]
                        (set_fs (<[filename := take written data]> (fs w)) w))
      end
  end.

(** What an adapter owes its caller in world [w], where its one call is [rq]:
    it returns a value whatever the transport does, and that value is [None]
    when the call raises, when the gateway answers with a status other than
    200 ([check_status], the SDK raises instead), or when the body is not
    JSON; otherwise it is the parsed body. *)
Definition returns_failure_value (adapter : M pyval) (rq : request)
           (check_status : bool) (w : World) : Prop :=
  (exists v, fst (adapter w) = Ret v) /\
  calls (snd (adapter w)) = (calls w ++ [rq])%list /\
  match transport w (length (calls w)) rq with
  | Fails _ => fst (adapter w) = Ret PNone
  | Responds r =>
      if check_status && negb (status_code r =? 200)%Z
      then fst (adapter w) = Ret PNone
      else fst (adapter w) = Ret (match json_body r with Some v => v | None => PNone end)
  end.

(** [progress rqs reads w w']: from [w] to [w'] the environment is the same,
    the requests [rqs] were sent in that order and the clock was read
    [reads] times; files and printed lines may differ. *)
Definition progress (rqs : list request) (reads : nat) (w w' : World) : Prop :=
  transport w' = transport w /\ clock w' = clock w /\ disk w' = disk w /\
  clock_reads w' = clock_reads w + reads /\
  calls w' = (calls w ++ rqs)%list.

(** a step that leaves the environment alone and sends nothing *)
Definition silent (w w' : World) : Prop := exists reads, progress [] reads w w'.

Module SetupRequests.
Import SetupStableDiffusion.

(** the request [generate_func(prompt, model_id)] sends *)
Definition request_of (self : StableDiffusionImageGenerator) (prompt : string)
           (m : string * generate_func) : request :=
  InvokeModel (region self) (fst m)
    (match snd m with
     | GenerateImageStabilityAI => stability_request_body prompt
     | GenerateImageTitan => titan_request_body prompt
     end)
    "application/json" "application/json".

End SetupRequests.

Module ScriptRequests.
Import StableDiffusionScript.

Definition direct_request (prompt model_id : string) : request :=
  InvokeModel "us-east-1" model_id (bedrock_request_body prompt)
              "application/json" "application/json".

(** the two requests one round of [main]'s loop can send, in order *)
Definition requests_of (prompt model_id : string) : list request :=
  [gateway_request prompt model_id 1024 1024; direct_request prompt model_id].
End ScriptRequests.

(** [touches P w w']: every path whose content differs between [w] and [w']
    satisfies [P] *)
Definition touches (P : string -> Prop) (w w' : World) : Prop :=
  forall p, fs w' !! p <> fs w !! p -> P p.

(** ** The payloads of a response

    The base64 blobs a response offers, each with its position in the
    response list: for a list of objects, the ones that carry the field; for
    a list of blobs, every element. *)
Module Payloads.



(** [result[key]] as a list, when [result] is truthy and has [key] *)
Definition listed (key : string) (result : pyval) : exn + option (list pyval) :=
  if Py.truthy result then
    and_then (Py.contains key result) (fun has =>
    if has then
      and_then (Py.getitem result key) (fun l =>
      and_then (Py.iter l) (fun items => inr (Some items)))
    else inr None)
  else inr None.



End Payloads.

(** the payload [b] can be written to [filename] in world [w] *)
Definition saveable (w : World) (filename : string) (b : pyval) : Prop :=
  (exists data, decode_payload b = inr data) /\ disk w filename = DiskOk.

(** the blob at position [k] of a list of objects, and of a list of blobs *)
Definition field_at (field : string) (items : list pyval) (k : nat) (b : pyval) : Prop :=
  exists item, items !! k = Some item /\
    Py.contains field item = inr true /\ Py.getitem item field = inr b.
Definition blob_at (items : list pyval) (k : nat) (b : pyval) : Prop :=
  items !! k = Some b.

Module SetupNames.
Import SetupStableDiffusion.

(** [p] is the file name of one of the [n] positions numbered from [i] *)
Definition named (model_id timestamp : string) (i n : nat) (p : string) : Prop :=
  exists k, k < n /\ p = image_filename model_id timestamp (i + k).

(** What one run [r] of a payload loop from world [w] guarantees, for [n]
    positions numbered from [i] whose blobs are given by [at_]: nothing is
    sent and the clock is not read; a returned name is the name of some
    position [k], the file holds the decoded blob of that position, no
    earlier position could be saved, and every file that changed belongs
    to a position up to [k]; otherwise only files of the [n] positions can
    have changed. *)
Definition loop_ok (model_id timestamp : string) (at_ : nat -> pyval -> Prop)
           (i n : nat) (w : World) (r : res (option string) * World) : Prop :=
  progress [] 0 w (snd r) /\
  match fst r with
  | Ret (Some f) =>
      exists k b data, k < n /\ at_ k b /\ decode_payload b = inr data /\
        f = image_filename model_id timestamp (i + k) /\
        fs (snd r) !! f = Some data /\
        touches (named model_id timestamp i (S k)) w (snd r) /\
        (forall j b', j < k -> at_ j b' ->
                      ~ saveable w (image_filename model_id timestamp (i + j)) b')
  | _ => touches (named model_id timestamp i n) w (snd r)
  end.

(** the blob at position [k] of a result, as [generate_image] reads it *)
Definition payload_at (result : pyval) (k : nat) (b : pyval) : Prop :=
  match Payloads.listed "artifacts" result with
  | inr (Some items) => field_at "base64" items k b
  | inr None =>
      match Payloads.listed "images" result with
      | inr (Some items) => blob_at items k b
      | _ => False
      end
  | inl _ => False
  end.
End SetupNames.

(** what an SDK adapter returns for an answer of the transport *)
Definition parsed_or_none (o : outcome) : pyval :=
  match o with
  | Fails _ => PNone
  | Responds r => match json_body r with Some v => v | None => PNone end
  end.

(** what the gateway adapter returns for an answer of the transport *)
Definition gateway_or_none (o : outcome) : pyval :=
  match o with
  | Fails _ => PNone
  | Responds r =>
      if (status_code r =? 200)%Z
      then match json_body r with Some v => v | None => PNone end
      else PNone
  end.

(** from [w] to [w'] every file is what it was, or holds what a write that
    failed left of its data: the bytes that had reached the file *)
Definition spoiled (w w' : World) : Prop :=
  forall p, fs w' !! p = fs w !! p
            \/ exists e written data, disk w p = WriteFails e written
                                      /\ fs w' !! p = Some (take written data).

(** from [w] to [w'] nothing was sent and no save went through *)
Definition still (w w' : World) : Prop :=
  transport w' = transport w /\ calls w' = calls w /\ disk w' = disk w /\ spoiled w w'.

(** from [w] to [w'] the disk is the same and no save went through *)
Definition kept (w w' : World) : Prop := disk w' = disk w /\ spoiled w w'.


Module SetupRuns.
Import SetupStableDiffusion SetupRequests SetupNames.

(** [p] is a payload file name of model [m] under [timestamp] *)
Definition names_model (timestamp : string) (m : string * generate_func) (p : string) : Prop :=
  exists i, p = image_filename (fst m) timestamp i.

(** the file [f] in [w'] holds the decoded blob at some position of the
    answer [o], and is named after model [m], the time stamp and that
    position *)
Definition saved_from (timestamp : string) (m : string * generate_func)
           (o : outcome) (f : string) (w' : World) : Prop :=
  exists k b data,
    payload_at (parsed_or_none o) k b /\ decode_payload b = inr data /\
    f = image_filename (fst m) timestamp k /\ fs w' !! f = Some data.

(** What a run of the loop over [models] from [w] guarantees about its
    result [r]: the first [n] models were called, each once and in list
    order; only payload files of listed models changed; a returned file
    name comes from the attempt on the last model called, which ended the
    run, and the file holds a blob of the answer that model got; [None]
    comes back only after every model was called. *)
Definition ordered_run (self : StableDiffusionImageGenerator)
           (prompt timestamp : string) (models : list (string * generate_func))
           (reads : nat) (w : World) (r : res (option string) * World) : Prop :=
  exists n, n <= length models /\
    progress (map (request_of self prompt) (take n models)) reads w (snd r) /\
    touches (fun p => exists m, In m models /\ names_model timestamp m p) w (snd r) /\
    match fst r with
    | Ret (Some f) =>
        exists m w1, models !! (pred n) = Some m /\ 0 < n /\
          attempt self prompt timestamp m w1 = (Ret (Some f), snd r) /\
          saved_from timestamp m
            (transport w (length (calls w) + pred n) (request_of self prompt m))
            f (snd r)
    | Ret None => n = length models
    | Raise _ => 0 < n
    end.

(** the world after the rounds of the loop on [models], one after the other,
    from [w] *)
Fixpoint rounds (self : StableDiffusionImageGenerator) (prompt timestamp : string)
         (models : list (string * generate_func)) (w : World) : World :=
  match models with
  | [] => w
  | m :: rest =>
      rounds self prompt timestamp rest (snd (attempt self prompt timestamp m w))
  end.

(** each of the first [n] rounds from [w] ends without a file name and
    without raising *)
Definition fruitless (self : StableDiffusionImageGenerator) (prompt timestamp : string)
           (models : list (string * generate_func)) (n : nat) (w : World) : Prop :=
  forall j m, j < n -> models !! j = Some m ->
    fst (attempt self prompt timestamp m
           (rounds self prompt timestamp (take j models) w)) = Ret None.

(** Where a run [r] of the loop over [models] from [w] stops: with the first
    round that returns a file name or raises, in the world that round
    leaves, so that the requests sent are those of the models up to that one
    and of no later model; [None] comes back when no round returned a file
    name, after the requests of all models. *)
Definition stops_at_first_success (self : StableDiffusionImageGenerator)
           (prompt timestamp : string) (models : list (string * generate_func))
           (w : World) (r : res (option string) * World) : Prop :=
  match fst r with
  | Ret None =>
      fruitless self prompt timestamp models (length models) w /\
      snd r = rounds self prompt timestamp models w /\
      calls (snd r) = (calls w ++ map (request_of self prompt) models)%list
  | _ =>
      exists n m, models !! n = Some m /\
        fruitless self prompt timestamp models n w /\
        r = attempt self prompt timestamp m
              (rounds self prompt timestamp (take n models) w) /\
        calls (snd r)
        = (calls w ++ map (request_of self prompt) (take (S n) models))%list
  end.
End SetupRuns.

Module ScriptRuns.
Import StableDiffusionScript ScriptRequests.

(** What a run of [main]'s loop over [model_ids] from [w] guarantees about
    its result [r]: the requests sent are, in list order, the gateway and
    the direct request of each of the first [n] models, followed by those
    of the round that ended the run ([last]); [success] is false only after
    every model was tried both ways; when it is true the run ended with
    the attempt that saved the image, and no later model was called. *)
Definition ordered_run (prompt : string) (model_ids : list string) (w : World)
           (r : res bool * World) : Prop :=
  exists n reads last,
    progress (flat_map (requests_of prompt) (take n model_ids) ++ last) reads w (snd r) /\
    match fst r with
    | Ret false => n = length model_ids /\ last = []
    | Ret true =>
        exists model_id w1, model_ids !! n = Some model_id /\
          attempt prompt model_id w1 = (Ret true, snd r) /\
          (last = [gateway_request prompt model_id 1024 1024]
           \/ last = requests_of prompt model_id)
    | Raise _ =>
        exists model_id, model_ids !! n = Some model_id /\
          (last = [gateway_request prompt model_id 1024 1024]
           \/ last = requests_of prompt model_id)
    end.

(** the world after the rounds of [main]'s loop on [model_ids], one after
    the other, from [w] *)
Fixpoint rounds (prompt : string) (model_ids : list string) (w : World) : World :=
  match model_ids with
  | [] => w
  | model_id :: rest => rounds prompt rest (snd (attempt prompt model_id w))
  end.

(** each of the first [n] rounds from [w] ends with [success] false, without
    raising *)
Definition fruitless (prompt : string) (model_ids : list string) (n : nat)
           (w : World) : Prop :=
  forall j model_id, j < n -> model_ids !! j = Some model_id ->
    fst (attempt prompt model_id (rounds prompt (take j model_ids) w)) = Ret false.

(** Where a run [r] of [main]'s loop over [model_ids] from [w] stops: with
    the first round that ends with [success] true or raises, in the world
    that round leaves; the requests sent are the two of every earlier model
    and the gateway request, or both requests, of that model, and none of a
    later model.  [success] is false when no round saved an image, after
    both requests of every model. *)
Definition stops_at_first_success (prompt : string) (model_ids : list string)
           (w : World) (r : res bool * World) : Prop :=
  match fst r with
  | Ret false =>
      fruitless prompt model_ids (length model_ids) w /\
      snd r = rounds prompt model_ids w /\
      calls (snd r) = (calls w ++ flat_map (requests_of prompt) model_ids)%list
  | _ =>
      exists n model_id, model_ids !! n = Some model_id /\
        fruitless prompt model_ids n w /\
        r = attempt prompt model_id (rounds prompt (take n model_ids) w) /\
        (calls (snd r)
         = (calls w ++ flat_map (requests_of prompt) (take n model_ids)
              ++ [gateway_request prompt model_id 1024 1024])%list
         \/ calls (snd r)
            = (calls w ++ flat_map (requests_of prompt) (take (S n) model_ids))%list)
  end.
End ScriptRuns.



Module SetupPayloads.
Import SetupStableDiffusion.

End SetupPayloads.

(** ** File names *)

(** the provider identifier with every [:] and [.] replaced by [_] *)
Fixpoint sanitized (id : string) : string :=
  match id with
  | EmptyString => EmptyString
  | String c rest =>
      String (if Ascii.eqb c ":" || Ascii.eqb c "." then "_"%char else c) (sanitized rest)
  end.

(** [generated_image_{sanitized_provider}_{timestamp}_{index}.png] *)
Definition artifact_path (provider timestamp : string) (index : nat) : string :=
  ("generated_image_" ++ sanitized provider ++ "_" ++ timestamp ++ "_"
     ++ PyStr.of_nat index ++ ".png")%string.

(** ** Time stamps *)

(** the ranges of the fields of a [datetime] read from a running clock *)
Definition valid_datetime (d : datetime) : bool :=
  ((1000 <=? year d) && (year d <? 100 * 100) &&
   (1 <=? month d) && (month d <=? 12) && (1 <=? day d) && (day d <=? 31) &&
   (hour d <=? 23) && (minute d <=? 59) && (second d <=? 59))%nat.

Definition is_digit (c : ascii) : bool :=
  let n := N_of_ascii c in (48 <=? n)%N && (n <=? 57)%N.

(** exactly [k] decimal digits *)
Definition digits (k : nat) (s : string) : bool :=
  (String.length s =? k)%nat && forallb is_digit (PyStr.to_list s).

(** [YYYYMMDD_HHMMSS] *)
Definition timestamp_shape (ts : string) : Prop :=
  exists date time : string, ts = (date ++ "_" ++ time)%string /\ digits 8 date = true /\ digits 6 time = true.

(** the world [w] with another transport *)
Definition with_transport (tr : nat -> request -> outcome) (w : World) : World :=
  mkWorld tr (calls w) (clock w) (clock_reads w) (disk w) (fs w) (stdout w)
          (sdk_clients w).



(** ** Concrete worlds *)
Module Scenarios.

Definition self : SetupStableDiffusion.StableDiffusionImageGenerator :=
  {| SetupStableDiffusion.region := "us-east-1" |}.

Definition replies (body : pyval) : outcome := Responds (Response 200 "" (Some body)).
Definition transport_error : outcome := Fails (Exc ConnectionError "transport error").

(** 2 January 2025, 03:04 and [s] seconds *)
Definition at_second (s : nat) : datetime := DateTime 2025 1 2 3 4 s.

(** empty disk, nothing printed, nothing sent; every write succeeds and
    every SDK client can be created *)
Definition world (tr : nat -> request -> outcome) (clk : nat -> datetime) : World :=
  mkWorld tr [] clk 0 (fun _ => DiskOk) ∅ [] (fun _ _ => None).

Definition hello : pyval := PDict [("artifacts", PList [PDict [("base64", PStr "aGVsbG8=")]])].
Definition two_artifacts : pyval :=
  PDict [("artifacts", PList [PDict [("base64", PStr "aGVsbG8=")];
                              PDict [("base64", PStr "aGk=")]])].
Definition hi_data : pyval := PDict [("data", PList [PDict [("b64_json", PStr "aGk=")]])].
Definition two_data : pyval :=
  PDict [("data", PList [PDict [("b64_json", PStr "aGVsbG8=")];
                         PDict [("b64_json", PStr "aGk=")]])].
Definition bad_then_hi_data : pyval :=
  PDict [("data", PList [PDict [("b64_json", PStr "a")];
                         PDict [("b64_json", PStr "aGk=")]])].

(** every call is answered with [body]; the clock advances a second per reading *)
Definition answering (body : pyval) : World := world (fun _ _ => replies body) at_second.
(** every call fails *)
Definition failing : World := world (fun _ _ => transport_error) at_second.
(** the first call is answered with [hello], later ones with [hi]; the
    clock stands still *)
Definition hello_then_hi : World :=
  world (fun n _ => replies (if (n =? 0)%nat then hello
                             else PDict [("artifacts",
                                          PList [PDict [("base64", PStr "aGk=")]])]))
        (fun _ => at_second 5).

(** the world [w] with a disk on which every write fails when three bytes
    have been written *)
Definition breaking_disk (w : World) : World :=
  mkWorld (transport w) (calls w) (clock w) (clock_reads w)
          (fun _ => WriteFails (Exc OSError "[Errno 28] No space left on device") 3)
          (fs w) (stdout w) (sdk_clients w).

Definition p1_stability : list (string * SetupStableDiffusion.generate_func) :=
  [("p1", SetupStableDiffusion.GenerateImageStabilityAI)].
Definition p1_titan : list (string * SetupStableDiffusion.generate_func) :=
  [("p1", SetupStableDiffusion.GenerateImageTitan)].

End Scenarios.

(** ** Model discovery *)
Module Discovery.

(** the keyword occurs in the identifier when letter case is ignored *)
Definition occurs_ignoring_case (keyword id : string) : Prop :=
  exists pre mid post : string,
    id = (pre ++ mid ++ post)%string /\ PyStr.lower mid = PyStr.lower keyword.

(** the test of the scripts: [keyword in id.lower()] *)
Definition matches (keyword id : string) : bool :=
  PyStr.contains keyword (PyStr.lower id).

(** the request [get_available_models] sends *)
Definition models_request : request :=
  RequestsGet (ClaudeGateway.api_base_url ++ "/models")
              [("Authorization", ("Bearer " ++ ClaudeGateway.api_key)%string)].

(** a listing: the entries of the response and their identifiers *)
Definition lists (field : string) (entries : list pyval) (ids : list string) : Prop :=
  Forall2 (fun entry id => Py.getitem entry field = inr (PStr id)) entries ids.



(** a gateway listing and an SDK listing with mixed-case identifiers *)
Definition sample_entries : list pyval :=
  [PDict [("id", PStr "anthropic.Claude-3-Sonnet"); ("object", PStr "model")];
   PDict [("id", PStr "amazon.titan-text-express-v1")];
   PDict [("id", PStr "us.anthropic.claude-v2")]].
Definition sample_summaries : list pyval :=
  [PDict [("modelId", PStr "stability.Stable-Diffusion-XL");
          ("modelName", PStr "SDXL"); ("providerName", PStr "Stability AI")];
   PDict [("modelId", PStr "anthropic.claude-v2");
          ("modelName", PStr "Claude"); ("providerName", PStr "Anthropic")]].
Definition sample_listing : response :=
  Response 200 "" (Some (PDict [("object", PStr "list"); ("data", PList sample_entries)])).
Definition sample_summary_listing : response :=
  Response 200 "" (Some (PDict [("modelSummaries", PList sample_summaries)])).

(** a world whose gateway and SDK answer with the sample listings *)
Definition sample_world : World :=
  mkWorld (fun _ rq => match rq with
                       | RequestsGet _ _ => Responds sample_listing
                       | ListFoundationModels _ => Responds sample_summary_listing
                       | _ => Fails (Exc ConnectionError "connection refused")
                       end)
          [] (fun _ => DateTime 2025 1 2 3 4 5) 0 (fun _ => DiskOk) ∅ []
          (fun _ _ => None).



Definition empty_catalog : outcome :=
  Responds (Response 200 "" (Some (PDict [("data", PList [])]))).
Definition empty_summaries : outcome :=
  Responds (Response 200 "" (Some (PDict [("modelSummaries", PList [])]))).

End Discovery.

(** ** Notions used to state the properties of [call_claude_model] *)
Module Chat.
Import ClaudeGateway.

(** [response_data["choices"][0]["message"]["content"]] *)
Definition first_content (response_data : pyval) : exn + pyval :=
  and_then (Py.getitem response_data "choices") (fun choices =>
  and_then (getindex choices 0) (fun choice =>
  and_then (Py.getitem choice "message") (fun message =>
  Py.getitem message "content"))).

(** what [call_claude_model] returns for an answer of the gateway: the content
    of the first choice of a 200 answer, [None] for anything else *)
Definition answer (o : outcome) : pyval :=
  match o with
  | Fails _ => PNone
  | Responds r =>
      if (status_code r =? 200)%Z then
        match json_body r with
        | Some response_data =>
            match first_content response_data with inr v => v | inl _ => PNone end
        | None => PNone
        end
      else PNone
  end.

(** the lines printed when no listed model is a Claude model *)
Definition no_claude_lines (models : list pyval) : list (list frag) :=
  [Lit "No Claude models available. Available models:"]
    :: map (fun model => [Lit "- "; Val model]) models.

End Chat.

(** ** Notions used to state the properties of the two generators *)


Module ScriptMain.
Import StableDiffusionScript.

(** the prompt [main] takes from [sys.argv] *)
Definition prompt_of (argv : list string) : string :=
  if (1 <? length argv)%nat then PyStr.join " " (tl argv)
  else "A beautiful sunset over a mountain landscape, digital art style".

(** the request of the failure report *)
Definition models_request : request :=
  RequestsGet "http://localhost:50399/api/v1/models" [("Authorization", "Bearer bedrock")].

(** the world when [main] enters its loop: the banner, the prompt and an
    empty line have been printed *)
Definition started (argv : list string) (w : World) : World :=
  put_line [Lit ""]
    (put_line [Lit ("Generating image for prompt: '" ++ prompt_of argv ++ "'")]
       (put_line [Lit "=== Stable Diffusion Image Generator ==="] w)).

(** the identifiers the failure report prints *)
Definition reported (ids : list string) : list string :=
  List.filter (fun id => is_image_id (PyStr.lower id)) ids.

End ScriptMain.

(** no comma in [s] *)
Definition comma_free (s : string) : bool :=
  forallb (fun a => negb (Ascii.eqb a ",")) (PyStr.to_list s).

(** the character [c] does not occur in [s] *)
Definition lacks (c : ascii) (s : string) : bool :=
  forallb (fun a => negb (Ascii.eqb a c)) (PyStr.to_list s).

(** ** More of Python's library, as the remaining scripts use it *)
Module PyLib.

(** [s.isdigit()] on ASCII text: not empty, decimal digits only *)
Definition isdigit (s : string) : bool :=
  negb (String.eqb s EmptyString) && forallb is_digit (PyStr.to_list s).

(** [s[n:]] *)
Fixpoint drop (n : nat) (s : string) : string :=
  match n, s with
  | O, _ => s
  | S k, String _ s' => drop k s'
  | S _, EmptyString => EmptyString
  end.

(** [s.endswith(p)] *)
Definition endswith (s p : string) : bool :=
  String.eqb (drop (String.length s - String.length p) s) p.

(** [fnmatch] for a pattern [pre*suf] with one star: the name begins with
    [pre], and what follows ends with [suf] *)
Definition fnmatch_star (pre suf name : string) : bool :=
  String.prefix pre name && endswith (drop (String.length pre) name) suf.

(** [s.replace(old, new)] for a non-empty [old]: occurrences are replaced
    from the left and do not overlap; [skip] counts the characters of an
    occurrence still to be dropped *)
Fixpoint replace_from (old new : string) (skip : nat) (s : string) : string :=
  match s with
  | EmptyString => EmptyString
  | String c s' =>
      match skip with
      | S k => replace_from old new k s'
      | O =>
          if String.prefix old s
          then (new ++ replace_from old new (String.length old - 1) s')%string
          else String c (replace_from old new 0 s')
      end
  end.
Definition replace (old new s : string) : string := replace_from old new 0 s.

(** [l.index(x)] *)
Fixpoint index (x : string) (l : list string) : exn + nat :=
  match l with
  | [] => inl (Exc ValueError ("'" ++ x ++ "' is not in list"))
  | y :: l' => if String.eqb y x then inr 0 else and_then (index x l') (fun i => inr (S i))
  end.

(** the inside of [f"{n:,}"]: the decimal digits in groups of three *)
Fixpoint group3 (s : string) : string :=
  match s with
  | EmptyString => EmptyString
  | String c s' =>
      String c (if negb (String.length s' =? 0)%nat && (String.length s' mod 3 =? 0)%nat
                then String "," (group3 s') else group3 s')
  end.
Definition thousands (n : nat) : string := group3 (PyStr.of_nat n).

(** the integer nearest to [a / b], a tie going to the even one *)
Definition round_half_even (a b : Z) : Z :=
  let q := (a / b)%Z in
  let r := (a mod b)%Z in
  if (2 * r <? b)%Z then q
  else if (b <? 2 * r)%Z then (q + 1)%Z
  else if Z.even q then q else (q + 1)%Z.

(** [round(size_bytes / (1024 * 1024), 2)]: the float nearest to a number of
    hundredths (the quotient is exact below 2^53 bytes) *)
Definition round_mb (size_bytes : nat) : pyval :=
  PFloat (round_half_even (Z.of_nat size_bytes * 100) (1024 * 1024)) 100.

(** [a < b] on strings: by code points, which is by bytes *)
Definition str_lt (a b : string) : bool :=
  match String.compare a b with Lt => true | _ => false end.

(** [l.sort(key=key, reverse=True)]: descending by key, entries with equal
    keys in their former order *)
Fixpoint insert_reverse {A} (key : A -> string) (x : A) (l : list A) : list A :=
  match l with
  | [] => [x]
  | y :: l' => if str_lt (key x) (key y) then y :: insert_reverse key x l' else x :: l
  end.
Definition sort_reverse {A} (key : A -> string) (l : list A) : list A :=
  fold_right (insert_reverse key) [] l.

Definition digit_value (c : ascii) : option nat :=
  if is_digit c then Some (nat_of_ascii c - 48) else None.

(** one numeric field of a [strptime] pattern: two digits that read a number
    from [lo2] to [hi2], else one digit from [lo1] on; [k] is the rest of
    the pattern, and the second alternative is tried when the first one or
    what follows it fails *)
Definition field {A} (lo2 hi2 lo1 : nat) (s : string)
           (k : nat -> string -> option A) : option A :=
  let two :=
    match s with
    | String a (String b rest) =>
        match digit_value a, digit_value b with
        | Some x, Some y =>
            let n := 10 * x + y in
            if (lo2 <=? n)%nat && (n <=? hi2)%nat then k n rest else None
        | _, _ => None
        end
    | _ => None
    end in
  match two with
  | Some r => Some r
  | None =>
      match s with
      | String a rest =>
          match digit_value a with
          | Some x => if (lo1 <=? x)%nat then k x rest else None
          | None => None
          end
      | EmptyString => None
      end
  end.

(** the day field has a third alternative, a blank and a digit from 1 on *)
Definition day_field {A} (s : string) (k : nat -> string -> option A) : option A :=
  match field 1 31 1 s k with
  | Some r => Some r
  | None =>
      match s with
      | String " " (String b rest) =>
          match digit_value b with
          | Some y => if (1 <=? y)%nat then k y rest else None
          | None => None
          end
      | _ => None
      end
  end.

(** four digits *)
Definition year_field {A} (s : string) (k : nat -> string -> option A) : option A :=
  match s with
  | String a (String b (String c (String d rest))) =>
      match digit_value a, digit_value b, digit_value c, digit_value d with
      | Some x, Some y, Some z, Some u => k (1000 * x + 100 * y + 10 * z + u) rest
      | _, _, _, _ => None
      end
  | _ => None
  end.

Definition literal {A} (c : ascii) (s : string) (k : string -> option A) : option A :=
  match s with
  | String a rest => if Ascii.eqb a c then k rest else None
  | EmptyString => None
  end.

Definition leap_year (y : nat) : bool :=
  ((y mod 4 =? 0) && (negb (y mod 100 =? 0) || (y mod 400 =? 0)))%nat.

Definition days_in_month (y m : nat) : nat :=
  match m with
  | 2 => if leap_year y then 29 else 28
  | 4 | 6 | 9 | 11 => 30
  | _ => 31
  end.

(** [datetime.strptime(s, "%Y%m%d_%H%M%S")]: the pattern is matched from the
    start of [s], text left over is an error, and so are a day the month
    does not have, the year 0 and a second above 59 *)
Definition strptime (s : string) : exn + datetime :=
  match year_field s (fun y s1 =>
        field 1 12 1 s1 (fun m s2 =>
        day_field s2 (fun d s3 =>
        literal "_" s3 (fun s4 =>
        field 0 23 0 s4 (fun h s5 =>
        field 0 59 0 s5 (fun mi s6 =>
        field 0 61 0 s6 (fun sec rest =>
        Some (DateTime y m d h mi sec, rest)))))))) with
  | None =>
      inl (Exc ValueError
             ("time data '" ++ s ++ "' does not match format '%Y%m%d_%H%M%S'"))
  | Some (dt, rest) =>
      if negb (String.eqb rest EmptyString)
      then inl (Exc ValueError ("unconverted data remains: " ++ rest))
      else if (year dt =? 0)%nat
      then inl (Exc ValueError "year 0 is out of range")
      else if (days_in_month (year dt) (month dt) <? day dt)%nat
      then inl (Exc ValueError "day is out of range for month")
      else if (59 <? second dt)%nat
      then inl (Exc ValueError "second must be in 0..59")
      else inr dt
  end.

(** [dt.strftime("%Y-%m-%d %H:%M:%S")]; the year is printed without padding *)
Definition strftime_display (d : datetime) : string :=
  (PyStr.of_nat (year d) ++ "-" ++ PyStr.pad 2 (month d) ++ "-" ++ PyStr.pad 2 (day d)
     ++ " " ++ PyStr.pad 2 (hour d) ++ ":" ++ PyStr.pad 2 (minute d) ++ ":"
     ++ PyStr.pad 2 (second d))%string.

(** [s * n] *)
Fixpoint times (s : string) (n : nat) : string :=
  match n with O => EmptyString | S k => (s ++ times s k)%string end.

(** [os.path.getsize(filename)] and the size [os.stat(filename)] reports *)
Definition getsize (filename : string) : M nat :=
  fun w => match fs w !! filename with
           | Some data => (Ret (length data), w)
           | None => (Raise (Exc OSError ("[Errno 2] No such file or directory: '"
                                           ++ filename ++ "'")), w)
           end.

End PyLib.

(** ** [claude_gateway.py]: [main] *)
Module ClaudeGatewayMain.

(** [argv] is [sys.argv] *)
Definition main (argv : list string) : M unit :=
  let prompt :=
    if (1 <? length argv)%nat then PyStr.join " " (tl argv)
    else "What are the three laws of robotics?" in
  print ("Sending prompt to Claude 3.7: '" ++ prompt ++ "'") ;;
  print (nl ++ "Waiting for response..." ++ nl) ;;
  let* response := ClaudeGateway.call_claude_model prompt None in
  if Py.truthy response then
    print "Claude's response:" ;;
    print (PyLib.times "-" 50) ;;
    printf [Val response] ;;
    print (PyLib.times "-" 50)
  else print "Failed to get a response from Claude.".

End ClaudeGatewayMain.

(** ** [setup_stable_diffusion.py]: [main] *)
Module SetupMain.
Import SetupStableDiffusion.

(** the double quote *)
Definition dq : string := String (ascii_of_nat 34) EmptyString.

(** the text [print_setup_instructions] prints, line by line *)
Definition setup_instructions_lines : list string :=
  [EmptyString;
   "=== Setup Instructions for Stable Diffusion Models ===";
   EmptyString;
   "To use Stable Diffusion models with AWS Bedrock, you need to:";
   EmptyString;
   "1. **Enable Model Access in AWS Console:**";
   "   - Go to AWS Bedrock console: https://console.aws.amazon.com/bedrock/";
   ("   - Navigate to " ++ dq ++ "Model access" ++ dq ++ " in the left sidebar")%string;
   "   - Request access to Stability AI models:";
   "     * stability.stable-diffusion-xl-v1:0";
   "     * stabilityai.stable-diffusion-3-5-large (if available)";
   "   - Request access to Amazon Titan Image Generator:";
   "     * amazon.titan-image-generator-v1";
   EmptyString;
   "2. **Check Regional Availability:**";
   "   - Stable Diffusion models are available in limited regions";
   "   - Try these regions: us-east-1, us-west-2, eu-west-1";
   "   - Update your AWS region in the script if needed";
   EmptyString;
   "3. **IAM Permissions:**";
   "   Ensure your AWS credentials have these permissions:";
   "   ```json";
   "   {";
   ("       " ++ dq ++ "Version" ++ dq ++ ": " ++ dq ++ "2012-10-17" ++ dq ++ ",")%string;
   ("       " ++ dq ++ "Statement" ++ dq ++ ": [")%string;
   "           {";
   ("               " ++ dq ++ "Effect" ++ dq ++ ": " ++ dq ++ "Allow" ++ dq ++ ",")%string;
   ("               " ++ dq ++ "Action" ++ dq ++ ": [")%string;
   ("                   " ++ dq ++ "bedrock:InvokeModel" ++ dq ++ ",")%string;
   ("                   " ++ dq ++ "bedrock:ListFoundationModels" ++ dq)%string;
   "               ],";
   ("               " ++ dq ++ "Resource" ++ dq ++ ": " ++ dq ++ "*" ++ dq)%string;
   "           }";
   "       ]";
   "   }";
   "   ```";
   EmptyString;
   "4. **Provisioned Throughput (if required):**";
   "   - Some models may require provisioned throughput";
   "   - Check the Bedrock console for throughput requirements";
   "   - Purchase provisioned throughput if needed";
   EmptyString;
   "5. **Test Different Regions:**";
   "   - Try running this script with different AWS regions";
   "   - Use: python3 setup_stable_diffusion.py --region us-west-2";
   EmptyString;
   EmptyString].

Definition print_setup_instructions : M unit :=
  print (String.concat nl setup_instructions_lines).

(** what [parser.parse_args()] returns *)
Record Namespace := {
  prompt : list string;
  region_arg : string;
  list_models : bool;
  setup_help : bool }.

(** [main] from the parsed arguments on *)
Definition main (args : Namespace) : M unit :=
  if setup_help args then print_setup_instructions
  else
    let* generator := init (region_arg args) in
    if list_models args then
      list_available_models generator ;; ret tt
    else
      let prompt := PyStr.join " " (prompt args) in
      print "=== Stable Diffusion Image Generator ===" ;;
      print ("Region: " ++ region_arg args) ;;
      print ("Prompt: " ++ prompt) ;;
      print "" ;;
      let* filename := generate_image generator prompt in
      match filename with
      | Some filename =>
          if negb (String.eqb filename EmptyString) then
            print (nl ++ "🎉 Success! Image generated and saved as: " ++ filename) ;;
            try_except
              (let* size := PyLib.getsize filename in
               print ("File size: " ++ PyLib.thousands size ++ " bytes"))
              (fun _ => ret tt)
          else
            print (nl ++ "❌ Failed to generate image.") ;;
            print (nl ++ "Troubleshooting steps:") ;;
            print "1. Run with --setup-help to see setup instructions" ;;
            print "2. Run with --list-models to see available models" ;;
            print "3. Try a different region with --region us-west-2" ;;
            print "4. Check AWS Bedrock console for model access"
      | None =>
          print (nl ++ "❌ Failed to generate image.") ;;
          print (nl ++ "Troubleshooting steps:") ;;
          print "1. Run with --setup-help to see setup instructions" ;;
          print "2. Run with --list-models to see available models" ;;
          print "3. Try a different region with --region us-west-2" ;;
          print "4. Check AWS Bedrock console for model access"
      end.

End SetupMain.

(** ** [image_viewer.py] *)
Module ImageViewer.

(** the names the pattern [generated_image_*.png] matches *)
Definition pattern_matches (name : string) : bool :=
  PyLib.fnmatch_star "generated_image_" ".png" name.

(** a file of the working directory itself: its path has no slash *)
Definition in_cwd (name : string) : bool := lacks "/" name.

(** [glob.glob('generated_image_*.png')]: the matching files of the working
    directory, those of other directories are not looked at; the order in
    which a directory yields its names is not specified, here it is the
    order in which the map of files lists them *)
Definition glob (w : World) : list string :=
  List.filter (fun name => in_cwd name && pattern_matches name)
              (map fst (map_to_list (fs w))).

Definition model_of (filename : string) : string :=
  if PyStr.contains "titan" filename then "Amazon Titan Image Generator"
  else if PyStr.contains "stable" filename then "Stability AI SDXL"
  else "Unknown".

Definition timestamp_of (filename : string) : string :=
  let parts := PyStr.split "_" filename in
  if (3 <=? length parts)%nat
  then (nth (length parts - 3) parts EmptyString ++ " "
          ++ nth (length parts - 2) parts EmptyString)%string
  else "Unknown".

(** the dictionary built for one file of [size_bytes] bytes *)
Definition describe (filename : string) (size_bytes : nat) : pyval :=
  PDict [("filename", PStr filename);
         ("size_mb", PyLib.round_mb size_bytes);
         ("model", PStr (model_of filename));
         ("timestamp", PStr (timestamp_of filename))].

(** the [for filename in image_files] loop; [images] is the list so far, a
    file that cannot be read is passed over *)
Fixpoint collect (image_files : list string) (images : list pyval) : M (list pyval) :=
  match image_files with
  | [] => ret images
  | filename :: rest =>
      let* images :=
        try_except
          (let* size_bytes := PyLib.getsize filename in
           ret (images ++ [describe filename size_bytes]))
          (fun _ => ret images) in
      collect rest images
  end.

(** [x['filename']] of a dictionary built by [describe] *)
Definition filename_of (x : pyval) : string :=
  match Py.getitem x "filename" with
  | inr (PStr s) => s
  | _ => EmptyString
  end.

(** [index] for a given result of the glob: the [images] handed to the template *)
Definition index_from (image_files : list string) : M (list pyval) :=
  let* images := collect image_files [] in
  ret (PyLib.sort_reverse filename_of images).

Definition index : M (list pyval) := fun w => index_from (glob w) w.

End ImageViewer.

(** ** [image_gallery_server.py] *)
Module ImageGalleryServer.

Definition model_of (filename : string) : string :=
  if PyStr.contains "amazon" filename then "Amazon Titan Image Generator"
  else if PyStr.contains "stability" filename then "Stability AI SDXL"
  else "Unknown".

(** the [for part in parts] loop over [remaining]: the value of [timestamp]
    when the loop is left *)
Fixpoint created (parts remaining : list string) : exn + string :=
  match remaining with
  | [] => inr "Unknown"
  | part :: rest =>
      if (String.length part =? 8)%nat && PyLib.isdigit part then
        and_then (PyLib.index part parts) (fun i =>
        let time_part :=
          if (i + 1 <? length parts)%nat then nth (i + 1) parts EmptyString
          else EmptyString in
        if (String.length time_part =? 6)%nat && PyLib.isdigit time_part then
          match PyLib.strptime (part ++ "_" ++ time_part) with
          | inr dt => inr (PyLib.strftime_display dt)
          | inl _ => inr "Unknown"
          end
        else inr "Unknown")
      else created parts rest
  end.

Definition get_image_info (filename : string) : M pyval :=
  try_except
    (let* st_size := PyLib.getsize filename in
     let parts := PyStr.split "_" (PyLib.replace ".png" "" filename) in
     let model := model_of filename in
     let* timestamp := lift (created parts parts) in
     ret (PDict [("filename", PStr filename);
                 ("model", PStr model);
                 ("created", PStr timestamp);
                 ("size", PStr (PyLib.thousands st_size ++ " bytes"));
                 ("prompt", PStr "Generated image")]))
    (fun _ => ret PNone).

End ImageGalleryServer.

(** no entry of the list is followed by one that compares greater *)
Fixpoint descending (l : list string) : bool :=
  match l with
  | a :: (b :: _) as rest => negb (PyLib.str_lt a b) && descending rest
  | _ => true
  end.

(** ** Notions used to state the properties of the gallery *)

(** a part of a name the gallery takes for a date: eight digits *)
Definition date_like (part : string) : bool :=
  (String.length part =? 8)%nat && PyLib.isdigit part.

(** no part of the model id, as it stands in a file name, looks like a date *)
Definition no_date_part (model_id : string) : bool :=
  forallb (fun part => negb (date_like part))
          (PyStr.split "_" (PyStr.replace "." "_" (PyStr.replace ":" "_" model_id))).

(** a clock reading whose day exists in its month *)
Definition calendar_datetime (d : datetime) : bool :=
  valid_datetime d && (day d <=? PyLib.days_in_month (year d) (month d))%nat.

(** the character of a decimal digit *)
Definition digit_char (k : nat) : ascii := ascii_of_nat (48 + k).

(** ** Notions used to state the properties of the two [main] functions *)

(** the world when [main] of [setup_stable_diffusion.py] starts to generate:
    the banner, the region, the prompt and an empty line have been printed *)
Definition generation_started (args : SetupMain.Namespace) (w : World) : World :=
  put_line [Lit ""]
    (put_line [Lit ("Prompt: " ++ PyStr.join " " (SetupMain.prompt args))]
       (put_line [Lit ("Region: " ++ SetupMain.region_arg args)]
          (put_line [Lit "=== Stable Diffusion Image Generator ==="] w))).

(** how the construction of the generator for [region] ends in [w]: with
    the exception of the first of its two clients that cannot be created, if
    there is one *)
Definition construction_failure (region : string) (w : World) : option exn :=
  match sdk_clients w "bedrock-runtime" region with
  | Some e => Some e
  | None => sdk_clients w "bedrock" region
  end.

(** the world [w] when the SDK rejects the name of the region [region] *)
Definition rejecting_region (region : string) (w : World) : World :=
  mkWorld (transport w) (calls w) (clock w) (clock_reads w) (disk w) (fs w) (stdout w)
          (fun service r =>
             if String.eqb r region
             then Some (Exc ValueError ("Provided region_name '" ++ region
                                          ++ "' doesn't match a supported format."))
             else sdk_clients w service r).

(** the prompt [main] of [claude_gateway.py] takes from [sys.argv] *)
Definition claude_prompt (argv : list string) : string :=
  if (1 <? length argv)%nat then PyStr.join " " (tl argv)
  else "What are the three laws of robotics?".

(** the world when that [main] calls the model: two lines have been printed *)
Definition claude_started (argv : list string) (w : World) : World :=
  put_line [Lit (nl ++ "Waiting for response..." ++ nl)]
    (put_line [Lit ("Sending prompt to Claude 3.7: '" ++ claude_prompt argv ++ "'")] w).

(** the first pair that differs has the smaller number on the left *)
Fixpoint lex_lt (l : list (nat * nat)) : bool :=
  match l with
  | [] => false
  | (x, y) :: rest => (x <? y)%nat || ((x =? y)%nat && lex_lt rest)
  end.

(** the reading [a] is earlier than the reading [b] *)
Definition earlier (a b : datetime) : bool :=
  lex_lt [(year a, year b); (month a, month b); (day a, day b);
          (hour a, hour b); (minute a, minute b); (second a, second b)].

(** * Properties *)

Local Open Scope string_scope.

Example b64_hello :
  Base64.b64decode (PStr "aGVsbG8=") = inr (list_byte_of_string "hello").
Proof. reflexivity. Qed.

Example b64_stops_after_padding :
  Base64.b64decode (PStr "aGk=,x") = inr (list_byte_of_string "hi").
Proof. reflexivity. Qed.

Example b64_unfinished_quad : exists e, Base64.b64decode (PStr "aG") = inl e.
Proof. eexists; reflexivity. Qed.

Example b64_skips_comma :
  Base64.b64decode (PStr "aG,k=") = inr (list_byte_of_string "hi").
Proof. reflexivity. Qed.

(** ** Strings *)
Section Strings.

Lemma to_list_app (s t : string) :
  PyStr.to_list (s ++ t) = (PyStr.to_list s ++ PyStr.to_list t)%list.
Proof. induction s as [|c s IH]; simpl; [reflexivity | now rewrite IH]. Qed.

Lemma to_list_inj (s t : string) : PyStr.to_list s = PyStr.to_list t -> s = t.
Proof.
  intros H. rewrite <- (string_of_list_ascii_of_string s),
                    <- (string_of_list_ascii_of_string t).
  unfold PyStr.to_list in H. now rewrite H.
Qed.

(** a string without the separator is one field *)
Lemma split_no_sep (c : ascii) (s : string) :
  forallb (fun a => negb (Ascii.eqb a c)) (PyStr.to_list s) = true ->
  PyStr.split c s = [s].
Proof.
  induction s as [|a s IH]; simpl; [reflexivity|].
  intros H. apply andb_prop in H as [Ha Hs].
  destruct (Ascii.eqb a c); [discriminate|]. now rewrite (IH Hs).
Qed.

Lemma split_cons_field (c : ascii) (p s : string) :
  forallb (fun a => negb (Ascii.eqb a c)) (PyStr.to_list p) = true ->
  PyStr.split c (p ++ String c s) = p :: PyStr.split c s.
Proof.
  induction p as [|a p IH]; simpl.
  - intros _. now rewrite Ascii.eqb_refl.
  - intros H. apply andb_prop in H as [Ha Hp].
    destruct (Ascii.eqb a c); [discriminate|]. now rewrite (IH Hp).
Qed.

Lemma base64_char_not_comma (c : ascii) :
  base64_char c = true -> negb (Ascii.eqb c ",") = true.
Proof.
  destruct (Ascii.eqb_spec c ","%char) as [->|]; [discriminate | reflexivity].
Qed.

Lemma base64_text_no_comma (b : string) :
  base64_text b = true ->
  forallb (fun a => negb (Ascii.eqb a ",")) (PyStr.to_list b) = true.
Proof.
  unfold base64_text. induction (PyStr.to_list b) as [|c l IH]; simpl; [reflexivity|].
  intros H. apply andb_prop in H as [Hc Hl].
  now rewrite (base64_char_not_comma _ Hc), (IH Hl).
Qed.

Lemma prefix_app (p s : string) :
  String.prefix p s = true -> exists t, s = p ++ t.
Proof.
  revert s. induction p as [|a p IH]; intros s H.
  - exists s. reflexivity.
  - destruct s as [|b s]; simpl in H; [discriminate|].
    destruct (ascii_dec a b) as [->|]; [|discriminate].
    destruct (IH s H) as [t ->]. now exists t.
Qed.

Lemma prefix_of_app (p t : string) : String.prefix p (p ++ t) = true.
Proof.
  induction p as [|a p IH]; simpl; [now destruct t|].
  destruct (ascii_dec a a); [exact IH | congruence].
Qed.

(** base64 text never begins like a data URL: its fifth character would be a colon *)
Lemma base64_text_not_url (b : string) :
  base64_text b = true -> PyStr.startswith b "data:image" = false.
Proof.
  intros Hb. unfold PyStr.startswith.
  destruct (String.prefix "data:image" b) eqn:Hp; [|reflexivity].
  apply prefix_app in Hp as [t ->].
  unfold base64_text in Hb. rewrite to_list_app, forallb_app in Hb.
  apply andb_prop in Hb as [Hb _]. vm_compute in Hb. discriminate.
Qed.

End Strings.

(** ** Saving one payload *)

Ltac run := unfold bind, try_except, lift, ret, raise, print, printf; simpl.

Lemma setup_save_persist self v filename w :
  SetupStableDiffusion.save_image_from_base64 self v filename w
  = persist "✓ Image saved as: " v filename w.
Proof.
  unfold SetupStableDiffusion.save_image_from_base64, persist, decode_payload,
    and_then, write_file.
  run.
  destruct (Py.startswith v "data:image") as [e|[|]]; simpl; try reflexivity.
  - destruct (Py.split_item v "," 1) as [e|v']; simpl; [reflexivity|].
    destruct (Base64.b64decode v') as [e|data]; simpl; [reflexivity|].
    destruct (disk w filename); reflexivity.
  - destruct (Base64.b64decode v) as [e|data]; simpl; [reflexivity|].
    destruct (disk w filename); reflexivity.
Qed.

Lemma script_save_persist v filename w :
  StableDiffusionScript.save_image_from_base64 v filename w
  = persist "Image saved as: " v filename w.
Proof.
  unfold StableDiffusionScript.save_image_from_base64, persist, decode_payload,
    and_then, write_file.
  run.
  destruct (Py.startswith v "data:image") as [e|[|]]; simpl; try reflexivity.
  - destruct (Py.split_item v "," 1) as [e|v']; simpl; [reflexivity|].
    destruct (Base64.b64decode v') as [e|data]; simpl; [reflexivity|].
    destruct (disk w filename); reflexivity.
  - destruct (Base64.b64decode v) as [e|data]; simpl; [reflexivity|].
    destruct (disk w filename); reflexivity.
Qed.

Lemma decode_payload_plain (b : string) :
  base64_text b = true -> decode_payload (PStr b) = Base64.b64decode (PStr b).
Proof.
  intros Hb. unfold decode_payload, and_then. simpl.
  now rewrite (base64_text_not_url b Hb).
Qed.

Lemma decode_payload_data_url (b : string) :
  base64_text b = true ->
  decode_payload (PStr (data_url_header ++ b)) = Base64.b64decode (PStr b).
Proof.
  intros Hb. unfold decode_payload, and_then, Py.startswith, Py.split_item.
  assert (Hs : PyStr.startswith (data_url_header ++ b) "data:image" = true).
  { unfold PyStr.startswith.
    change (data_url_header ++ b) with ("data:image" ++ ("/png;base64," ++ b)).
    apply prefix_of_app. }
  rewrite Hs.
  change (data_url_header ++ b) with ("data:image/png;base64" ++ String "," b).
  rewrite split_cons_field by reflexivity.
  rewrite (split_no_sep _ _ (base64_text_no_comma b Hb)). reflexivity.
Qed.

(** what a save leaves when the payload text decodes to [decoded] *)
Lemma persist_decoded line v filename w data :
  decode_payload v = inr data ->
  persist line v filename w
  = match disk w filename with
    | DiskOk => (Ret true, put_line [Lit (line ++ filename)]
                             (set_fs (<[filename := data]> (fs w)) w))
    | OpenFails e => (Ret false, put_line [Lit ("Error saving image: " ++ exn_msg e)] w)
    | WriteFails e written =>
        (Ret false, put_line [Lit ("Error saving image: " ++ exn_msg e)]
                      (set_fs (<[filename := take written data]> (fs w)) w))
    end.
Proof. intros H. unfold persist. now rewrite H. Qed.

Lemma persist_undecoded line v filename w e :
  decode_payload v = inl e ->
  persist line v filename w
  = (Ret false, put_line [Lit ("Error saving image: " ++ exn_msg e)] w).
Proof. intros H. unfold persist. now rewrite H. Qed.

(** C8. For base64 text [b], saving [data:image/png;base64,] followed by [b]
    writes what saving [b] itself writes: when [b] decodes and the file can
    be written, both saves return [True] and leave in the file exactly the
    bytes [base64.b64decode] gives for [b]; when [b] does not decode, both
    return [False] and no file is touched; and in every case the two saves
    end in the same result and the same world.  This holds for the method of
    [setup_stable_diffusion.py] and for the function of
    [stable_diffusion_image_generator.py]. *)
Theorem data_url_prefix_same_bytes (self : SetupStableDiffusion.StableDiffusionImageGenerator)
        (b filename : string) (w : World) :
  let prefixed := PStr (data_url_header ++ b) in
  let r := SetupStableDiffusion.save_image_from_base64 self prefixed filename w in
  let r0 := SetupStableDiffusion.save_image_from_base64 self (PStr b) filename w in
  let s := StableDiffusionScript.save_image_from_base64 prefixed filename w in
  let s0 := StableDiffusionScript.save_image_from_base64 (PStr b) filename w in
  base64_text b = true ->
  (forall data, Base64.b64decode (PStr b) = inr data -> disk w filename = DiskOk ->
     fst r = Ret true /\ fs (snd r) = <[filename := data]> (fs w)
     /\ fst r0 = Ret true /\ fs (snd r0) = <[filename := data]> (fs w)
     /\ fst s = Ret true /\ fs (snd s) = <[filename := data]> (fs w)
     /\ fst s0 = Ret true /\ fs (snd s0) = <[filename := data]> (fs w))
  /\ (forall e, Base64.b64decode (PStr b) = inl e ->
       fst r = Ret false /\ fs (snd r) = fs w /\ fst s = Ret false /\ fs (snd s) = fs w)
  /\ r = r0 /\ s = s0.
Proof.
  intros prefixed r r0 s s0 Hb.
  assert (Hp : decode_payload prefixed = Base64.b64decode (PStr b))
    by (now apply decode_payload_data_url).
  assert (H0 : decode_payload (PStr b) = Base64.b64decode (PStr b))
    by (now apply decode_payload_plain).
  subst r r0 s s0. rewrite !setup_save_persist, !script_save_persist.
  split; [|split; [|split]].
  - intros data Hd Hk. rewrite <- Hp in Hd.
    rewrite !(persist_decoded _ prefixed _ _ data Hd).
    rewrite Hp, <- H0 in Hd.
    rewrite !(persist_decoded _ (PStr b) _ _ data Hd).
    rewrite Hk. simpl. auto 8.
  - intros e He. rewrite <- Hp in He.
    rewrite !(persist_undecoded _ prefixed _ _ e He). simpl. auto.
  - unfold persist. now rewrite Hp, H0.
  - unfold persist. now rewrite Hp, H0.
Qed.

Lemma data_url_prefix_same_bytes_witness :
  let w := Scenarios.answering Scenarios.hello in
  let prefixed := PStr (data_url_header ++ "aGVsbG8=") in
  let r := SetupStableDiffusion.save_image_from_base64 Scenarios.self prefixed "out.png" w in
  let r0 := SetupStableDiffusion.save_image_from_base64 Scenarios.self (PStr "aGVsbG8=")
              "out.png" w in
  let s := StableDiffusionScript.save_image_from_base64 prefixed "out.png" w in
  let s0 := StableDiffusionScript.save_image_from_base64 (PStr "aGVsbG8=") "out.png" w in
  (fst r = Ret true /\ fs (snd r) = <["out.png" := list_byte_of_string "hello"]> (fs w)
   /\ fst r0 = Ret true /\ fs (snd r0) = <["out.png" := list_byte_of_string "hello"]> (fs w)
   /\ fst s = Ret true /\ fs (snd s) = <["out.png" := list_byte_of_string "hello"]> (fs w)
   /\ fst s0 = Ret true /\ fs (snd s0) = <["out.png" := list_byte_of_string "hello"]> (fs w))
  /\ r = r0 /\ s = s0.
Proof.
  cbv zeta.
  destruct (data_url_prefix_same_bytes Scenarios.self "aGVsbG8=" "out.png"
              (Scenarios.answering Scenarios.hello) eq_refl) as (H & _ & E & E').
  split; [exact (H (list_byte_of_string "hello") eq_refl eq_refl)|].
  split; [exact E | exact E'].
Defined.

Example data_url_saves_hello :
  fs (snd (SetupStableDiffusion.save_image_from_base64 Scenarios.self
             (PStr "data:image/png;base64,aGVsbG8=") "out.png"
             (Scenarios.answering Scenarios.hello))) !! "out.png"
  = Some (list_byte_of_string "hello").
Proof. vm_compute. reflexivity. Qed.

(** ** Adapters *)

Lemma gateway_returns_failure prompt model_id width height w :
  returns_failure_value
    (StableDiffusionScript.generate_image_via_gateway prompt model_id width height)
    (StableDiffusionScript.gateway_request prompt model_id width height) true w.
Proof.
  unfold StableDiffusionScript.generate_image_via_gateway.
  set (rq := StableDiffusionScript.gateway_request prompt model_id width height).
  unfold returns_failure_value, send, parse_json; run.
  destruct (transport w (length (calls w)) rq) as [[code txt [body|]]|e]; simpl;
    try destruct (code =? 200)%Z; simpl; eauto.
Qed.

Lemma direct_bedrock_returns_failure prompt model_id w :
  returns_failure_value
    (StableDiffusionScript.generate_image_direct_bedrock prompt model_id)
    (InvokeModel "us-east-1" model_id (StableDiffusionScript.bedrock_request_body prompt)
                 "application/json" "application/json") false w.
Proof.
  unfold StableDiffusionScript.generate_image_direct_bedrock.
  unfold returns_failure_value, send, parse_json; run.
  match goal with |- context [transport w ?n ?rq] =>
    destruct (transport w n rq) as [[code txt [body|]]|e] end; simpl; eauto.
Qed.

Lemma stability_returns_failure self prompt model_id w :
  returns_failure_value
    (SetupStableDiffusion.generate_image_stability_ai self prompt model_id)
    (InvokeModel (SetupStableDiffusion.region self) model_id
                 (SetupStableDiffusion.stability_request_body prompt)
                 "application/json" "application/json") false w.
Proof.
  unfold SetupStableDiffusion.generate_image_stability_ai.
  unfold returns_failure_value, send, parse_json; run.
  match goal with |- context [transport w ?n ?rq] =>
    destruct (transport w n rq) as [[code txt [body|]]|e] end; simpl; eauto.
Qed.

Lemma titan_returns_failure self prompt model_id w :
  returns_failure_value
    (SetupStableDiffusion.generate_image_titan self prompt model_id)
    (InvokeModel (SetupStableDiffusion.region self) model_id
                 (SetupStableDiffusion.titan_request_body prompt)
                 "application/json" "application/json") false w.
Proof.
  unfold SetupStableDiffusion.generate_image_titan.
  unfold returns_failure_value, send, parse_json; run.
  match goal with |- context [transport w ?n ?rq] =>
    destruct (transport w n rq) as [[code txt [body|]]|e] end; simpl; eauto.
Qed.

(** C3. Each of the four adapters returns a value in every world: when the
    transport call raises (timeouts included), when the gateway answers with
    a status other than 200, or when the body cannot be parsed, the value is
    [None]; nothing raised by the call leaves the adapter. *)
Theorem adapters_return_failure_values
        (self : SetupStableDiffusion.StableDiffusionImageGenerator)
        (prompt model_id : string) (width height : Z) (w : World) :
  returns_failure_value
    (StableDiffusionScript.generate_image_via_gateway prompt model_id width height)
    (StableDiffusionScript.gateway_request prompt model_id width height) true w
  /\ returns_failure_value
       (StableDiffusionScript.generate_image_direct_bedrock prompt model_id)
       (InvokeModel "us-east-1" model_id (StableDiffusionScript.bedrock_request_body prompt)
                    "application/json" "application/json") false w
  /\ returns_failure_value
       (SetupStableDiffusion.generate_image_stability_ai self prompt model_id)
       (InvokeModel (SetupStableDiffusion.region self) model_id
                    (SetupStableDiffusion.stability_request_body prompt)
                    "application/json" "application/json") false w
  /\ returns_failure_value
       (SetupStableDiffusion.generate_image_titan self prompt model_id)
       (InvokeModel (SetupStableDiffusion.region self) model_id
                    (SetupStableDiffusion.titan_request_body prompt)
                    "application/json" "application/json") false w.
Proof.
  split; [apply gateway_returns_failure|].
  split; [apply direct_bedrock_returns_failure|].
  split; [apply stability_returns_failure | apply titan_returns_failure].
Qed.

(** ** What a run leaves untouched *)

Ltac frame :=
  unfold progress; simpl; rewrite ?app_nil_r, ?Nat.add_0_r, ?Nat.add_1_r; auto 6.

Lemma progress_refl w : progress [] 0 w w.
Proof. frame. Qed.

Lemma progress_trans a b n m w1 w2 w3 :
  progress a n w1 w2 -> progress b m w2 w3 -> progress (a ++ b) (n + m) w1 w3.
Proof.
  unfold progress. intros (T1 & C1 & D1 & R1 & L1) (T2 & C2 & D2 & R2 & L2).
  rewrite T2, C2, D2, R2, L2, T1, C1, D1, R1, L1, app_assoc. repeat split; lia.
Qed.

Lemma progress_tick w : progress [] 1 w (tick w).
Proof. frame. Qed.

(** steps that send nothing and do not read the clock compose silently *)
Lemma progress_quiet_l rqs n w1 w2 w3 :
  progress [] 0 w1 w2 -> progress rqs n w2 w3 -> progress rqs n w1 w3.
Proof. intros H1 H2. exact (progress_trans [] rqs 0 n w1 w2 w3 H1 H2). Qed.

Lemma progress_quiet_r rqs n w1 w2 w3 :
  progress rqs n w1 w2 -> progress [] 0 w2 w3 -> progress rqs n w1 w3.
Proof.
  intros H1 H2. pose proof (progress_trans rqs [] n 0 w1 w2 w3 H1 H2) as H.
  now rewrite app_nil_r, Nat.add_0_r in H.
Qed.

Lemma persist_progress line v filename w :
  progress [] 0 w (snd (persist line v filename w)).
Proof.
  unfold persist. destruct (decode_payload v); simpl; [frame|].
  destruct (disk w filename); frame.
Qed.

Lemma persist_returns line v filename w :
  exists saved, fst (persist line v filename w) = Ret saved.
Proof.
  unfold persist. destruct (decode_payload v); simpl; eauto.
  destruct (disk w filename); simpl; eauto.
Qed.

Lemma touches_refl (P : string -> Prop) w : touches P w w.
Proof. intros p H. now destruct H. Qed.

Lemma touches_trans (P : string -> Prop) w1 w2 w3 :
  touches P w1 w2 -> touches P w2 w3 -> touches P w1 w3.
Proof.
  intros H12 H23 p Hp.
  destruct (decide (fs w2 !! p = fs w1 !! p)) as [E|N]; [|now apply H12].
  apply H23. now rewrite E.
Qed.

Lemma touches_weaken (P Q : string -> Prop) w w' :
  (forall p, P p -> Q p) -> touches P w w' -> touches Q w w'.
Proof. intros HPQ H p Hp. apply HPQ, H, Hp. Qed.

Lemma touches_same_fs (P : string -> Prop) w w' : fs w' = fs w -> touches P w w'.
Proof. intros E p H. rewrite E in H. now destruct H. Qed.

Lemma persist_touches line v filename w :
  touches (fun p => p = filename) w (snd (persist line v filename w)).
Proof.
  unfold persist.
  destruct (decode_payload v); simpl; [now apply touches_same_fs|].
  destruct (disk w filename); simpl; try (now apply touches_same_fs);
    intros p Hp; simpl in Hp;
    destruct (decide (filename = p)) as [->|N]; try reflexivity;
    now rewrite lookup_insert_ne in Hp.
Qed.

(** a save that reports success has decoded the payload and replaced the file *)
Lemma persist_true line v filename w :
  fst (persist line v filename w) = Ret true ->
  exists data, decode_payload v = inr data /\ disk w filename = DiskOk /\
    snd (persist line v filename w)
    = put_line [Lit (line ++ filename)] (set_fs (<[filename := data]> (fs w)) w).
Proof.
  unfold persist.
  destruct (decode_payload v) as [e|data]; simpl; [discriminate|].
  destruct (disk w filename); simpl; try discriminate.
  intros _. now exists data.
Qed.

Lemma persist_true_lookup line v filename w :
  fst (persist line v filename w) = Ret true ->
  exists data, decode_payload v = inr data /\
    fs (snd (persist line v filename w)) !! filename = Some data.
Proof.
  intros H. destruct (persist_true _ _ _ _ H) as (data & Hd & _ & ->).
  exists data. split; [exact Hd|]. simpl. apply lookup_insert_eq.
Qed.

(** ** The loops of [setup_stable_diffusion.py] *)

Lemma persist_false line v filename w :
  fst (persist line v filename w) = Ret false -> ~ saveable w filename v.
Proof.
  unfold persist, saveable. intros H [[data Hd] Hk].
  rewrite Hd, Hk in H. discriminate.
Qed.

Lemma saveable_same_disk w w1 filename b :
  disk w1 = disk w -> saveable w filename b -> saveable w1 filename b.
Proof. unfold saveable. intros ->. auto. Qed.

Section SetupLoops.
Import SetupStableDiffusion SetupNames.
Variable self : StableDiffusionImageGenerator.
Variables model_id timestamp : string.

Lemma named_here i n : named model_id timestamp i (S n) (image_filename model_id timestamp i).
Proof. exists 0. split; [lia|]. now rewrite Nat.add_0_r. Qed.

Lemma named_later i n p :
  named model_id timestamp (S i) n p -> named model_id timestamp i (S n) p.
Proof.
  intros (k & Hk & ->). exists (S k). split; [lia|].
  now replace (i + S k) with (S i + k) by lia.
Qed.

Lemma named_more i n n' p :
  n <= n' -> named model_id timestamp i n p -> named model_id timestamp i n' p.
Proof. intros Hle (k & Hk & ->). exists k. split; [lia | reflexivity]. Qed.

Lemma loop_ok_stop at_ i n w (e : res (option string)) :
  (forall f, e <> Ret (Some f)) -> loop_ok model_id timestamp at_ i n w (e, w).
Proof.
  intros He. split; [apply progress_refl|]. simpl.
  destruct e as [[f|]|e]; try apply touches_refl. now destruct (He f).
Qed.

(** position [i] offers no blob: the loop goes on with the next position *)
Lemma loop_ok_skip (at_ : nat -> pyval -> Prop) i n w r :
  (forall b, ~ at_ 0 b) ->
  loop_ok model_id timestamp (fun k => at_ (S k)) (S i) n w r ->
  loop_ok model_id timestamp at_ i (S n) w r.
Proof.
  intros Hnone [P H]. split; [exact P|].
  destruct (fst r) as [[f|]|e].
  - destruct H as (k & b & data & Hk & Hat & Hd & -> & Hf & T & Hbefore).
    exists (S k), b, data.
    replace (i + S k) with (S i + k) by lia.
    split; [lia|]. split; [exact Hat|]. split; [exact Hd|]. split; [reflexivity|].
    split; [exact Hf|]. split.
    + eapply touches_weaken; [|exact T]. intros p. apply named_later.
    + intros [|j] b' Hj Hb'; [now destruct (Hnone b')|].
      replace (i + S j) with (S i + j) by lia. apply (Hbefore j b'); [lia | exact Hb'].
  - eapply touches_weaken; [|exact H]. intros p. apply named_later.
  - eapply touches_weaken; [|exact H]. intros p. apply named_later.
Qed.

(** position [i] offers the blob [v]: it is saved under the name of index
    [i]; when that fails the loop goes on with the next position *)
Lemma loop_ok_save (at_ : nat -> pyval -> Prop) i n w v (rest : M (option string)) :
  at_ 0 v -> (forall b, at_ 0 b -> b = v) ->
  (forall w1, loop_ok model_id timestamp (fun k => at_ (S k)) (S i) n w1 (rest w1)) ->
  loop_ok model_id timestamp at_ i (S n) w
    (bind (save_image_from_base64 self v (image_filename model_id timestamp i))
          (fun saved => if saved then ret (Some (image_filename model_id timestamp i))
                        else rest) w).
Proof.
  intros Hv Hfun Hrest. unfold bind. rewrite setup_save_persist.
  set (f := image_filename model_id timestamp i).
  pose proof (persist_progress "✓ Image saved as: " v f w) as P.
  pose proof (persist_touches "✓ Image saved as: " v f w) as T.
  pose proof (persist_true_lookup "✓ Image saved as: " v f w) as L.
  pose proof (persist_false "✓ Image saved as: " v f w) as F.
  destruct (persist_returns "✓ Image saved as: " v f w) as [saved Hs].
  destruct (persist "✓ Image saved as: " v f w) as [r w1]. simpl in *. subst r.
  assert (T1 : touches (named model_id timestamp i 1) w w1).
  { eapply touches_weaken; [|exact T]. intros p ->. apply named_here. }
  destruct saved.
  - unfold ret. split; [exact P|]. simpl.
    destruct (L eq_refl) as (data & Hd & Hl).
    exists 0, v, data. rewrite Nat.add_0_r.
    split; [lia|]. split; [exact Hv|]. split; [exact Hd|]. split; [reflexivity|].
    split; [exact Hl|]. split; [exact T1|]. intros j b' Hj. lia.
  - specialize (F eq_refl).
    assert (Hdisk : disk w1 = disk w) by (destruct P as (_ & _ & D & _); exact D).
    destruct (Hrest w1) as [P2 H2]. split; [exact (progress_quiet_l _ _ _ _ _ P P2)|].
    destruct (fst (rest w1)) as [[f'|]|e].
    + destruct H2 as (k & b & data & Hk & Hat & Hd & -> & Hf & T2 & Hbefore).
      exists (S k), b, data.
      replace (i + S k) with (S i + k) by lia.
      split; [lia|]. split; [exact Hat|]. split; [exact Hd|]. split; [reflexivity|].
      split; [exact Hf|]. split.
      * apply (touches_trans _ w w1).
        -- eapply touches_weaken; [|exact T1]. intros p. apply named_more. lia.
        -- eapply touches_weaken; [|exact T2]. intros p. apply named_later.
      * intros [|j] b' Hj Hb'.
        -- rewrite Nat.add_0_r. now rewrite (Hfun b' Hb').
        -- replace (i + S j) with (S i + j) by lia. intros Hsv.
           apply (Hbefore j b'); [lia | exact Hb' |].
           now apply (saveable_same_disk w w1).
    + apply (touches_trans _ w w1).
      * eapply touches_weaken; [|exact T1]. intros p. apply named_more. lia.
      * eapply touches_weaken; [|exact H2]. intros p. apply named_later.
    + apply (touches_trans _ w w1).
      * eapply touches_weaken; [|exact T1]. intros p. apply named_more. lia.
      * eapply touches_weaken; [|exact H2]. intros p. apply named_later.
Qed.

Lemma save_artifacts_ok artifacts : forall i w,
  loop_ok model_id timestamp (field_at "base64" artifacts) i (length artifacts) w
          (save_artifacts self model_id timestamp i artifacts w).
Proof.
  induction artifacts as [|artifact rest IH]; intros i w; simpl.
  - apply loop_ok_stop. discriminate.
  - unfold bind at 1. unfold lift.
    destruct (Py.contains "base64" artifact) as [e|[|]] eqn:Hc; simpl.
    + apply loop_ok_stop. discriminate.
    + unfold bind at 1.
      destruct (Py.getitem artifact "base64") as [e|b64] eqn:Hg; simpl.
      * apply loop_ok_stop. discriminate.
      * apply loop_ok_save.
        -- exists artifact. auto.
        -- intros b (item & [= <-] & _ & Hb). congruence.
        -- intros w1. apply IH.
    + apply loop_ok_skip; [|apply IH].
      intros b (item & [= <-] & Hb & _). congruence.
Qed.

Lemma save_images_ok images : forall i w,
  loop_ok model_id timestamp (blob_at images) i (length images) w
          (save_images self model_id timestamp i images w).
Proof.
  induction images as [|image_data rest IH]; intros i w; simpl.
  - apply loop_ok_stop. discriminate.
  - apply loop_ok_save.
    + reflexivity.
    + intros b [= <-]. reflexivity.
    + intros w1. apply IH.
Qed.

(** whatever the adapter returned, handling it obeys the loop contract for
    the blobs of the result *)
Lemma save_result_ok result w :
  exists n, loop_ok model_id timestamp (payload_at result) 0 n w
                    (save_result self model_id timestamp result w).
Proof.
  unfold save_result, payload_at, Payloads.listed, and_then.
  destruct (Py.truthy result); [|exists 0; apply loop_ok_stop; discriminate].
  unfold bind at 1. unfold lift.
  destruct (Py.contains "artifacts" result) as [e|[|]]; simpl;
    [exists 0; apply loop_ok_stop; discriminate | |].
  - unfold bind at 1.
    destruct (Py.getitem result "artifacts") as [e|artifacts]; simpl;
      [exists 0; apply loop_ok_stop; discriminate|].
    unfold bind at 1.
    destruct (Py.iter artifacts) as [e|items]; simpl;
      [exists 0; apply loop_ok_stop; discriminate|].
    exists (length items). apply save_artifacts_ok.
  - unfold bind at 1.
    destruct (Py.contains "images" result) as [e|[|]]; simpl;
      [exists 0; apply loop_ok_stop; discriminate | |
       exists 0; apply loop_ok_stop; discriminate].
    unfold bind at 1.
    destruct (Py.getitem result "images") as [e|images]; simpl;
      [exists 0; apply loop_ok_stop; discriminate|].
    unfold bind at 1.
    destruct (Py.iter images) as [e|items]; simpl;
      [exists 0; apply loop_ok_stop; discriminate|].
    exists (length items). apply save_images_ok.
Qed.

(** the part of the contract the loop over models relies on *)
Lemma loop_ok_weak at_ i n w r :
  loop_ok model_id timestamp at_ i n w r ->
  progress [] 0 w (snd r) /\
  touches (named model_id timestamp i n) w (snd r) /\
  forall f, fst r = Ret (Some f) ->
            named model_id timestamp i n f /\ is_Some (fs (snd r) !! f).
Proof.
  intros [P H]. split; [exact P|].
  destruct (fst r) as [[f|]|e].
  - destruct H as (k & b & data & Hk & _ & _ & -> & Hf & T & _). split.
    + eapply touches_weaken; [|exact T]. intros p. apply named_more. lia.
    + intros f' [= <-]. split; [now exists k | now exists data].
  - split; [exact H | discriminate].
  - split; [exact H | discriminate].
Qed.

End SetupLoops.

Section SetupAttempts.
Import SetupStableDiffusion SetupNames SetupRequests SetupRuns.
Variable self : StableDiffusionImageGenerator.
Variables prompt timestamp : string.

(** an adapter sends its one request, returns the parsed answer or [None]
    and leaves the files alone *)
Lemma call_ok g model_id w :
  call self g prompt model_id w
  = (Ret (parsed_or_none (transport w (length (calls w))
                                    (request_of self prompt (model_id, g)))),
     snd (call self g prompt model_id w)) /\
  progress [request_of self prompt (model_id, g)] 0 w
           (snd (call self g prompt model_id w)) /\
  fs (snd (call self g prompt model_id w)) = fs w.
Proof.
  destruct g; unfold call, request_of, generate_image_stability_ai,
    generate_image_titan, send, parse_json; run;
    match goal with |- context [transport w ?n ?rq] =>
      destruct (transport w n rq) as [[code txt [body|]]|e] end; simpl;
    (split; [reflexivity|]); split; try reflexivity; frame.
Qed.

(** one round is the adapter call followed by the handling of its result *)
Lemma attempt_unfold model_id g w :
  let w0 := put_line [Lit (nl ++ "--- Attempting with " ++ model_id ++ " ---")] w in
  attempt self prompt timestamp (model_id, g) w
  = save_result self model_id timestamp
      (parsed_or_none (transport w (length (calls w))
                                 (request_of self prompt (model_id, g))))
      (snd (call self g prompt model_id w0)).
Proof.
  intros w0. destruct (call_ok g model_id w0) as (Hv & _).
  unfold attempt, bind, print, printf. fold w0. now rewrite Hv.
Qed.

Lemma attempt_ok m w :
  progress [request_of self prompt m] 0 w (snd (attempt self prompt timestamp m w)) /\
  touches (names_model timestamp m) w (snd (attempt self prompt timestamp m w)) /\
  forall f, fst (attempt self prompt timestamp m w) = Ret (Some f) ->
            saved_from timestamp m
              (transport w (length (calls w)) (request_of self prompt m))
              f (snd (attempt self prompt timestamp m w)).
Proof.
  destruct m as [model_id g].
  rewrite attempt_unfold.
  set (w0 := put_line [Lit (nl ++ "--- Attempting with " ++ model_id ++ " ---")] w).
  set (v := parsed_or_none _).
  assert (P0 : progress [] 0 w w0) by (subst w0; frame).
  destruct (call_ok g model_id w0) as (_ & Pc & Fc).
  set (w1 := snd (call self g prompt model_id w0)) in *.
  destruct (save_result_ok self model_id timestamp v w1) as (n & Hok).
  destruct (loop_ok_weak _ _ _ _ _ _ _ Hok) as (Ps & Ts & _).
  assert (Hn : forall p, named model_id timestamp 0 n p ->
                         names_model timestamp (model_id, g) p).
  { intros p (k & _ & ->). now exists (0 + k). }
  split; [|split].
  - exact (progress_quiet_r _ _ _ _ _ (progress_quiet_l _ _ _ _ _ P0 Pc) Ps).
  - apply (touches_trans _ w w1).
    + apply touches_same_fs. rewrite Fc. reflexivity.
    + eapply touches_weaken; [exact Hn | exact Ts].
  - intros f Hf. destruct Hok as [_ Hok]. rewrite Hf in Hok.
    destruct Hok as (k & b & data & _ & Hat & Hd & Hname & Hfs & _).
    exists k, b, data. auto.
Qed.

Lemma try_models_ordered models : forall w,
  ordered_run self prompt timestamp models 0 w
              (try_models self prompt timestamp models w).
Proof.
  induction models as [|m rest IH]; intros w; simpl.
  - exists 0. split; [simpl; lia|]. split; [apply progress_refl|].
    split; [apply touches_refl | reflexivity].
  - unfold bind at 1.
    destruct (attempt_ok m w) as (Pa & Ta & Fa).
    destruct (attempt self prompt timestamp m w) as [[[f|]|e] w1] eqn:Ea;
      simpl in Pa, Ta, Fa.
    + exists 1. split; [simpl; lia|]. split; [exact Pa|]. split.
      * eapply touches_weaken; [|exact Ta]. intros p Hp. exists m. split; [now left | exact Hp].
      * simpl. exists m, w. rewrite Nat.add_0_r.
        split; [reflexivity|]. split; [lia|]. split; [exact Ea | exact (Fa f eq_refl)].
    + destruct (IH w1) as (n & Hn & Pr & Tr & Hr).
      exists (S n). split; [simpl; lia|]. split; [|split].
      * exact (progress_trans _ _ _ _ _ _ _ Pa Pr).
      * apply (touches_trans _ w w1).
        -- eapply touches_weaken; [|exact Ta]. intros p Hp. exists m. split; [now left | exact Hp].
        -- eapply touches_weaken; [|exact Tr]. intros p (m' & Hin & Hp).
           exists m'. split; [now right | exact Hp].
      * destruct (fst (try_models self prompt timestamp rest w1)) as [[f|]|e].
        -- destruct Hr as (m' & w2 & Hl & Hpos & Hat & Hsv).
           exists m', w2.
           split; [destruct n; [lia | exact Hl]|].
           split; [lia|]. split; [exact Hat|].
           destruct Pa as (Tw & _ & _ & _ & Cw).
           rewrite Tw, Cw, length_app in Hsv. simpl in Hsv.
           replace (length (calls w) + Init.Nat.pred (S n))
             with (length (calls w) + 1 + Init.Nat.pred n) by lia.
           exact Hsv.
        -- now rewrite Hr.
        -- lia.
    + exists 1. split; [simpl; lia|]. split; [exact Pa|]. split.
      * eapply touches_weaken; [|exact Ta]. intros p Hp. exists m. split; [now left | exact Hp].
      * simpl. lia.
Qed.

End SetupAttempts.

Lemma generate_image_from_ordered self prompt models w :
  SetupRuns.ordered_run self prompt (strftime (clock w (clock_reads w))) models 1 w
    (SetupStableDiffusion.generate_image_from models self prompt w).
Proof.
  unfold SetupStableDiffusion.generate_image_from, bind, now.
  destruct (try_models_ordered self prompt (strftime (clock w (clock_reads w)))
                               models (tick w)) as (n & Hn & Pr & Tr & Hr).
  exists n. split; [exact Hn|]. split; [|split].
  - exact (progress_trans [] _ 1 0 _ _ _ (progress_tick w) Pr).
  - apply (touches_trans _ w (tick w)); [now apply touches_same_fs | exact Tr].
  - exact Hr.
Qed.


(** ** The loops of [stable_diffusion_image_generator.py] *)

Lemma bind_ret_eq {A B} (c : M A) (k : A -> M B) w a w1 :
  c w = (Ret a, w1) -> bind c k w = k a w1.
Proof. intros H. unfold bind. now rewrite H. Qed.

Lemma bind_raise_eq {A B} (c : M A) (k : A -> M B) w e w1 :
  c w = (Raise e, w1) -> bind c k w = (Raise e, w1).
Proof. intros H. unfold bind. now rewrite H. Qed.

Section ScriptLoops.
Import StableDiffusionScript ScriptRequests ScriptRuns.
Variable prompt : string.

Lemma silent_refl w : silent w w.
Proof. exists 0. apply progress_refl. Qed.

Lemma silent_trans w1 w2 w3 : silent w1 w2 -> silent w2 w3 -> silent w1 w3.
Proof.
  intros [a Ha] [b Hb]. exists (a + b).
  exact (progress_trans [] [] a b _ _ _ Ha Hb).
Qed.

Lemma silent_save v filename (rest : M bool) (yes : M bool) w :
  (forall w1, silent w1 (snd (rest w1))) ->
  (forall w1, silent w1 (snd (yes w1))) ->
  silent w (snd (bind (save_image_from_base64 v filename)
                      (fun saved => if saved then yes else rest) w)).
Proof.
  intros Hrest Hyes. unfold bind. rewrite script_save_persist.
  pose proof (persist_progress "Image saved as: " v filename w) as P.
  destruct (persist_returns "Image saved as: " v filename w) as [saved Hs].
  destruct (persist "Image saved as: " v filename w) as [r w1]. simpl in *. subst r.
  apply (silent_trans w w1); [now exists 0|].
  destruct saved; [apply Hyes | apply Hrest].
Qed.

Lemma silent_print_ret line (b : bool) w :
  silent w (snd (bind (print line) (fun _ => ret b) w)).
Proof. exists 0. unfold bind, print, printf, ret. frame. Qed.

Lemma save_data_silent model_id data : forall i w,
  silent w (snd (save_data model_id i data w)).
Proof.
  induction data as [|image_data rest IH]; intros i w; simpl.
  - apply silent_refl.
  - unfold bind at 1. unfold now.
    apply (silent_trans w (tick w)); [exists 1; apply progress_tick|].
    unfold bind at 1. unfold lift.
    destruct (Py.contains "b64_json" image_data) as [e|[|]]; simpl.
    + apply silent_refl.
    + unfold bind at 1.
      destruct (Py.getitem image_data "b64_json") as [e|b64]; simpl.
      * apply silent_refl.
      * apply silent_save; intros w1; [apply IH | apply silent_print_ret].
    + apply IH.
Qed.

Lemma save_artifacts_silent model_id artifacts : forall i w,
  silent w (snd (save_artifacts model_id i artifacts w)).
Proof.
  induction artifacts as [|artifact rest IH]; intros i w; simpl.
  - apply silent_refl.
  - unfold bind at 1. unfold lift.
    destruct (Py.contains "base64" artifact) as [e|[|]]; simpl.
    + apply silent_refl.
    + unfold bind at 1. unfold now.
      apply (silent_trans w (tick w)); [exists 1; apply progress_tick|].
      unfold bind at 1.
      destruct (Py.getitem artifact "base64") as [e|b64]; simpl.
      * apply silent_refl.
      * apply silent_save; intros w1; [apply IH | apply silent_print_ret].
    + apply IH.
Qed.

Lemma save_under_silent key (loop : nat -> list pyval -> M bool) result w :
  (forall i items w1, silent w1 (snd (loop i items w1))) ->
  silent w (snd (save_under key loop result w)).
Proof.
  intros Hloop. unfold save_under.
  destruct (Py.truthy result); [|apply silent_refl].
  unfold bind at 1. unfold lift.
  destruct (Py.contains key result) as [e|[|]]; simpl; try apply silent_refl.
  unfold bind at 1.
  destruct (Py.getitem result key) as [e|payloads]; simpl; [apply silent_refl|].
  unfold bind at 1.
  destruct (Py.iter payloads) as [e|items]; simpl; [apply silent_refl|].
  apply Hloop.
Qed.

Lemma gateway_ok model_id w :
  exists v, generate_image_via_gateway prompt model_id 1024 1024 w
            = (Ret v, snd (generate_image_via_gateway prompt model_id 1024 1024 w)) /\
    progress [gateway_request prompt model_id 1024 1024] 0 w
             (snd (generate_image_via_gateway prompt model_id 1024 1024 w)).
Proof.
  unfold generate_image_via_gateway, send, parse_json; run.
  match goal with |- context [transport w ?n ?rq] =>
    destruct (transport w n rq) as [[code txt [body|]]|e] end; simpl;
    try destruct (code =? 200)%Z; simpl;
    eexists; (split; [reflexivity|]); frame.
Qed.

Lemma direct_ok model_id w :
  exists v, generate_image_direct_bedrock prompt model_id w
            = (Ret v, snd (generate_image_direct_bedrock prompt model_id w)) /\
    progress [direct_request prompt model_id] 0 w
             (snd (generate_image_direct_bedrock prompt model_id w)).
Proof.
  unfold generate_image_direct_bedrock, direct_request, send, parse_json; run.
  match goal with |- context [transport w ?n ?rq] =>
    destruct (transport w n rq) as [[code txt [body|]]|e] end; simpl;
    eexists; (split; [reflexivity|]); frame.
Qed.

(** one round sends the gateway request and, unless the gateway payload was
    saved or handling it raised, the direct request after it *)
Lemma attempt_requests model_id w :
  exists reads last,
    progress last reads w (snd (attempt prompt model_id w)) /\
    (last = [gateway_request prompt model_id 1024 1024]
     \/ last = requests_of prompt model_id) /\
    (fst (attempt prompt model_id w) = Ret false -> last = requests_of prompt model_id).
Proof.
  unfold attempt.
  set (w0 := put_line [Lit (nl ++ "--- Trying model: " ++ model_id ++ " ---")] w).
  assert (P0 : progress [] 0 w w0) by (subst w0; frame).
  rewrite (bind_ret_eq _ _ w tt w0) by reflexivity.
  destruct (gateway_ok model_id w0) as (v & Hv & Pg).
  rewrite (bind_ret_eq _ _ _ _ _ Hv).
  set (w1 := snd (generate_image_via_gateway prompt model_id 1024 1024 w0)) in *.
  destruct (save_under_silent "data" (save_data model_id) v w1
              (fun i items w' => save_data_silent model_id items i w')) as [k1 P1].
  pose proof (progress_quiet_l _ _ _ _ _ P0 Pg) as P01.
  pose proof (progress_trans _ _ _ _ _ _ _ P01 P1) as P02.
  rewrite app_nil_r in P02.
  destruct (save_under "data" (save_data model_id) v w1) as [[[|]|e] w2] eqn:E1;
    simpl in P1, P02.
  - rewrite (bind_ret_eq _ _ _ _ _ E1). simpl.
    exists (0 + k1), [gateway_request prompt model_id 1024 1024].
    split; [exact P02|]. split; [now left | discriminate].
  - rewrite (bind_ret_eq _ _ _ _ _ E1). simpl.
    set (w3 := put_line [Lit "Gateway failed, trying direct Bedrock API..."] w2).
    rewrite (bind_ret_eq _ _ w2 tt w3) by reflexivity.
    assert (P3 : progress [] 0 w2 w3) by (subst w3; frame).
    destruct (direct_ok model_id w3) as (v2 & Hv2 & Pd).
    rewrite (bind_ret_eq _ _ _ _ _ Hv2).
    set (w4 := snd (generate_image_direct_bedrock prompt model_id w3)) in *.
    destruct (save_under_silent "artifacts" (save_artifacts model_id) v2 w4
                (fun i items w' => save_artifacts_silent model_id items i w')) as [k2 P4].
    pose proof (progress_trans _ _ _ _ _ _ _ P02
                  (progress_trans _ _ _ _ _ _ _ (progress_quiet_l _ _ _ _ _ P3 Pd) P4)) as P.
    rewrite app_nil_r in P.
    exists (0 + k1 + (0 + k2)), (requests_of prompt model_id).
    split; [exact P|]. split; [now right | reflexivity].
  - rewrite (bind_raise_eq _ _ _ _ _ E1). simpl.
    exists (0 + k1), [gateway_request prompt model_id 1024 1024].
    split; [exact P02|]. split; [now left | discriminate].
Qed.

Lemma try_models_ordered_script model_ids : forall w,
  ordered_run prompt model_ids w (try_models prompt model_ids w).
Proof.
  induction model_ids as [|model_id rest IH]; intros w; simpl.
  - exists 0, 0, []. split; [apply progress_refl | now split].
  - destruct (attempt_requests model_id w) as (k & last & Pa & Hlast & Hfalse).
    destruct (attempt prompt model_id w) as [[[|]|e] w1] eqn:Ea; simpl in Pa, Hfalse.
    + rewrite (bind_ret_eq _ _ _ _ _ Ea). simpl.
      exists 0, k, last. split; [exact Pa|]. exists model_id, w. now repeat split.
    + rewrite (bind_ret_eq _ _ _ _ _ Ea).
      destruct (IH w1) as (n & k2 & last2 & Pr & Hr).
      exists (S n), (k + k2), last2. split.
      * rewrite (Hfalse eq_refl) in Pa.
        pose proof (progress_trans _ _ _ _ _ _ _ Pa Pr) as P.
        simpl. simpl in P. exact P.
      * destruct (fst (try_models prompt rest w1)) as [[|]|e'].
        -- destruct Hr as (m & w2 & Hl & Hat & Hor). exists m, w2.
           split; [exact Hl|]. split; [exact Hat | exact Hor].
        -- destruct Hr as [-> ->]. split; reflexivity.
        -- destruct Hr as (m & Hl & Hor). exists m. split; [exact Hl | exact Hor].
    + rewrite (bind_raise_eq _ _ _ _ _ Ea). simpl.
      exists 0, k, last. split; [exact Pa|]. exists model_id. now split.
Qed.

End ScriptLoops.

(** ** Rounds of [main] in which nothing can be saved *)
Section ScriptNothing.
Import StableDiffusionScript ScriptRequests.
Variable prompt : string.








(** the two adapters of [main]: the value returned, the request logged, the
    files untouched *)
Lemma gateway_value model_id w :
  let r := generate_image_via_gateway prompt model_id 1024 1024 w in
  fst r = Ret (gateway_or_none (transport w (length (calls w))
                                          (gateway_request prompt model_id 1024 1024)))
  /\ progress [gateway_request prompt model_id 1024 1024] 0 w (snd r)
  /\ fs (snd r) = fs w.
Proof.
  unfold generate_image_via_gateway, gateway_or_none, send, parse_json; run.
  match goal with |- context [transport w ?n ?rq] =>
    destruct (transport w n rq) as [[code txt [body|]]|e] end; simpl;
    try destruct (code =? 200)%Z; simpl;
    (split; [reflexivity|]); split; try reflexivity; frame.
Qed.

Lemma direct_value model_id w :
  let r := generate_image_direct_bedrock prompt model_id w in
  fst r = Ret (parsed_or_none (transport w (length (calls w))
                                         (direct_request prompt model_id)))
  /\ progress [direct_request prompt model_id] 0 w (snd r)
  /\ fs (snd r) = fs w.
Proof.
  unfold generate_image_direct_bedrock, direct_request, parsed_or_none, send,
    parse_json; run.
  match goal with |- context [transport w ?n ?rq] =>
    destruct (transport w n rq) as [[code txt [body|]]|e] end; simpl;
    (split; [reflexivity|]); split; try reflexivity; frame.
Qed.

Lemma spoiled_refl w : spoiled w w.
Proof. intros p. now left. Qed.

Lemma spoiled_same_fs w w' : fs w' = fs w -> spoiled w w'.
Proof. intros E p. left. now rewrite E. Qed.

Lemma spoiled_trans w1 w2 w3 :
  disk w2 = disk w1 -> spoiled w1 w2 -> spoiled w2 w3 -> spoiled w1 w3.
Proof.
  intros D H12 H23 p. destruct (H23 p) as [E|(e & n & data & Hd & Hf)].
  - rewrite E. apply H12.
  - right. exists e, n, data. split; [now rewrite <- D | exact Hf].
Qed.

Lemma still_refl w : still w w.
Proof. unfold still. auto using spoiled_refl. Qed.

Lemma still_trans w1 w2 w3 : still w1 w2 -> still w2 w3 -> still w1 w3.
Proof.
  unfold still. intros (A1 & B1 & C1 & D1) (A2 & B2 & C2 & D2).
  rewrite A2, B2, C2. eauto using spoiled_trans.
Qed.

Lemma still_quiet reads w w' : progress [] reads w w' -> fs w' = fs w -> still w w'.
Proof.
  intros (T & _ & D & _ & C) F. rewrite app_nil_r in C.
  unfold still. auto using spoiled_same_fs.
Qed.

Lemma still_tick w : still w (tick w).
Proof. apply (still_quiet 1); [frame | reflexivity]. Qed.

Lemma still_put_line line w : still w (put_line line w).
Proof. apply (still_quiet 0); [frame | reflexivity]. Qed.

(** a save that reports failure has sent nothing; the file is what it was, or
    holds what the failed write had put into it *)
Lemma persist_false_still line b filename w :
  fst (persist line b filename w) = Ret false -> still w (snd (persist line b filename w)).
Proof.
  unfold persist.
  destruct (decode_payload b) as [e|data]; simpl; [intros _; apply still_put_line|].
  destruct (disk w filename) as [|e|e n] eqn:Hd; simpl; [discriminate| |]; intros _.
  - apply still_put_line.
  - unfold still. simpl. repeat split; try reflexivity.
    intros p. destruct (decide (filename = p)) as [<-|N].
    + right. exists e, n, data. split; [exact Hd | apply lookup_insert_eq].
    + left. now apply lookup_insert_ne.
Qed.

Lemma kept_refl w : kept w w.
Proof. split; [reflexivity | apply spoiled_refl]. Qed.

Lemma kept_trans w1 w2 w3 : kept w1 w2 -> kept w2 w3 -> kept w1 w3.
Proof.
  intros [D1 S1] [D2 S2]. split; [now rewrite D2 | exact (spoiled_trans _ _ _ D1 S1 S2)].
Qed.

Lemma kept_still w w' : still w w' -> kept w w'.
Proof. intros (_ & _ & D & S). now split. Qed.

Lemma kept_progress rqs reads w w' : progress rqs reads w w' -> fs w' = fs w -> kept w w'.
Proof. intros (_ & _ & D & _) F. split; [exact D | now apply spoiled_same_fs]. Qed.

Lemma save_data_false model_id items : forall i w w',
  save_data model_id i items w = (Ret false, w') -> still w w'.
Proof.
  induction items as [|item rest IH]; intros i w w' H.
  - injection H as <-. apply still_refl.
  - simpl in H. unfold bind at 1 in H. unfold now in H.
    unfold bind at 1 in H. unfold lift in H.
    apply (still_trans _ (tick w)); [apply still_tick|].
    destruct (Py.contains "b64_json" item) as [e|[|]]; simpl in H; [discriminate| |].
    + unfold bind at 1 in H.
      destruct (Py.getitem item "b64_json") as [e|b]; simpl in H; [discriminate|].
      unfold bind at 1 in H. rewrite script_save_persist in H.
      pose proof (persist_false_still "Image saved as: " b
                    (image_filename (strftime (clock w (clock_reads w))) i) (tick w)) as S1.
      destruct (persist_returns "Image saved as: " b
                  (image_filename (strftime (clock w (clock_reads w))) i) (tick w))
        as [saved Hs].
      destruct (persist "Image saved as: " b
                  (image_filename (strftime (clock w (clock_reads w))) i) (tick w))
        as [r1 w1].
      simpl in S1, Hs. subst r1. destruct saved; [discriminate|].
      exact (still_trans _ _ _ (S1 eq_refl) (IH _ _ _ H)).
    + exact (IH _ _ _ H).
Qed.

Lemma save_artifacts_false model_id items : forall i w w',
  save_artifacts model_id i items w = (Ret false, w') -> still w w'.
Proof.
  induction items as [|item rest IH]; intros i w w' H.
  - injection H as <-. apply still_refl.
  - simpl in H. unfold bind at 1 in H. unfold lift in H.
    destruct (Py.contains "base64" item) as [e|[|]]; simpl in H; [discriminate| |].
    + unfold bind at 1 in H. unfold now in H.
      apply (still_trans _ (tick w)); [apply still_tick|].
      unfold bind at 1 in H.
      destruct (Py.getitem item "base64") as [e|b]; simpl in H; [discriminate|].
      unfold bind at 1 in H. rewrite script_save_persist in H.
      pose proof (persist_false_still "Image saved as: " b
                    (image_filename (strftime (clock w (clock_reads w))) i) (tick w)) as S1.
      destruct (persist_returns "Image saved as: " b
                  (image_filename (strftime (clock w (clock_reads w))) i) (tick w))
        as [saved Hs].
      destruct (persist "Image saved as: " b
                  (image_filename (strftime (clock w (clock_reads w))) i) (tick w))
        as [r1 w1].
      simpl in S1, Hs. subst r1. destruct saved; [discriminate|].
      exact (still_trans _ _ _ (S1 eq_refl) (IH _ _ _ H)).
    + exact (IH _ _ _ H).
Qed.

Lemma save_under_false key (loop : nat -> list pyval -> M bool) result w w' :
  (forall i items w1 w2, loop i items w1 = (Ret false, w2) -> still w1 w2) ->
  save_under key loop result w = (Ret false, w') -> still w w'.
Proof.
  intros Hloop. unfold save_under.
  destruct (Py.truthy result); [|intros [= <-]; apply still_refl].
  unfold bind at 1. unfold lift.
  destruct (Py.contains key result) as [e|[|]]; simpl; [discriminate| |].
  - unfold bind at 1.
    destruct (Py.getitem result key) as [e|payloads]; simpl; [discriminate|].
    unfold bind at 1.
    destruct (Py.iter payloads) as [e|items]; simpl; [discriminate|].
    apply Hloop.
  - intros [= <-]. apply still_refl.
Qed.

(** a round that ends with [success] false has saved nothing *)
Lemma attempt_false_kept model_id w :
  fst (attempt prompt model_id w) = Ret false -> kept w (snd (attempt prompt model_id w)).
Proof.
  unfold attempt.
  set (w0 := put_line [Lit (nl ++ "--- Trying model: " ++ model_id ++ " ---")] w).
  rewrite (bind_ret_eq _ _ w tt w0) by reflexivity.
  assert (K0 : kept w w0) by (apply kept_still, still_put_line).
  destruct (gateway_value model_id w0) as (Hv & Pg & Fg).
  destruct (generate_image_via_gateway prompt model_id 1024 1024 w0) as [r1 w1] eqn:Eg.
  simpl in Hv, Pg, Fg. subst r1.
  rewrite (bind_ret_eq _ _ _ _ _ Eg).
  pose proof (kept_progress _ _ _ _ Pg Fg) as K1.
  match goal with |- context [bind (save_under "data" ?l ?v) _ w1] =>
    destruct (save_under "data" l v w1) as [[[|]|e] w2] eqn:E2 end.
  - rewrite (bind_ret_eq _ _ _ _ _ E2). simpl. discriminate.
  - rewrite (bind_ret_eq _ _ _ _ _ E2). simpl.
    pose proof (kept_still _ _
                  (save_under_false _ _ _ _ _
                     (fun i items w1 w2 => save_data_false model_id items i w1 w2) E2)) as K2.
    set (w3 := put_line [Lit "Gateway failed, trying direct Bedrock API..."] w2).
    rewrite (bind_ret_eq _ _ w2 tt w3) by reflexivity.
    assert (K3 : kept w2 w3) by (apply kept_still, still_put_line).
    destruct (direct_value model_id w3) as (Hv2 & Pd & Fd).
    destruct (generate_image_direct_bedrock prompt model_id w3) as [r4 w4] eqn:Ed.
    simpl in Hv2, Pd, Fd. subst r4.
    rewrite (bind_ret_eq _ _ _ _ _ Ed).
    pose proof (kept_progress _ _ _ _ Pd Fd) as K4.
    match goal with |- context [save_under "artifacts" ?l ?v w4] =>
      destruct (save_under "artifacts" l v w4) as [r5 w5] eqn:E5 end.
    simpl. intros ->.
    pose proof (kept_still _ _
                  (save_under_false _ _ _ _ _
                     (fun i items w1 w2 => save_artifacts_false model_id items i w1 w2)
                     E5)) as K5.
    exact (kept_trans _ _ _ K0
             (kept_trans _ _ _ K1
                (kept_trans _ _ _ K2 (kept_trans _ _ _ K3 (kept_trans _ _ _ K4 K5))))).
  - rewrite (bind_raise_eq _ _ _ _ _ E2). simpl. discriminate.
Qed.

Lemma fruitless_nil_script n w : ScriptRuns.fruitless prompt [] n w.
Proof. intros j model_id _ H. discriminate. Qed.

Lemma fruitless_cons_script model_id rest n w :
  ScriptRuns.fruitless prompt (model_id :: rest) (S n) w
  <-> fst (attempt prompt model_id w) = Ret false
      /\ ScriptRuns.fruitless prompt rest n (snd (attempt prompt model_id w)).
Proof.
  unfold ScriptRuns.fruitless. split.
  - intros H. split; [exact (H 0 model_id ltac:(lia) eq_refl)|].
    intros j m Hj Hm. exact (H (S j) m ltac:(lia) Hm).
  - intros [H0 H] [|j] m Hj Hm.
    + injection Hm as <-. exact H0.
    + exact (H j m ltac:(lia) Hm).
Qed.

(** when no round saves an image the loop runs through all of them *)
Lemma fruitless_run_script model_ids : forall w,
  ScriptRuns.fruitless prompt model_ids (length model_ids) w ->
  try_models prompt model_ids w = (Ret false, ScriptRuns.rounds prompt model_ids w)
  /\ kept w (ScriptRuns.rounds prompt model_ids w).
Proof.
  induction model_ids as [|model_id rest IH]; intros w H.
  - split; [reflexivity | apply kept_refl].
  - apply fruitless_cons_script in H as [H0 H].
    pose proof (attempt_false_kept model_id w H0) as K.
    destruct (IH _ H) as [E K'].
    split; [|exact (kept_trans _ _ _ K K')].
    simpl. unfold bind.
    destruct (attempt prompt model_id w) as [r1 w1]. simpl in *. subst r1. exact E.
Qed.

(** the run stops with the first round that saves an image *)
Lemma try_models_stops_script model_ids : forall w,
  ScriptRuns.stops_at_first_success prompt model_ids w (try_models prompt model_ids w).
Proof.
  induction model_ids as [|model_id rest IH]; intros w.
  - unfold ScriptRuns.stops_at_first_success. simpl.
    split; [apply fruitless_nil_script|]. split; [reflexivity | now rewrite app_nil_r].
  - destruct (attempt_requests prompt model_id w) as (k & last & Pa & Hlast & Hfalse).
    assert (Hstop : forall r1, fst (attempt prompt model_id w) = r1 -> r1 <> Ret false ->
              exists n m, (model_id :: rest) !! n = Some m /\
                ScriptRuns.fruitless prompt (model_id :: rest) n w /\
                attempt prompt model_id w
                = attempt prompt m (ScriptRuns.rounds prompt (take n (model_id :: rest)) w) /\
                (calls (snd (attempt prompt model_id w))
                 = (calls w ++ flat_map (requests_of prompt) (take n (model_id :: rest))
                      ++ [gateway_request prompt m 1024 1024])%list
                 \/ calls (snd (attempt prompt model_id w))
                    = (calls w ++ flat_map (requests_of prompt)
                                           (take (S n) (model_id :: rest)))%list)).
    { intros r1 _ _. exists 0, model_id. split; [reflexivity|].
      split; [intros j m Hj; lia|]. split; [reflexivity|].
      destruct Pa as (_ & _ & _ & _ & C). rewrite C. simpl.
      destruct Hlast as [-> | ->]; [now left | right; rewrite ?app_nil_r; reflexivity]. }
    unfold ScriptRuns.stops_at_first_success. simpl. unfold bind.
    destruct (attempt prompt model_id w) as [[[|]|e] w1] eqn:Ea; simpl in *.
    + destruct (Hstop _ eq_refl ltac:(discriminate)) as (n & m & H); exists n, m; exact H.
    + specialize (IH w1). unfold ScriptRuns.stops_at_first_success in IH.
      assert (C1 : calls w1 = (calls w ++ requests_of prompt model_id)%list).
      { rewrite (Hfalse eq_refl) in Pa. now destruct Pa as (_ & _ & _ & _ & C). }
      assert (F0 : forall n, ScriptRuns.fruitless prompt rest n w1 ->
                             ScriptRuns.fruitless prompt (model_id :: rest) (S n) w).
      { intros n Hn. apply fruitless_cons_script. rewrite Ea. now split. }
      destruct (fst (try_models prompt rest w1)) as [[|]|e'].
      * destruct IH as (n & m & Hm & Hn & Hr & Hc). exists (S n), m.
        split; [exact Hm|]. split; [exact (F0 n Hn)|].
        split; [simpl; rewrite ?Ea; exact Hr|].
        rewrite C1 in Hc. simpl.
        destruct Hc as [Hc|Hc]; [left | right]; rewrite Hc;
          unfold requests_of; simpl; now rewrite <- !app_assoc.
      * destruct IH as (Hn & Hr & Hc).
        split; [exact (F0 _ Hn)|]. split; [rewrite ?Ea; exact Hr|].
        rewrite Hc, C1. unfold requests_of. simpl. now rewrite <- !app_assoc.
      * destruct IH as (n & m & Hm & Hn & Hr & Hc). exists (S n), m.
        split; [exact Hm|]. split; [exact (F0 n Hn)|].
        split; [simpl; rewrite ?Ea; exact Hr|].
        rewrite C1 in Hc. simpl.
        destruct Hc as [Hc|Hc]; [left | right]; rewrite Hc;
          unfold requests_of; simpl; now rewrite <- !app_assoc.
    + destruct (Hstop _ eq_refl ltac:(discriminate)) as (n & m & H); exists n, m; exact H.
Qed.

End ScriptNothing.

(** ** Payloads: the loops save the first payload that can be saved *)
Section SetupPayloadLoops.
Import SetupStableDiffusion SetupPayloads.
Variable self : StableDiffusionImageGenerator.
Variables model_id timestamp : string.




End SetupPayloadLoops.

(** ** File names *)
Section FileNames.

Lemma length_to_list (s : string) : length (PyStr.to_list s) = String.length s.
Proof. induction s as [|c s IH]; simpl; [reflexivity | now rewrite IH]. Qed.

Lemma string_length_app (s t : string) :
  String.length (s ++ t) = String.length s + String.length t.
Proof. induction s as [|c s IH]; simpl; [reflexivity | now rewrite IH]. Qed.

Lemma app_inv_head_string (s a b : string) : s ++ a = s ++ b -> a = b.
Proof. induction s as [|c s IH]; simpl; [auto | intros [= H]; auto]. Qed.

Lemma app_inv_tail_string (a b t : string) : a ++ t = b ++ t -> a = b.
Proof.
  intros H. apply to_list_inj. apply (f_equal PyStr.to_list) in H.
  rewrite !to_list_app in H. exact (app_inv_tail _ _ _ H).
Qed.

Lemma of_nat_inj (i j : nat) : PyStr.of_nat i = PyStr.of_nat j -> i = j.
Proof.
  unfold PyStr.of_nat. intros H. apply Unsigned.to_uint_inj.
  apply (f_equal NilEmpty.uint_of_string) in H.
  rewrite !NilEmpty.usu in H. now injection H.
Qed.

Lemma uint_digits (d : Decimal.uint) :
  forallb is_digit (PyStr.to_list (NilEmpty.string_of_uint d)) = true.
Proof. induction d; simpl; auto. Qed.

Lemma of_nat_digits (i : nat) : forallb is_digit (PyStr.to_list (PyStr.of_nat i)) = true.
Proof. apply uint_digits. Qed.

Lemma digit_not_underscore (l : list ascii) :
  forallb is_digit l = true -> ~ In "_"%char l.
Proof.
  rewrite forallb_forall. intros H Hin. specialize (H _ Hin). discriminate.
Qed.

(** two lists cut at the first separator agree piece by piece *)
Lemma cut_at_first {A} (sep : A) (a b x y : list A) :
  ~ In sep a -> ~ In sep b ->
  (a ++ sep :: x = b ++ sep :: y)%list -> a = b /\ x = y.
Proof.
  revert b. induction a as [|c a IH]; intros [|d b] Ha Hb H; simpl in *.
  - injection H as ->. auto.
  - injection H as <- _. destruct Hb. now left.
  - injection H as -> _. destruct Ha. now left.
  - injection H as -> H.
    destruct (IH b) as [-> ->]; auto.
Qed.

(** the same, cutting at the last separator *)
Lemma cut_at_last {A} (sep : A) (a b x y : list A) :
  ~ In sep x -> ~ In sep y ->
  (a ++ sep :: x = b ++ sep :: y)%list -> a = b /\ x = y.
Proof.
  intros Hx Hy H. apply (f_equal (@rev A)) in H.
  rewrite !rev_app_distr in H. simpl in H. rewrite <- !app_assoc in H. simpl in H.
  destruct (cut_at_first sep (rev x) (rev y) (rev a) (rev b)) as [E1 E2].
  - now rewrite <- in_rev.
  - now rewrite <- in_rev.
  - exact H.
  - split; now apply rev_inj.
Qed.

Lemma image_filename_index_inj model_id timestamp i j :
  SetupStableDiffusion.image_filename model_id timestamp i
  = SetupStableDiffusion.image_filename model_id timestamp j -> i = j.
Proof.
  unfold SetupStableDiffusion.image_filename. intros H.
  do 5 apply app_inv_head_string in H.
  apply app_inv_tail_string in H. now apply of_nat_inj.
Qed.

(** the file name determines the time stamp, whatever the model and index *)
Lemma image_filename_timestamp_inj m1 m2 ts1 ts2 i1 i2 :
  String.length ts1 = String.length ts2 ->
  SetupStableDiffusion.image_filename m1 ts1 i1
  = SetupStableDiffusion.image_filename m2 ts2 i2 -> ts1 = ts2.
Proof.
  unfold SetupStableDiffusion.image_filename. intros Hlen H.
  apply app_inv_head_string in H.
  set (s1 := PyStr.replace "." "_" (PyStr.replace ":" "_" m1)) in H.
  set (s2 := PyStr.replace "." "_" (PyStr.replace ":" "_" m2)) in H.
  apply (f_equal PyStr.to_list) in H. rewrite !to_list_app in H.
  set (d1 := PyStr.to_list (PyStr.of_nat i1)) in H.
  set (d2 := PyStr.to_list (PyStr.of_nat i2)) in H.
  set (png := PyStr.to_list ".png") in H.
  change (PyStr.to_list "_") with ["_"%char] in H.
  assert (E : ((PyStr.to_list s1 ++ "_"%char :: PyStr.to_list ts1) ++ "_"%char :: (d1 ++ png)
               = (PyStr.to_list s2 ++ "_"%char :: PyStr.to_list ts2) ++ "_"%char :: (d2 ++ png))%list).
  { rewrite <- !app_assoc. exact H. }
  assert (Hd : forall i, ~ In "_"%char (PyStr.to_list (PyStr.of_nat i) ++ png)%list).
  { intros i Hin. apply in_app_or in Hin as [Hin|Hin].
    - exact (digit_not_underscore _ (of_nat_digits i) Hin).
    - subst png. simpl in Hin. intuition discriminate. }
  apply cut_at_last in E; [|apply Hd..].
  destruct E as [E _].
  apply (f_equal (@rev ascii)) in E. rewrite !rev_app_distr in E. simpl in E.
  rewrite <- !app_assoc in E.
  apply app_inj_1 in E; [|now rewrite !length_rev, !length_to_list].
  destruct E as [E _]. apply rev_inj in E. now apply to_list_inj.
Qed.

End FileNames.

(** ** Time stamps *)
Section TimeStamps.

Lemma append_assoc (s t u : string) : (s ++ t) ++ u = s ++ t ++ u.
Proof.
  induction s as [|c s IH]; [reflexivity|].
  change (String c ((s ++ t) ++ u) = String c (s ++ t ++ u)). now rewrite IH.
Qed.

Lemma digits_app a b s t :
  digits a s = true -> digits b t = true -> digits (a + b) (s ++ t) = true.
Proof.
  unfold digits. intros Hs Ht.
  apply andb_prop in Hs as [Ls Ds]. apply andb_prop in Ht as [Lt Dt].
  apply Nat.eqb_eq in Ls, Lt.
  rewrite string_length_app, to_list_app, forallb_app, Ds, Dt, Ls, Lt, Nat.eqb_refl.
  reflexivity.
Qed.

Lemma digits_length k s : digits k s = true -> String.length s = k.
Proof. unfold digits. intros H. apply andb_prop in H as [L _]. now apply Nat.eqb_eq. Qed.

Lemma pad2_digits n : n < 100 -> digits 2 (PyStr.pad 2 n) = true.
Proof.
  intros Hn.
  assert (H : forallb (fun k => digits 2 (PyStr.pad 2 k)) (seq 0 100) = true)
    by (vm_compute; reflexivity).
  rewrite forallb_forall in H. apply H, in_seq. lia.
Qed.

Lemma pad4_digits n : n < 100 * 100 -> digits 4 (PyStr.pad 4 n) = true.
Proof.
  intros Hn.
  assert (H : forallb (fun k => digits 4 (PyStr.pad 4 k)) (seq 0 (100 * 100)) = true)
    by (vm_compute; reflexivity).
  rewrite forallb_forall in H. apply H, in_seq. lia.
Qed.

Lemma valid_datetime_bounds d :
  valid_datetime d = true ->
  year d < 100 * 100 /\ month d < 100 /\ day d < 100 /\
  hour d < 100 /\ minute d < 100 /\ second d < 100.
Proof.
  unfold valid_datetime. intros H.
  repeat (apply andb_prop in H as [H ?]).
  repeat match goal with
         | H : (_ <=? _)%nat = true |- _ => apply Nat.leb_le in H
         | H : (_ <? _)%nat = true |- _ => apply Nat.ltb_lt in H
         end.
  lia.
Qed.

(** a valid clock reading prints as eight digits, an underscore, six digits *)
Lemma strftime_shape d : valid_datetime d = true -> timestamp_shape (strftime d).
Proof.
  intros Hv. destruct (valid_datetime_bounds d Hv) as (Hy & Hm & Hd & Hh & Hmi & Hs).
  exists (PyStr.pad 4 (year d) ++ PyStr.pad 2 (month d) ++ PyStr.pad 2 (day d)),
         (PyStr.pad 2 (hour d) ++ PyStr.pad 2 (minute d) ++ PyStr.pad 2 (second d)).
  split; [|split].
  - unfold strftime. now rewrite !append_assoc.
  - apply (digits_app 4 4); [now apply pad4_digits|].
    apply (digits_app 2 2); now apply pad2_digits.
  - apply (digits_app 2 4); [now apply pad2_digits|].
    apply (digits_app 2 2); now apply pad2_digits.
Qed.

Lemma timestamp_shape_length ts : timestamp_shape ts -> String.length ts = 15.
Proof.
  intros (date & time & -> & Hd & Ht).
  rewrite !string_length_app, (digits_length _ _ Hd), (digits_length _ _ Ht). reflexivity.
Qed.

End TimeStamps.

(** ** Rounds of [generate_image] that save nothing *)
Section SetupNothing.
Import SetupStableDiffusion SetupRequests.
Variable self : StableDiffusionImageGenerator.
Variables prompt timestamp : string.

Lemma save_artifacts_none model_id items : forall i w w',
  save_artifacts self model_id timestamp i items w = (Ret None, w') -> still w w'.
Proof.
  induction items as [|item rest IH]; intros i w w' H.
  - injection H as <-. apply still_refl.
  - simpl in H. unfold bind at 1 in H. unfold lift in H.
    destruct (Py.contains "base64" item) as [e|[|]]; simpl in H; [discriminate| |].
    + unfold bind at 1 in H.
      destruct (Py.getitem item "base64") as [e|b]; simpl in H; [discriminate|].
      unfold bind at 1 in H. rewrite setup_save_persist in H.
      pose proof (persist_false_still "✓ Image saved as: " b
                    (image_filename model_id timestamp i) w) as S1.
      destruct (persist_returns "✓ Image saved as: " b
                  (image_filename model_id timestamp i) w) as [saved Hs].
      destruct (persist "✓ Image saved as: " b (image_filename model_id timestamp i) w)
        as [r1 w1].
      simpl in S1, Hs. subst r1. destruct saved; [discriminate|].
      exact (still_trans _ _ _ (S1 eq_refl) (IH _ _ _ H)).
    + exact (IH _ _ _ H).
Qed.

Lemma save_images_none model_id items : forall i w w',
  save_images self model_id timestamp i items w = (Ret None, w') -> still w w'.
Proof.
  induction items as [|item rest IH]; intros i w w' H.
  - injection H as <-. apply still_refl.
  - simpl in H. unfold bind at 1 in H. rewrite setup_save_persist in H.
    pose proof (persist_false_still "✓ Image saved as: " item
                  (image_filename model_id timestamp i) w) as S1.
    destruct (persist_returns "✓ Image saved as: " item
                (image_filename model_id timestamp i) w) as [saved Hs].
    destruct (persist "✓ Image saved as: " item (image_filename model_id timestamp i) w)
      as [r1 w1].
    simpl in S1, Hs. subst r1. destruct saved; [discriminate|].
    exact (still_trans _ _ _ (S1 eq_refl) (IH _ _ _ H)).
Qed.

Lemma save_result_none model_id result w w' :
  save_result self model_id timestamp result w = (Ret None, w') -> still w w'.
Proof.
  unfold save_result.
  destruct (Py.truthy result); [|intros [= <-]; apply still_refl].
  unfold bind at 1. unfold lift.
  destruct (Py.contains "artifacts" result) as [e|[|]]; simpl; [discriminate| |].
  - unfold bind at 1.
    destruct (Py.getitem result "artifacts") as [e|artifacts]; simpl; [discriminate|].
    unfold bind at 1.
    destruct (Py.iter artifacts) as [e|items]; simpl; [discriminate|].
    apply save_artifacts_none.
  - unfold bind at 1.
    destruct (Py.contains "images" result) as [e|[|]]; simpl; [discriminate| |].
    + unfold bind at 1.
      destruct (Py.getitem result "images") as [e|images]; simpl; [discriminate|].
      unfold bind at 1.
      destruct (Py.iter images) as [e|items]; simpl; [discriminate|].
      apply save_images_none.
    + intros [= <-]. apply still_refl.
Qed.

(** a round that ends with [None] has saved nothing *)
Lemma attempt_none_kept m w :
  fst (attempt self prompt timestamp m w) = Ret None ->
  kept w (snd (attempt self prompt timestamp m w)).
Proof.
  destruct m as [model_id g]. rewrite attempt_unfold.
  set (w0 := put_line [Lit (nl ++ "--- Attempting with " ++ model_id ++ " ---")] w).
  destruct (call_ok self prompt g model_id w0) as (_ & Pc & Fc).
  set (w1 := snd (call self g prompt model_id w0)) in *.
  set (v := parsed_or_none _).
  destruct (save_result self model_id timestamp v w1) as [r2 w2] eqn:E2.
  simpl. intros ->.
  exact (kept_trans _ _ _ (kept_still _ _ (still_put_line _ w))
           (kept_trans _ _ _ (kept_progress _ _ _ _ Pc Fc)
              (kept_still _ _ (save_result_none _ _ _ _ E2)))).
Qed.

Lemma fruitless_nil n w : SetupRuns.fruitless self prompt timestamp [] n w.
Proof. intros j m _ H. discriminate. Qed.

Lemma fruitless_cons m rest n w :
  SetupRuns.fruitless self prompt timestamp (m :: rest) (S n) w
  <-> fst (attempt self prompt timestamp m w) = Ret None
      /\ SetupRuns.fruitless self prompt timestamp rest n
           (snd (attempt self prompt timestamp m w)).
Proof.
  unfold SetupRuns.fruitless. split.
  - intros H. split; [exact (H 0 m ltac:(lia) eq_refl)|].
    intros j m' Hj Hm. exact (H (S j) m' ltac:(lia) Hm).
  - intros [H0 H] [|j] m' Hj Hm.
    + injection Hm as <-. exact H0.
    + exact (H j m' ltac:(lia) Hm).
Qed.

(** when no round returns a file name the loop runs through all of them *)
Lemma fruitless_run models : forall w,
  SetupRuns.fruitless self prompt timestamp models (length models) w ->
  try_models self prompt timestamp models w
  = (Ret None, SetupRuns.rounds self prompt timestamp models w)
  /\ kept w (SetupRuns.rounds self prompt timestamp models w).
Proof.
  induction models as [|m rest IH]; intros w H.
  - split; [reflexivity | apply kept_refl].
  - apply fruitless_cons in H as [H0 H].
    pose proof (attempt_none_kept m w H0) as K.
    destruct (IH _ H) as [E K'].
    split; [|exact (kept_trans _ _ _ K K')].
    simpl. unfold bind.
    destruct (attempt self prompt timestamp m w) as [r1 w1]. simpl in *. subst r1. exact E.
Qed.

(** the run stops with the first round that returns a file name *)
Lemma try_models_stops models : forall w,
  SetupRuns.stops_at_first_success self prompt timestamp models w
    (try_models self prompt timestamp models w).
Proof.
  induction models as [|m rest IH]; intros w.
  - unfold SetupRuns.stops_at_first_success. simpl.
    split; [apply fruitless_nil|]. split; [reflexivity | now rewrite app_nil_r].
  - destruct (attempt_ok self prompt timestamp m w) as ((_ & _ & _ & _ & Ca) & _).
    assert (Hstop : exists n m', (m :: rest) !! n = Some m' /\
              SetupRuns.fruitless self prompt timestamp (m :: rest) n w /\
              attempt self prompt timestamp m w
              = attempt self prompt timestamp m'
                  (SetupRuns.rounds self prompt timestamp (take n (m :: rest)) w) /\
              calls (snd (attempt self prompt timestamp m w))
              = (calls w ++ map (request_of self prompt) (take (S n) (m :: rest)))%list).
    { exists 0, m. split; [reflexivity|]. split; [intros j m' Hj; lia|].
      split; [reflexivity|]. rewrite Ca. reflexivity. }
    unfold SetupRuns.stops_at_first_success. simpl. unfold bind.
    destruct (attempt self prompt timestamp m w) as [[[f|]|e] w1] eqn:Ea; simpl in *.
    + exact Hstop.
    + specialize (IH w1). unfold SetupRuns.stops_at_first_success in IH.
      assert (F0 : forall n, SetupRuns.fruitless self prompt timestamp rest n w1 ->
                             SetupRuns.fruitless self prompt timestamp (m :: rest) (S n) w).
      { intros n Hn. apply fruitless_cons. rewrite Ea. now split. }
      destruct (fst (try_models self prompt timestamp rest w1)) as [[f|]|e'].
      * destruct IH as (n & m' & Hm & Hn & Hr & Hc). exists (S n), m'.
        split; [exact Hm|]. split; [exact (F0 n Hn)|].
        split; [simpl; rewrite ?Ea; exact Hr|].
        rewrite Hc, Ca. simpl. now rewrite <- app_assoc.
      * destruct IH as (Hn & Hr & Hc).
        split; [exact (F0 _ Hn)|]. split; [rewrite ?Ea; exact Hr|].
        rewrite Hc, Ca. simpl. now rewrite <- app_assoc.
      * destruct IH as (n & m' & Hm & Hn & Hr & Hc). exists (S n), m'.
        split; [exact Hm|]. split; [exact (F0 n Hn)|].
        split; [simpl; rewrite ?Ea; exact Hr|].
        rewrite Hc, Ca. simpl. now rewrite <- app_assoc.
    + exact Hstop.
Qed.

End SetupNothing.

Lemma generate_image_from_stops self prompt models w :
  let timestamp := strftime (clock w (clock_reads w)) in
  SetupRuns.stops_at_first_success self prompt timestamp models (tick w)
    (SetupStableDiffusion.generate_image_from models self prompt w).
Proof.
  unfold SetupStableDiffusion.generate_image_from, bind, now.
  apply try_models_stops.
Qed.

(** ** The order of attempts *)

(** C1. Both loops call the models in list order and stop with the first
    attempt that saves an image: the run ends in the world that attempt
    leaves, every earlier attempt ended without a file, and the requests sent
    are those of the models up to that one and of no later model.
    [generate_image] has then called exactly the models up to that one, once
    each, and [main]'s loop has sent, for each earlier model, the gateway
    request followed by the direct request, and for the last one the gateway
    request alone or both.  When nothing is saved every model has been
    called. *)
Theorem providers_tried_in_order_until_success
        (self : SetupStableDiffusion.StableDiffusionImageGenerator)
        (prompt : string) (models : list (string * SetupStableDiffusion.generate_func))
        (model_ids : list string) (w : World) :
  let timestamp := strftime (clock w (clock_reads w)) in
  let r := SetupStableDiffusion.generate_image_from models self prompt w in
  let s := StableDiffusionScript.try_models prompt model_ids w in
  SetupRuns.ordered_run self prompt timestamp models 1 w r
  /\ ScriptRuns.ordered_run prompt model_ids w s
  /\ SetupRuns.stops_at_first_success self prompt timestamp models (tick w) r
  /\ ScriptRuns.stops_at_first_success prompt model_ids w s.
Proof.
  split; [apply generate_image_from_ordered|].
  split; [apply try_models_ordered_script|].
  split; [apply generate_image_from_stops | apply try_models_stops_script].
Qed.

(** Two models whose answers both carry an image: the first one is saved and
    the second model is not called, in either script. *)
Example second_model_is_not_called :
  let models := [("p1", SetupStableDiffusion.GenerateImageStabilityAI);
                 ("p2", SetupStableDiffusion.GenerateImageTitan)] in
  let r := SetupStableDiffusion.generate_image_from models Scenarios.self "a cat"
             (Scenarios.answering Scenarios.hello) in
  let s := StableDiffusionScript.try_models "a cat" ["p1"; "p2"]
             (Scenarios.answering Scenarios.hi_data) in
  fst r = Ret (Some "generated_image_p1_20250102_030400_0.png")
  /\ calls (snd r) = [SetupRequests.request_of Scenarios.self "a cat"
                        ("p1", SetupStableDiffusion.GenerateImageStabilityAI)]
  /\ fst s = Ret true
  /\ calls (snd s) = [StableDiffusionScript.gateway_request "a cat" "p1" 1024 1024].
Proof. vm_compute. repeat split; reflexivity. Qed.

(** Scenario C: the gateway answers the first model with an image; neither the
    direct call for that model nor any later model is tried. *)
Example scenario_C_stops_at_first_success :
  let r := StableDiffusionScript.main ["prog"; "a"; "cat"]
             (Scenarios.answering Scenarios.hi_data) in
  fst r = Ret true /\
  calls (snd r) = [StableDiffusionScript.gateway_request "a cat"
                     "stabilityai.stable-diffusion-3-5-large" 1024 1024] /\
  fs (snd r) !! "generated_image_20250102_030400_0.png" = Some (list_byte_of_string "hi").
Proof. vm_compute. repeat split; reflexivity. Qed.

(** Scenario A: one model whose answer carries [hello]. *)
Example scenario_A_saves_hello :
  let r := SetupStableDiffusion.generate_image_from Scenarios.p1_stability
             Scenarios.self "a cat" (Scenarios.answering Scenarios.hello) in
  fst r = Ret (Some "generated_image_p1_20250102_030400_0.png") /\
  fs (snd r) !! "generated_image_p1_20250102_030400_0.png"
  = Some (list_byte_of_string "hello").
Proof. vm_compute. split; reflexivity. Qed.

(** Scenario B: one model whose call fails; the reason shows up in the output
    of the adapter and nowhere in the returned value. *)
Example scenario_B_prints_the_reason :
  let r := SetupStableDiffusion.generate_image_from Scenarios.p1_titan
             Scenarios.self "a cat" Scenarios.failing in
  fst r = Ret None /\
  stdout (snd r) = [[Lit (nl ++ "--- Attempting with p1 ---")];
                    [Lit "Generating image with Titan model: p1"];
                    [Lit "Prompt: a cat"];
                    [Lit "Error generating image with Titan: transport error"]].
Proof. vm_compute. split; reflexivity. Qed.

Example gateway_request_size :
  StableDiffusionScript.gateway_request "a cat" "m" 1024 768
  = RequestsPost "http://localhost:50399/api/v1/images/generations"
      [("Content-Type", "application/json"); ("Authorization", "Bearer bedrock")]
      (PDict [("model", PStr "m"); ("prompt", PStr "a cat"); ("n", PInt 1);
              ("size", PStr "1024x768"); ("response_format", PStr "b64_json")])
      (Some 60%Z).
Proof. reflexivity. Qed.

(** ** Runs in which nothing is saved *)

(** C2 (amended). When every attempt fails, that is, ends without a file and
    without raising (the call fails, the body is not JSON or offers no blob,
    or no offered blob could be decoded and written), [generate_image]
    returns the bare [None], whatever the list of models, the empty list
    included, and the loop of [main] ends with [success] false: no list of
    outcomes comes back.  By then every model of the list has been called,
    in list order, and no save went through: each file is what it was, or
    holds what a write that failed had put into it. *)
Theorem total_failure_returns_none
        (self : SetupStableDiffusion.StableDiffusionImageGenerator)
        (prompt : string) (models : list (string * SetupStableDiffusion.generate_func))
        (model_ids : list string) (w : World) :
  let timestamp := strftime (clock w (clock_reads w)) in
  let r := SetupStableDiffusion.generate_image_from models self prompt w in
  let s := StableDiffusionScript.try_models prompt model_ids w in
  (SetupRuns.fruitless self prompt timestamp models (length models) (tick w) ->
   fst r = Ret None
   /\ calls (snd r) = (calls w ++ map (SetupRequests.request_of self prompt) models)%list
   /\ spoiled w (snd r))
  /\ (ScriptRuns.fruitless prompt model_ids (length model_ids) w ->
      fst s = Ret false
      /\ calls (snd s)
         = (calls w ++ flat_map (ScriptRequests.requests_of prompt) model_ids)%list
      /\ spoiled w (snd s)).
Proof.
  intros timestamp r s. split.
  - intros H.
    destruct (fruitless_run self prompt timestamp models (tick w) H) as [E [_ K]].
    pose proof (generate_image_from_stops self prompt models w) as Hs.
    cbv zeta in Hs. fold timestamp r in Hs.
    assert (Er : r = (Ret None, SetupRuns.rounds self prompt timestamp models (tick w))).
    { subst r. unfold SetupStableDiffusion.generate_image_from, bind, now. exact E. }
    unfold SetupRuns.stops_at_first_success in Hs. rewrite Er in Hs |- *. simpl in *.
    destruct Hs as (_ & _ & C). split; [reflexivity|]. split; [exact C | exact K].
  - intros H.
    destruct (fruitless_run_script prompt model_ids w H) as [E [_ K]].
    pose proof (try_models_stops_script prompt model_ids w) as Hs. fold s in Hs.
    unfold ScriptRuns.stops_at_first_success in Hs.
    subst s. rewrite E in Hs |- *. simpl in *.
    destruct Hs as (_ & _ & C). split; [reflexivity|]. split; [exact C | exact K].
Qed.

Lemma total_failure_returns_none_witness :
  let w := Scenarios.breaking_disk (Scenarios.answering Scenarios.hello) in
  let r := SetupStableDiffusion.generate_image Scenarios.self "a cat" w in
  let s := StableDiffusionScript.try_models "a cat"
             StableDiffusionScript.model_ids_to_try Scenarios.failing in
  (fst r = Ret None
   /\ calls (snd r) = map (SetupRequests.request_of Scenarios.self "a cat")
                          SetupStableDiffusion.models_to_try
   /\ spoiled w (snd r))
  /\ (fst s = Ret false
      /\ calls (snd s) = flat_map (ScriptRequests.requests_of "a cat")
                                  StableDiffusionScript.model_ids_to_try
      /\ spoiled Scenarios.failing (snd s)).
Proof.
  cbv zeta.
  destruct (total_failure_returns_none Scenarios.self "a cat"
              SetupStableDiffusion.models_to_try []
              (Scenarios.breaking_disk (Scenarios.answering Scenarios.hello))) as [H _].
  destruct (total_failure_returns_none Scenarios.self "a cat" []
              StableDiffusionScript.model_ids_to_try Scenarios.failing) as [_ H'].
  split.
  - apply H. intros [|[|[|j]]] m Hj Hm; simpl in Hj; try lia;
      injection Hm as <-; vm_compute; reflexivity.
  - apply H'. intros [|[|[|[|j]]]] m Hj Hm; simpl in Hj; try lia;
      injection Hm as <-; vm_compute; reflexivity.
Defined.

(** on that disk each failed save leaves the first three bytes of [hello] *)
Example failed_write_leaves_a_prefix :
  let w := Scenarios.breaking_disk (Scenarios.answering Scenarios.hello) in
  let r := SetupStableDiffusion.generate_image_from Scenarios.p1_stability
             Scenarios.self "a cat" w in
  fst r = Ret None
  /\ fs (snd r) !! "generated_image_p1_20250102_030400_0.png"
     = Some (list_byte_of_string "hel").
Proof. vm_compute. split; reflexivity. Qed.

Example undecodable_payloads_return_none :
  let w := Scenarios.answering (PDict [("artifacts", PList [PDict [("base64", PStr "a")]])]) in
  let r := SetupStableDiffusion.generate_image Scenarios.self "a cat" w in
  fst r = Ret None /\ length (calls (snd r)) = 3 /\ fs (snd r) = ∅.
Proof. vm_compute. repeat split; reflexivity. Qed.

(** C2 (counterexample). With one model whose call fails (scenario B), and with
    no model at all, [generate_image] returns the bare [None]; [main] of the
    other script ends with [success] false. *)
Lemma total_failure_is_bare_none :
  fst (SetupStableDiffusion.generate_image_from Scenarios.p1_titan
         Scenarios.self "a cat" Scenarios.failing) = Ret None
  /\ fst (SetupStableDiffusion.generate_image_from []
            Scenarios.self "a cat" Scenarios.failing) = Ret None
  /\ fst (StableDiffusionScript.main_from ["p1"] ["prog"] Scenarios.failing) = Ret false.
Proof. vm_compute. repeat split; reflexivity. Qed.

(** ** An answer without payloads *)





(** ** Several payloads in one answer *)

(** C5 (amended). When an attempt returns a file name, that name belongs to a
    position [k] of the response list of the model, the file holds the
    decoded blob of that position, no earlier position could be saved, and
    no payload after position [k] is persisted: the files of all later
    positions are what they were before the attempt. *)
Theorem first_saved_payload_ends_the_attempt
        (self : SetupStableDiffusion.StableDiffusionImageGenerator)
        (prompt timestamp : string) (m : string * SetupStableDiffusion.generate_func)
        (w : World) (f : string) :
  let r := SetupStableDiffusion.attempt self prompt timestamp m w in
  let result := parsed_or_none (transport w (length (calls w))
                                          (SetupRequests.request_of self prompt m)) in
  let name := SetupStableDiffusion.image_filename (fst m) timestamp in
  fst r = Ret (Some f) ->
  exists k b data,
    SetupNames.payload_at result k b /\ decode_payload b = inr data /\
    f = name k /\ fs (snd r) !! f = Some data /\
    (forall j b', j < k -> SetupNames.payload_at result j b' -> ~ saveable w (name j) b') /\
    (forall j, k < j -> fs (snd r) !! name j = fs w !! name j).
Proof.
  destruct m as [model_id g]. intros r result name Hf. subst r.
  rewrite attempt_unfold in *. fold result in Hf |- *.
  set (w0 := put_line [Lit (nl ++ "--- Attempting with " ++ model_id ++ " ---")] w) in *.
  destruct (call_ok self prompt g model_id w0) as (_ & (_ & _ & Hdisk & _) & Hfs).
  set (w1 := snd (SetupStableDiffusion.call self g prompt model_id w0)) in *.
  destruct (save_result_ok self model_id timestamp result w1) as (n & _ & Hok).
  rewrite Hf in Hok.
  destruct Hok as (k & b & data & _ & Hat & Hd & Hname & Hfile & T & Hbefore).
  exists k, b, data. simpl in Hname.
  split; [exact Hat|]. split; [exact Hd|]. split; [exact Hname|]. split; [exact Hfile|].
  split.
  - intros j b' Hj Hb' Hsv. apply (Hbefore j b' Hj Hb').
    apply (saveable_same_disk w w1); [exact Hdisk | exact Hsv].
  - intros j Hj. change (fs w) with (fs w0). rewrite <- Hfs.
    destruct (decide (fs (snd (SetupStableDiffusion.save_result self model_id timestamp
                                 result w1)) !! name j = fs w1 !! name j)) as [E|N];
      [exact E|].
    destruct (T _ N) as (k' & Hk' & Heq). simpl in Heq.
    apply image_filename_index_inj in Heq. lia.
Qed.

Lemma first_saved_payload_ends_the_attempt_witness :
  let w := Scenarios.answering Scenarios.two_artifacts in
  let m := ("p1", SetupStableDiffusion.GenerateImageStabilityAI) in
  let r := SetupStableDiffusion.attempt Scenarios.self "a cat" "20250102_030400" m w in
  let name := SetupStableDiffusion.image_filename "p1" "20250102_030400" in
  exists k b data,
    SetupNames.payload_at Scenarios.two_artifacts k b /\ decode_payload b = inr data /\
    "generated_image_p1_20250102_030400_0.png" = name k /\
    fs (snd r) !! "generated_image_p1_20250102_030400_0.png" = Some data /\
    (forall j b', j < k -> SetupNames.payload_at Scenarios.two_artifacts j b' ->
                  ~ saveable w (name j) b') /\
    (forall j, k < j -> fs (snd r) !! name j = fs w !! name j).
Proof.
  apply (first_saved_payload_ends_the_attempt Scenarios.self "a cat" "20250102_030400"
           ("p1", SetupStableDiffusion.GenerateImageStabilityAI)
           (Scenarios.answering Scenarios.two_artifacts)
           "generated_image_p1_20250102_030400_0.png").
  reflexivity.
Defined.

(** C5 (counterexample). An answer with two valid payloads leaves one file, the
    one of the first payload; the second payload is never written, neither by
    [generate_image] nor by [main] of the other script. *)
Lemma second_payload_not_persisted :
  let r := SetupStableDiffusion.generate_image_from Scenarios.p1_stability
             Scenarios.self "a cat" (Scenarios.answering Scenarios.two_artifacts) in
  let s := StableDiffusionScript.main_from ["p1"] ["prog"]
             (Scenarios.answering Scenarios.two_data) in
  fst r = Ret (Some "generated_image_p1_20250102_030400_0.png")
  /\ fs (snd r) !! "generated_image_p1_20250102_030400_1.png" = None
  /\ map fst (map_to_list (fs (snd r))) = ["generated_image_p1_20250102_030400_0.png"]
  /\ fst s = Ret true
  /\ map fst (map_to_list (fs (snd s))) = ["generated_image_20250102_030400_0.png"].
Proof. vm_compute. repeat split; reflexivity. Qed.

(** ** The names of the files *)

Lemma replace_sanitized (id : string) :
  PyStr.replace "." "_" (PyStr.replace ":" "_" id) = sanitized id.
Proof.
  induction id as [|c rest IH]; simpl; [reflexivity|]. rewrite IH. f_equal.
  destruct (Ascii.eqb_spec c ":"%char) as [->|]; [reflexivity|].
  destruct (Ascii.eqb_spec c "."%char) as [->|]; reflexivity.
Qed.

Lemma image_filename_artifact_path model_id timestamp i :
  SetupStableDiffusion.image_filename model_id timestamp i
  = artifact_path model_id timestamp i.
Proof.
  unfold SetupStableDiffusion.image_filename, artifact_path.
  now rewrite replace_sanitized.
Qed.

(** C6 (amended). Every file [generate_image] persists is named
    [generated_image_], the model id with [:] and [.] replaced by [_], the
    time stamp [YYYYMMDD_HHMMSS] read once when the call starts, the position
    of the blob in the answer of that model, and [.png]: this holds for the
    returned file, which holds the blob of that position, and every file that
    changed during the call carries the same time stamp. *)
Theorem generated_file_names
        (self : SetupStableDiffusion.StableDiffusionImageGenerator)
        (prompt : string) (models : list (string * SetupStableDiffusion.generate_func))
        (w : World) (f : string) :
  let r := SetupStableDiffusion.generate_image_from models self prompt w in
  let ts := strftime (clock w (clock_reads w)) in
  valid_datetime (clock w (clock_reads w)) = true ->
  fst r = Ret (Some f) ->
  timestamp_shape ts
  /\ (exists n m k b data,
        models !! n = Some m /\
        SetupNames.payload_at
          (parsed_or_none (transport w (length (calls w) + n)
                                     (SetupRequests.request_of self prompt m))) k b /\
        decode_payload b = inr data /\
        f = artifact_path (fst m) ts k /\ fs (snd r) !! f = Some data)
  /\ (forall p, fs (snd r) !! p <> fs w !! p ->
                exists m i, In m models /\ p = artifact_path (fst m) ts i).
Proof.
  intros r ts Hv Hf.
  destruct (generate_image_from_ordered self prompt models w) as (n & Hn & _ & T & Hr).
  fold r in T, Hr. rewrite Hf in Hr.
  destruct Hr as (m & w1 & Hl & Hpos & _ & (k & b & data & Hat & Hd & Hname & Hfs)).
  split; [now apply strftime_shape|]. split.
  - exists (Init.Nat.pred n), m, k, b, data.
    rewrite <- image_filename_artifact_path. auto.
  - intros p Hp. destruct (T p Hp) as (m' & Hin & (i & ->)).
    exists m', i. split; [exact Hin | apply image_filename_artifact_path].
Qed.

Lemma generated_file_names_witness :
  let w := Scenarios.answering Scenarios.hello in
  let r := SetupStableDiffusion.generate_image Scenarios.self "a cat" w in
  let ts := "20250102_030400" in
  let f := "generated_image_stabilityai_stable-diffusion-3-5-large_20250102_030400_0.png" in
  timestamp_shape ts
  /\ (exists n m k b data,
        SetupStableDiffusion.models_to_try !! n = Some m /\
        SetupNames.payload_at
          (parsed_or_none (transport w (length (calls w) + n)
                                     (SetupRequests.request_of Scenarios.self "a cat" m))) k b /\
        decode_payload b = inr data /\
        f = artifact_path (fst m) ts k /\ fs (snd r) !! f = Some data)
  /\ (forall p, fs (snd r) !! p <> fs w !! p ->
                exists m i, In m SetupStableDiffusion.models_to_try /\
                            p = artifact_path (fst m) ts i).
Proof.
  apply (generated_file_names Scenarios.self "a cat" SetupStableDiffusion.models_to_try
           (Scenarios.answering Scenarios.hello)
           "generated_image_stabilityai_stable-diffusion-3-5-large_20250102_030400_0.png");
    reflexivity.
Defined.

Example artifact_path_sample :
  artifact_path "stability.stable-diffusion-xl-v1:0" "20250102_030400" 2
  = "generated_image_stability_stable-diffusion-xl-v1_0_20250102_030400_2.png".
Proof. reflexivity. Qed.

Lemma script_name_has_no_model model_id ts i :
  String.length ts = 15 ->
  StableDiffusionScript.image_filename ts 0
  <> SetupStableDiffusion.image_filename model_id ts i.
Proof.
  unfold StableDiffusionScript.image_filename, SetupStableDiffusion.image_filename.
  intros Hlen H. apply app_inv_head_string in H.
  set (s := PyStr.replace "." "_" (PyStr.replace ":" "_" model_id)) in H.
  apply (f_equal PyStr.to_list) in H. rewrite !to_list_app in H.
  set (d := PyStr.to_list (PyStr.of_nat i)) in H.
  set (d0 := PyStr.to_list (PyStr.of_nat 0)) in H.
  set (png := PyStr.to_list ".png") in H.
  change (PyStr.to_list "_") with ["_"%char] in H.
  assert (E : (PyStr.to_list ts ++ "_"%char :: (d0 ++ png)
               = (PyStr.to_list s ++ "_"%char :: PyStr.to_list ts) ++ "_"%char :: (d ++ png))%list).
  { rewrite <- !app_assoc. exact H. }
  assert (Hd : forall j, ~ In "_"%char (PyStr.to_list (PyStr.of_nat j) ++ png)%list).
  { intros j Hin. apply in_app_or in Hin as [Hin|Hin].
    - exact (digit_not_underscore _ (of_nat_digits j) Hin).
    - subst png. simpl in Hin. intuition discriminate. }
  apply cut_at_last in E; [|apply Hd..].
  destruct E as [E _]. apply (f_equal (@length ascii)) in E.
  rewrite length_app in E. simpl in E. rewrite !length_to_list in E. lia.
Qed.

(** C6 (counterexample). The files [main] of
    [stable_diffusion_image_generator.py] persists carry no model id in their
    names, so they match the pattern for no model, and the time stamp is read
    for each payload, not once per call (here the second payload is saved
    under the clock reading of its own turn). *)
Lemma script_file_names_differ :
  let r := StableDiffusionScript.main ["prog"] (Scenarios.answering Scenarios.hi_data) in
  let s := StableDiffusionScript.main ["prog"]
             (Scenarios.answering Scenarios.bad_then_hi_data) in
  fst r = Ret true
  /\ map fst (map_to_list (fs (snd r))) = ["generated_image_20250102_030400_0.png"]
  /\ (forall provider i,
        "generated_image_20250102_030400_0.png"
        <> artifact_path provider "20250102_030400" i)
  /\ fst s = Ret true
  /\ map fst (map_to_list (fs (snd s))) = ["generated_image_20250102_030401_1.png"].
Proof.
  split; [vm_compute; reflexivity|]. split; [vm_compute; reflexivity|].
  split; [|split; vm_compute; reflexivity].
  intros provider i. rewrite <- image_filename_artifact_path.
  exact (script_name_has_no_model provider "20250102_030400" i eq_refl).
Qed.

(** ** Two calls in a row *)

(** C7 (amended). Two successive successful calls of [generate_image] with the
    same prompt and the same models return different paths whenever the two
    clock readings print differently, that is, whenever the calls start in
    different seconds; both files exist afterwards. *)
Theorem distinct_seconds_give_distinct_paths
        (self : SetupStableDiffusion.StableDiffusionImageGenerator)
        (prompt : string) (models : list (string * SetupStableDiffusion.generate_func))
        (w : World) (f1 f2 : string) :
  let r1 := SetupStableDiffusion.generate_image_from models self prompt w in
  let r2 := SetupStableDiffusion.generate_image_from models self prompt (snd r1) in
  let t1 := clock w (clock_reads w) in
  let t2 := clock w (S (clock_reads w)) in
  valid_datetime t1 = true -> valid_datetime t2 = true ->
  strftime t1 <> strftime t2 ->
  fst r1 = Ret (Some f1) -> fst r2 = Ret (Some f2) ->
  f1 <> f2 /\ is_Some (fs (snd r2) !! f1) /\ is_Some (fs (snd r2) !! f2).
Proof.
  intros r1 r2 t1 t2 Hv1 Hv2 Hne H1 H2.
  destruct (generate_image_from_ordered self prompt models w)
    as (n1 & _ & P1 & _ & Hr1).
  destruct (generate_image_from_ordered self prompt models (snd r1))
    as (n2 & _ & _ & T2 & Hr2).
  fold r1 in P1, Hr1. fold r2 in T2, Hr2. rewrite H1 in Hr1. rewrite H2 in Hr2.
  destruct P1 as (_ & C1 & _ & R1 & _). rewrite C1, R1, Nat.add_1_r in Hr2, T2.
  fold t1 in Hr1. fold t2 in Hr2, T2.
  destruct Hr1 as (m1 & _ & _ & _ & _ & (k1 & b1 & d1 & _ & _ & E1 & S1)).
  destruct Hr2 as (m2 & _ & _ & _ & _ & (k2 & b2 & d2 & _ & _ & E2 & S2)).
  pose proof (timestamp_shape_length _ (strftime_shape _ Hv1)) as L1.
  pose proof (timestamp_shape_length _ (strftime_shape _ Hv2)) as L2.
  assert (Hdiff : forall m i, f1 <> SetupStableDiffusion.image_filename m (strftime t2) i).
  { intros m i E. rewrite E1 in E.
    apply image_filename_timestamp_inj in E; [contradiction | congruence]. }
  split; [|split].
  - rewrite E2. apply Hdiff.
  - destruct (decide (fs (snd r2) !! f1 = fs (snd r1) !! f1)) as [E|N].
    + rewrite E, S1. now exists d1.
    + destruct (T2 _ N) as (m & _ & (i & E)). now destruct (Hdiff (fst m) i).
  - rewrite S2. now exists d2.
Qed.

Lemma distinct_seconds_give_distinct_paths_witness :
  let w := Scenarios.answering Scenarios.hello in
  let r1 := SetupStableDiffusion.generate_image Scenarios.self "a cat" w in
  let r2 := SetupStableDiffusion.generate_image Scenarios.self "a cat" (snd r1) in
  let f1 := "generated_image_stabilityai_stable-diffusion-3-5-large_20250102_030400_0.png" in
  let f2 := "generated_image_stabilityai_stable-diffusion-3-5-large_20250102_030401_0.png" in
  f1 <> f2 /\ is_Some (fs (snd r2) !! f1) /\ is_Some (fs (snd r2) !! f2).
Proof.
  apply (distinct_seconds_give_distinct_paths Scenarios.self "a cat"
           SetupStableDiffusion.models_to_try (Scenarios.answering Scenarios.hello));
    try reflexivity.
  vm_compute. discriminate.
Defined.

(** C7 (counterexample). Two successive successful calls that start within the
    same second return the same path, and the second call overwrites the file
    of the first (here [hello] is replaced by [hi]). *)
Lemma same_second_same_path :
  let w := Scenarios.hello_then_hi in
  let r1 := SetupStableDiffusion.generate_image Scenarios.self "a cat" w in
  let r2 := SetupStableDiffusion.generate_image Scenarios.self "a cat" (snd r1) in
  let f := "generated_image_stabilityai_stable-diffusion-3-5-large_20250102_030405_0.png" in
  fst r1 = Ret (Some f) /\ fst r2 = Ret (Some f)
  /\ fs (snd r1) !! f = Some (list_byte_of_string "hello")
  /\ map_to_list (fs (snd r2)) = [(f, list_byte_of_string "hi")].
Proof. vm_compute. repeat split; reflexivity. Qed.

(** ** Model discovery *)
Section SubstringSearch.

Lemma contains_spec (sub s : string) :
  PyStr.contains sub s = true <-> exists pre post : string, s = pre ++ sub ++ post.
Proof.
  split.
  - induction s as [|c s IH]; intros H.
    + change (String.prefix sub "" || false = true) in H.
      rewrite orb_false_r in H. apply prefix_app in H as [t ->]. now exists "", t.
    + change (String.prefix sub (String c s) || PyStr.contains sub s = true) in H.
      apply orb_prop in H as [H|H].
      * apply prefix_app in H as [t ->]. now exists "", t.
      * destruct (IH H) as (pre & post & ->). now exists (String c pre), post.
  - intros (pre & post & ->). induction pre as [|c pre IH].
    + change ("" ++ sub ++ post) with (sub ++ post).
      assert (Hp : String.prefix sub (sub ++ post) = true) by apply prefix_of_app.
      destruct (sub ++ post) as [|d rest];
        [change (String.prefix sub "" || false = true)
        |change (String.prefix sub (String d rest) || PyStr.contains sub rest = true)];
        now rewrite Hp.
    + change (String.prefix sub (String c (pre ++ sub ++ post))
              || PyStr.contains sub (pre ++ sub ++ post) = true).
      rewrite IH. apply orb_true_r.
Qed.

Lemma lower_app (a b : string) : PyStr.lower (a ++ b) = PyStr.lower a ++ PyStr.lower b.
Proof.
  induction a as [|c a IH]; [reflexivity|].
  change (String c a ++ b) with (String c (a ++ b)). simpl. now rewrite IH.
Qed.

(** a prefix of the lowered string is the lowering of a prefix *)
Lemma lower_split (s a' b' : string) :
  PyStr.lower s = a' ++ b' ->
  exists a b : string, s = a ++ b /\ PyStr.lower a = a' /\ PyStr.lower b = b'.
Proof.
  revert s. induction a' as [|c a' IH]; intros s H.
  - exists "", s. auto.
  - destruct s as [|d s]; [discriminate|].
    change (String c a' ++ b') with (String c (a' ++ b')) in H.
    simpl in H. injection H as Hc H.
    destruct (IH s H) as (a & b & -> & <- & <-).
    exists (String d a), b. simpl. now rewrite Hc.
Qed.

(** for a lower-case keyword the test of the scripts is containment up to case *)
Lemma matches_spec (keyword id : string) :
  PyStr.lower keyword = keyword ->
  Discovery.matches keyword id = true <-> Discovery.occurs_ignoring_case keyword id.
Proof.
  intros Hk. unfold Discovery.matches, Discovery.occurs_ignoring_case.
  rewrite contains_spec, Hk. split.
  - intros (pre' & post' & H).
    apply lower_split in H as (pre & rest & -> & _ & H).
    apply lower_split in H as (mid & post & -> & H & _).
    now exists pre, mid, post.
  - intros (pre & mid & post & -> & H).
    exists (PyStr.lower pre), (PyStr.lower post). now rewrite !lower_app, H.
Qed.

End SubstringSearch.

Section ClaudeDiscovery.
Import ClaudeGateway Discovery.

Lemma model_ids_listed entries ids w :
  lists "id" entries ids -> model_ids entries w = (Ret (map PStr ids), w).
Proof.
  intros H. induction H as [|entry id entries ids He _ IH]; simpl; [reflexivity|].
  unfold bind, lift. rewrite He. simpl. unfold bind. now rewrite IH.
Qed.

Lemma claude_models_filter ids w :
  claude_models (map PStr ids) w = (Ret (map PStr (List.filter (matches "claude") ids)), w).
Proof.
  induction ids as [|id ids IH]; simpl; [reflexivity|].
  unfold bind at 1. simpl. unfold bind. rewrite IH. simpl.
  unfold matches. unfold ret.
  destruct (PyStr.contains "claude" (PyStr.lower id)); reflexivity.
Qed.

Lemma get_available_models_listed w r body entries ids :
  transport w (length (calls w)) models_request = Responds r ->
  status_code r = 200%Z -> json_body r = Some body ->
  Py.get body "data" (PList []) = inr (PList entries) ->
  lists "id" entries ids ->
  get_available_models w = (Ret (map PStr ids), log_call models_request w).
Proof.
  intros Ht Hs Hj Hd Hl.
  unfold get_available_models, try_except.
  fold models_request.
  rewrite (bind_ret_eq _ _ w r (log_call models_request w))
    by (unfold send; now rewrite Ht).
  rewrite Hs. simpl.
  rewrite (bind_ret_eq _ _ _ body (log_call models_request w))
    by (unfold parse_json; now rewrite Hj).
  rewrite (bind_ret_eq _ _ _ (PList entries) (log_call models_request w))
    by (now rewrite Hd).
  rewrite (bind_ret_eq _ _ _ entries (log_call models_request w)) by reflexivity.
  now rewrite (model_ids_listed _ ids).
Qed.

End ClaudeDiscovery.

Section SetupDiscovery.
Import SetupStableDiffusion Discovery.






End SetupDiscovery.





Example sample_discovery :
  fst (bind ClaudeGateway.get_available_models ClaudeGateway.claude_models
            Discovery.sample_world)
  = Ret [PStr "anthropic.Claude-3-Sonnet"; PStr "us.anthropic.claude-v2"]
  /\ fst (SetupStableDiffusion.list_available_models Scenarios.self Discovery.sample_world)
     = Ret [PDict [("modelId", PStr "stability.Stable-Diffusion-XL");
                   ("modelName", PStr "SDXL"); ("providerName", PStr "Stability AI")]].
Proof. vm_compute. split; reflexivity. Qed.

(** ** A listing that fails *)

Lemma try_except_returns {A} (body : M A) (handler : exn -> M A) w :
  (forall e w', exists a, fst (handler e w') = Ret a) ->
  exists a, fst (try_except body handler w) = Ret a.
Proof.
  intros H. unfold try_except. destruct (body w) as [[a|e] w']; simpl; eauto.
Qed.

Lemma try_except_raised {A} (body : M A) (handler : exn -> M A) w e w' :
  body w = (Raise e, w') -> try_except body handler w = handler e w'.
Proof. intros H. unfold try_except. now rewrite H. Qed.

(** C10. Neither catalog query ever raises.  [get_available_models] returns
    the empty list when the call raises and when the status is not 200, and
    [list_available_models] returns it when the SDK call raises; the same
    empty list comes back for a listing without entries, so the returned
    value does not tell a failed listing from an empty catalog. *)
Theorem failed_listing_is_empty_list
        (self : SetupStableDiffusion.StableDiffusionImageGenerator) (w : World) :
  (exists l, fst (ClaudeGateway.get_available_models w) = Ret l)
  /\ (exists l, fst (SetupStableDiffusion.list_available_models self w) = Ret l)
  /\ match transport w (length (calls w)) Discovery.models_request with
     | Fails _ => fst (ClaudeGateway.get_available_models w) = Ret []
     | Responds r =>
         if (status_code r =? 200)%Z then True
         else fst (ClaudeGateway.get_available_models w) = Ret []
     end
  /\ match transport w (length (calls w))
                     (ListFoundationModels (SetupStableDiffusion.region self)) with
     | Fails _ => fst (SetupStableDiffusion.list_available_models self w) = Ret []
     | Responds _ => True
     end
  /\ fst (ClaudeGateway.get_available_models
            (with_transport (fun _ _ => Discovery.empty_catalog) w)) = Ret []
  /\ fst (SetupStableDiffusion.list_available_models self
            (with_transport (fun _ _ => Discovery.empty_summaries) w)) = Ret [].
Proof.
  split; [apply try_except_returns; intros e w'; now exists []|].
  split; [apply try_except_returns; intros e w'; now exists []|].
  split; [|split; [|split; reflexivity]].
  - unfold ClaudeGateway.get_available_models. fold Discovery.models_request.
    destruct (transport w (length (calls w)) Discovery.models_request)
      as [r|e] eqn:Ht.
    + destruct (status_code r =? 200)%Z eqn:Hs; [exact I|].
      unfold try_except.
      rewrite (bind_ret_eq _ _ w r (log_call Discovery.models_request w))
        by (unfold send; now rewrite Ht).
      rewrite Hs. reflexivity.
    + rewrite (try_except_raised _ _ w e (log_call Discovery.models_request w));
        [reflexivity|].
      apply bind_raise_eq. unfold send. now rewrite Ht.
  - unfold SetupStableDiffusion.list_available_models.
    set (rq := ListFoundationModels (SetupStableDiffusion.region self)).
    destruct (transport w (length (calls w)) rq) as [r|e] eqn:Ht; [exact I|].
    rewrite (try_except_raised _ _ w e (log_call rq w)); [reflexivity|].
    apply bind_raise_eq. unfold send. now rewrite Ht.
Qed.

(** ** Calling a Claude model through the gateway *)
Section ClaudeCalls.
Import ClaudeGateway Discovery.
Variable prompt : string.

(** the listing sends its one request and touches nothing else, whatever
    comes back *)
Lemma model_ids_quiet entries : forall w,
  snd (model_ids entries w) = w.
Proof.
  induction entries as [|entry rest IH]; intros w; simpl; [reflexivity|].
  unfold bind at 1. unfold lift.
  destruct (Py.getitem entry "id") as [e|id]; simpl; [reflexivity|].
  unfold bind. specialize (IH w).
  destruct (model_ids rest w) as [[ids|e] w1]; simpl in *; now subst.
Qed.

Lemma get_available_models_calls w :
  progress [models_request] 0 w (snd (get_available_models w))
  /\ fs (snd (get_available_models w)) = fs w.
Proof.
  unfold get_available_models. fold models_request.
  unfold send, parse_json; run.
  destruct (transport w (length (calls w)) models_request) as [[code txt body]|e]; simpl;
    [|split; [frame | reflexivity]].
  destruct (code =? 200)%Z; simpl; [|split; [frame | reflexivity]].
  destruct body as [body|]; simpl; [|split; [frame | reflexivity]].
  destruct (Py.get body "data" (PList [])) as [e|data]; simpl;
    [split; [frame | reflexivity]|].
  destruct (Py.iter data) as [e|items]; simpl; [split; [frame | reflexivity]|].
  pose proof (model_ids_quiet items (log_call models_request w)) as Q.
  destruct (model_ids items (log_call models_request w)) as [[ids|e] w1];
    simpl in *; subst w1; split; try frame; reflexivity.
Qed.

Lemma print_models_lines models : forall w,
  print_models models w
  = (Ret tt, mkWorld (transport w) (calls w) (clock w) (clock_reads w) (disk w) (fs w)
               (stdout w ++ map (fun model => [Lit "- "; Val model]) models)
               (sdk_clients w)).
Proof.
  induction models as [|model rest IH]; intros w; simpl.
  - rewrite app_nil_r. now destruct w.
  - unfold bind, printf. rewrite IH. simpl. now rewrite <- app_assoc.
Qed.

Lemma chat_returns model_id w :
  let rq := chat_request prompt model_id in
  let r := call_claude_model prompt (Some model_id) w in
  fst r = Ret (Chat.answer (transport w (length (calls w)) rq))
  /\ progress [rq] 0 w (snd r) /\ fs (snd r) = fs w.
Proof.
  unfold call_claude_model, choose_model.
  rewrite (bind_ret_eq _ _ w (Some model_id) w) by reflexivity.
  unfold Chat.answer, Chat.first_content, and_then, try_except, send, parse_json; run.
  destruct (transport w (length (calls w)) (chat_request prompt model_id))
    as [[code txt [body|]]|e]; simpl;
    try destruct (code =? 200)%Z; simpl; try (split; [reflexivity | split; [frame | reflexivity]]).
  destruct (Py.getitem body "choices") as [e|choices]; simpl;
    try (split; [reflexivity | split; [frame | reflexivity]]).
  destruct (getindex choices 0) as [e|choice]; simpl;
    try (split; [reflexivity | split; [frame | reflexivity]]).
  destruct (Py.getitem choice "message") as [e|message]; simpl;
    try (split; [reflexivity | split; [frame | reflexivity]]).
  destruct (Py.getitem message "content") as [e|content]; simpl;
    split; try reflexivity; split; try frame; reflexivity.
Qed.

(** identifiers of any type, as the listing carries them *)
Lemma model_ids_values entries vs w :
  Forall2 (fun entry v => Py.getitem entry "id" = inr v) entries vs ->
  model_ids entries w = (Ret vs, w).
Proof.
  intros H. induction H as [|entry v entries vs He _ IH]; simpl; [reflexivity|].
  unfold bind, lift. rewrite He. simpl. unfold bind. now rewrite IH.
Qed.

Lemma get_available_models_values w r body entries vs :
  transport w (length (calls w)) models_request = Responds r ->
  status_code r = 200%Z -> json_body r = Some body ->
  Py.get body "data" (PList []) = inr (PList entries) ->
  Forall2 (fun entry v => Py.getitem entry "id" = inr v) entries vs ->
  get_available_models w = (Ret vs, log_call models_request w).
Proof.
  intros Ht Hs Hj Hd Hl.
  unfold get_available_models, try_except.
  fold models_request.
  rewrite (bind_ret_eq _ _ w r (log_call models_request w))
    by (unfold send; now rewrite Ht).
  rewrite Hs. simpl.
  rewrite (bind_ret_eq _ _ _ body (log_call models_request w))
    by (unfold parse_json; now rewrite Hj).
  rewrite (bind_ret_eq _ _ _ (PList entries) (log_call models_request w))
    by (now rewrite Hd).
  rewrite (bind_ret_eq _ _ _ entries (log_call models_request w)) by reflexivity.
  now rewrite (model_ids_values _ vs).
Qed.

(** the comprehension stops at the first identifier that is no string *)
Lemma claude_models_raises vs w :
  Exists (fun v => forall s, v <> PStr s) vs ->
  exists e, claude_models vs w = (Raise e, w) /\ exn_cls e = AttributeError.
Proof.
  intros H. induction vs as [|v rest IH]; [inversion H|].
  simpl. unfold bind at 1. unfold lift.
  destruct v as [| | | |s| |]; simpl;
    try (eexists; split; reflexivity).
  destruct IH as (e & E & He).
  { inversion H as [? ? Hv|]; subst; [now destruct (Hv s) | assumption]. }
  exists e. unfold bind. now rewrite E.
Qed.

Lemma filter_first_match (f : string -> bool) before first after :
  Forall (fun id => f id = false) before -> f first = true ->
  List.filter f (before ++ first :: after) = first :: List.filter f after.
Proof.
  intros Hb Hf. induction Hb as [|id before Hid _ IH]; simpl.
  - now rewrite Hf.
  - now rewrite Hid.
Qed.

End ClaudeCalls.

(** X1. With a model id given, [call_claude_model] sends one request, the
    chat completion for that model and prompt, and never raises: it returns
    the content of the first choice of a 200 answer, and [None] when the call
    raises, when the status is not 200, and when the body is not JSON or
    lacks one of [choices], a first choice, [message] and [content].  No file
    is touched and the catalog is not queried. *)
Theorem claude_call_returns_content_or_none
        (prompt : string) (model_id : pyval) (w : World) :
  let rq := ClaudeGateway.chat_request prompt model_id in
  let r := ClaudeGateway.call_claude_model prompt (Some model_id) w in
  fst r = Ret (Chat.answer (transport w (length (calls w)) rq))
  /\ calls (snd r) = (calls w ++ [rq])%list
  /\ fs (snd r) = fs w
  /\ (forall e, transport w (length (calls w)) rq = Fails e -> fst r = Ret PNone)
  /\ (forall resp, transport w (length (calls w)) rq = Responds resp ->
        status_code resp <> 200%Z -> fst r = Ret PNone)
  /\ (forall resp body choice others message content,
        transport w (length (calls w)) rq = Responds resp ->
        status_code resp = 200%Z -> json_body resp = Some body ->
        Py.getitem body "choices" = inr (PList (choice :: others)) ->
        Py.getitem choice "message" = inr message ->
        Py.getitem message "content" = inr content ->
        fst r = Ret content)
  /\ (forall resp body,
        transport w (length (calls w)) rq = Responds resp ->
        json_body resp = Some body -> Py.getitem body "choices" = inr (PList []) ->
        fst r = Ret PNone).
Proof.
  intros rq r.
  destruct (chat_returns prompt model_id w) as (Hr & P & F).
  fold rq in Hr, P. fold r in Hr, P, F.
  split; [exact Hr|]. split; [now destruct P as (_ & _ & _ & _ & C)|].
  split; [exact F|]. rewrite Hr.
  split; [intros e ->; reflexivity|].
  split.
  { intros resp -> Hs. simpl. apply Z.eqb_neq in Hs. now rewrite Hs. }
  split.
  { intros resp body choice others message content -> Hs Hj Hc Hm Hcontent. simpl.
    rewrite Hs, Hj. simpl.
    unfold Chat.first_content, and_then. rewrite Hc. simpl. now rewrite Hm, Hcontent. }
  intros resp body -> Hj Hc. simpl. rewrite Hj.
  destruct (status_code resp =? 200)%Z; [|reflexivity].
  unfold Chat.first_content, and_then. now rewrite Hc.
Qed.

Lemma claude_call_returns_content_or_none_witness :
  let body := PDict [("choices",
                PList [PDict [("message", PDict [("content", PStr "Hi")])]])] in
  let w := Scenarios.answering body in
  fst (ClaudeGateway.call_claude_model "Hello" (Some (PStr "claude-3")) w)
  = Ret (PStr "Hi").
Proof.
  cbv zeta.
  destruct (claude_call_returns_content_or_none "Hello" (PStr "claude-3")
              (Scenarios.answering
                 (PDict [("choices",
                    PList [PDict [("message", PDict [("content", PStr "Hi")])]])])))
    as (_ & _ & _ & _ & _ & H & _).
  eapply H; reflexivity.
Defined.

(** X2. Without a model id, [call_claude_model] uses the first listed
    identifier that contains [claude] when case is ignored: the call is the
    one made with that identifier given, after the catalog request and the
    line that names the model.  Two requests are sent, the listing and then
    the chat completion for that model. *)
Theorem first_listed_claude_model_is_called
        (prompt : string) (w : World) (r : response) (body : pyval)
        (entries : list pyval) (before after : list string) (first : string) :
  let chosen := put_line [Lit "Using model: "; Val (PStr first)]
                         (log_call Discovery.models_request w) in
  transport w (length (calls w)) Discovery.models_request = Responds r ->
  status_code r = 200%Z -> json_body r = Some body ->
  Py.get body "data" (PList []) = inr (PList entries) ->
  Discovery.lists "id" entries (before ++ first :: after) ->
  (forall id, In id before -> ~ Discovery.occurs_ignoring_case "claude" id) ->
  Discovery.occurs_ignoring_case "claude" first ->
  ClaudeGateway.call_claude_model prompt None w
  = ClaudeGateway.call_claude_model prompt (Some (PStr first)) chosen
  /\ calls (snd (ClaudeGateway.call_claude_model prompt None w))
     = (calls w ++ [Discovery.models_request;
                    ClaudeGateway.chat_request prompt (PStr first)])%list.
Proof.
  intros chosen Ht Hs Hj Hd Hl Hb Hf.
  assert (E : ClaudeGateway.call_claude_model prompt None w
              = ClaudeGateway.call_claude_model prompt (Some (PStr first)) chosen).
  { unfold ClaudeGateway.call_claude_model at 1. unfold ClaudeGateway.choose_model.
    unfold bind at 1. unfold bind at 1.
    rewrite (get_available_models_listed w r body entries _ Ht Hs Hj Hd Hl).
    unfold bind at 1. rewrite claude_models_filter.
    rewrite filter_first_match.
    - reflexivity.
    - apply List.Forall_forall. intros id Hin.
      destruct (Discovery.matches "claude" id) eqn:Hm; [|reflexivity].
      apply (matches_spec "claude" id eq_refl) in Hm. now destruct (Hb id Hin).
    - now apply (matches_spec "claude" first eq_refl). }
  split; [exact E|]. rewrite E.
  destruct (chat_returns prompt (PStr first) chosen) as (_ & (_ & _ & _ & _ & C) & _).
  rewrite C. unfold chosen. simpl. now rewrite <- app_assoc.
Qed.

Lemma first_listed_claude_model_is_called_witness :
  let w := Discovery.sample_world in
  let chosen := put_line [Lit "Using model: "; Val (PStr "anthropic.Claude-3-Sonnet")]
                         (log_call Discovery.models_request w) in
  ClaudeGateway.call_claude_model "hi" None w
  = ClaudeGateway.call_claude_model "hi" (Some (PStr "anthropic.Claude-3-Sonnet")) chosen
  /\ calls (snd (ClaudeGateway.call_claude_model "hi" None w))
     = (calls w ++ [Discovery.models_request;
                    ClaudeGateway.chat_request "hi" (PStr "anthropic.Claude-3-Sonnet")])%list.
Proof.
  apply (first_listed_claude_model_is_called "hi" Discovery.sample_world
           Discovery.sample_listing
           (PDict [("object", PStr "list"); ("data", PList Discovery.sample_entries)])
           Discovery.sample_entries []
           ["amazon.titan-text-express-v1"; "us.anthropic.claude-v2"]
           "anthropic.Claude-3-Sonnet"); try reflexivity.
  - repeat constructor.
  - intros id [].
  - now exists "anthropic.", "Claude", "-3-Sonnet".
Defined.

(** X3. Without a model id and with no Claude model in the catalog, which
    includes a listing that failed, [call_claude_model] returns [None] after
    the catalog request alone: no chat request is sent and no file is
    touched; it prints the notice and one line per listed model. *)
Theorem no_claude_model_sends_no_chat
        (prompt : string) (w : World) (ids : list string) :
  let listed := ClaudeGateway.get_available_models w in
  let r := ClaudeGateway.call_claude_model prompt None w in
  fst listed = Ret (map PStr ids) ->
  (forall id, In id ids -> ~ Discovery.occurs_ignoring_case "claude" id) ->
  fst r = Ret PNone
  /\ calls (snd r) = (calls w ++ [Discovery.models_request])%list
  /\ fs (snd r) = fs w
  /\ stdout (snd r) = (stdout (snd listed) ++ Chat.no_claude_lines (map PStr ids))%list.
Proof.
  intros listed r Hl Hnone.
  destruct (get_available_models_calls w) as [(_ & _ & _ & _ & C) F].
  fold listed in C, F.
  assert (Hf : List.filter (Discovery.matches "claude") ids = []).
  { destruct (List.filter (Discovery.matches "claude") ids) as [|id rest] eqn:E;
      [reflexivity|].
    assert (Hin : In id (List.filter (Discovery.matches "claude") ids))
      by (rewrite E; now left).
    apply filter_In in Hin as [Hin Hm].
    apply (matches_spec "claude" id eq_refl) in Hm. now destruct (Hnone id Hin). }
  assert (El : ClaudeGateway.get_available_models w = (Ret (map PStr ids), snd listed)).
  { fold listed. rewrite <- Hl. now destruct listed. }
  assert (Ec : ClaudeGateway.choose_model None w
               = (Ret None,
                  mkWorld (transport (snd listed)) (calls (snd listed))
                    (clock (snd listed)) (clock_reads (snd listed))
                    (disk (snd listed)) (fs (snd listed))
                    (stdout (snd listed) ++ Chat.no_claude_lines (map PStr ids))
                    (sdk_clients (snd listed)))).
  { unfold ClaudeGateway.choose_model.
    rewrite (bind_ret_eq _ _ w _ _ El).
    rewrite (bind_ret_eq _ _ _ _ _ (claude_models_filter ids (snd listed))).
    rewrite Hf. cbn [map]. unfold bind, print, printf.
    rewrite print_models_lines. simpl. unfold ret, Chat.no_claude_lines.
    now rewrite <- app_assoc. }
  subst r. unfold ClaudeGateway.call_claude_model.
  rewrite (bind_ret_eq _ _ w _ _ Ec). simpl.
  split; [reflexivity|]. split; [exact C|]. split; [exact F | reflexivity].
Qed.

Lemma no_claude_model_sends_no_chat_witness :
  let w := Scenarios.failing in
  let listed := ClaudeGateway.get_available_models w in
  let r := ClaudeGateway.call_claude_model "hi" None w in
  fst r = Ret PNone
  /\ calls (snd r) = (calls w ++ [Discovery.models_request])%list
  /\ fs (snd r) = fs w
  /\ stdout (snd r) = (stdout (snd listed) ++ Chat.no_claude_lines (map PStr []))%list.
Proof.
  apply (no_claude_model_sends_no_chat "hi" Scenarios.failing []).
  - reflexivity.
  - intros id [].
Defined.

(** X4. The catalog lookup of [call_claude_model] is not guarded: when the
    listing carries an identifier that is no string (a number, [null], an
    object), the call without a model id raises [AttributeError] instead of
    returning [None], after the catalog request and before any chat
    request. *)
Theorem non_text_model_id_raises
        (prompt : string) (w : World) (r : response) (body : pyval)
        (entries vs : list pyval) :
  let c := ClaudeGateway.call_claude_model prompt None w in
  transport w (length (calls w)) Discovery.models_request = Responds r ->
  status_code r = 200%Z -> json_body r = Some body ->
  Py.get body "data" (PList []) = inr (PList entries) ->
  Forall2 (fun entry v => Py.getitem entry "id" = inr v) entries vs ->
  Exists (fun v => forall s, v <> PStr s) vs ->
  exists e, fst c = Raise e /\ exn_cls e = AttributeError
            /\ calls (snd c) = (calls w ++ [Discovery.models_request])%list.
Proof.
  intros c Ht Hs Hj Hd Hl Hex.
  destruct (claude_models_raises vs (log_call Discovery.models_request w) Hex)
    as (e & E & He).
  assert (Ec : c = (Raise e, log_call Discovery.models_request w)).
  { subst c. unfold ClaudeGateway.call_claude_model.
    apply bind_raise_eq. unfold ClaudeGateway.choose_model.
    rewrite (bind_ret_eq _ _ w _ _
               (get_available_models_values w r body entries vs Ht Hs Hj Hd Hl)).
    now apply bind_raise_eq. }
  rewrite Ec. exists e. split; [reflexivity|]. split; [exact He | reflexivity].
Qed.

Lemma non_text_model_id_raises_witness :
  let w := with_transport
             (fun _ _ => Responds (Response 200 ""
                (Some (PDict [("data", PList [PDict [("id", PStr "claude-3")];
                                              PDict [("id", PInt 7)]])]))))
             Scenarios.failing in
  let c := ClaudeGateway.call_claude_model "hi" None w in
  exists e, fst c = Raise e /\ exn_cls e = AttributeError
            /\ calls (snd c) = (calls w ++ [Discovery.models_request])%list.
Proof.
  apply (non_text_model_id_raises "hi" _
           (Response 200 ""
              (Some (PDict [("data", PList [PDict [("id", PStr "claude-3")];
                                            PDict [("id", PInt 7)]])])))
           (PDict [("data", PList [PDict [("id", PStr "claude-3")];
                                   PDict [("id", PInt 7)]])])
           [PDict [("id", PStr "claude-3")]; PDict [("id", PInt 7)]]
           [PStr "claude-3"; PInt 7]); try reflexivity.
  - repeat constructor.
  - apply Exists_cons_tl, Exists_cons_hd. intros s. discriminate.
Defined.

(** ** The report of [main] in [stable_diffusion_image_generator.py] *)
Section ScriptReport.
Import StableDiffusionScript ScriptMain.

Lemma print_image_models_quiet models : forall w r w',
  print_image_models models w = (r, w') -> progress [] 0 w w' /\ fs w' = fs w.
Proof.
  induction models as [|model rest IH]; intros w r w' E; simpl in E.
  - injection E as _ <-. split; [frame | reflexivity].
  - unfold bind at 1 in E. unfold lift in E.
    destruct (Py.getitem model "id") as [e|id]; simpl in E;
      [injection E as _ <-; split; [frame | reflexivity]|].
    unfold bind at 1 in E.
    destruct (Py.lower id) as [e|low]; simpl in E;
      [injection E as _ <-; split; [frame | reflexivity]|].
    destruct (is_image_id low).
    + unfold bind at 1 in E. unfold bind at 1 in E. unfold printf, ret in E. simpl in E.
      destruct (IH _ _ _ E) as [P F]. split; [|now rewrite F].
      apply (progress_quiet_l _ _ w (put_line [Lit "  - "; Val id] w)); [frame | exact P].
    + unfold bind at 1 in E. unfold ret in E. exact (IH _ _ _ E).
Qed.

Lemma print_image_models_listed entries ids : forall w,
  Discovery.lists "id" entries ids ->
  print_image_models entries w
  = (Ret tt, mkWorld (transport w) (calls w) (clock w) (clock_reads w) (disk w) (fs w)
               (stdout w ++ map (fun id => [Lit "  - "; Val (PStr id)]) (reported ids))
               (sdk_clients w)).
Proof.
  intros w H. revert w.
  induction H as [|entry id entries ids He _ IH]; intros w; simpl.
  - rewrite app_nil_r. now destruct w.
  - unfold bind at 1. unfold lift. rewrite He. simpl.
    unfold bind at 1. unfold ret.
    unfold reported. simpl. fold (reported ids).
    destruct (is_image_id (PyStr.lower id)); simpl.
    + unfold bind at 1. unfold bind at 1. unfold lift, ret, printf.
      rewrite IH. simpl. now rewrite <- app_assoc.
    + unfold bind at 1. apply IH.
Qed.

(** the listing of the report never raises; it sends its one request and
    leaves the files alone *)
Lemma show_available_models_ok w :
  exists w', show_available_models w = (Ret tt, w')
             /\ progress [models_request] 0 w w' /\ fs w' = fs w.
Proof.
  unfold show_available_models. fold models_request.
  unfold try_except, send.
  unfold bind at 1.
  destruct (transport w (length (calls w)) models_request) as [[code txt body]|e]; simpl;
    [|eexists; split; [reflexivity|]; split; [frame | reflexivity]].
  destruct (code =? 200)%Z; simpl;
    [|eexists; split; [reflexivity|]; split; [frame | reflexivity]].
  unfold bind at 1. unfold parse_json. simpl.
  destruct body as [body|]; simpl;
    [|eexists; split; [reflexivity|]; split; [frame | reflexivity]].
  unfold bind at 1. unfold lift.
  destruct (Py.get body "data" (PList [])) as [e|data]; simpl;
    [eexists; split; [reflexivity|]; split; [frame | reflexivity]|].
  unfold bind at 1.
  destruct (Py.iter data) as [e|items]; simpl;
    [eexists; split; [reflexivity|]; split; [frame | reflexivity]|].
  destruct (print_image_models items (log_call models_request w)) as [r1 w1] eqn:E.
  destruct (print_image_models_quiet items _ _ _ E) as [P F].
  destruct r1 as [[]|e];
    simpl in *; eexists; (split; [reflexivity|]); (split; [|exact F]);
    apply (progress_quiet_r _ _ w (log_call models_request w)); try exact P; frame.
Qed.

Lemma bind_print {B} line (k : unit -> M B) w :
  bind (print line) k w = k tt (put_line [Lit line] w).
Proof. reflexivity. Qed.

Lemma bind_printf {B} line (k : unit -> M B) w :
  bind (printf line) k w = k tt (put_line line w).
Proof. reflexivity. Qed.

(** [main] up to its loop: three lines are printed, then the models are tried *)
Lemma main_from_loop model_ids argv w :
  exists w0 k,
    w0 = started argv w
    /\ main_from model_ids argv w = bind (try_models (prompt_of argv) model_ids) k w0
    /\ progress [] 0 w w0 /\ fs w0 = fs w
    /\ (forall w1, exists w2, k false w1 = (Ret false, w2)
                              /\ progress [models_request] 0 w1 w2 /\ fs w2 = fs w1)
    /\ (forall w1, exists w2, k true w1 = (Ret true, w2)
                              /\ progress [] 0 w1 w2 /\ fs w2 = fs w1).
Proof.
  unfold main_from. fold (prompt_of argv).
  rewrite !bind_print.
  eexists. eexists. split; [reflexivity|].
  split; [reflexivity|]. split; [frame|]. split; [reflexivity|].
  split; intros w1; simpl negb; cbv iota.
  - unfold bind at 1. rewrite !bind_print.
    match goal with |- context [show_available_models ?w'] => set (w2 := w') end.
    destruct (show_available_models_ok w2) as (w3 & E3 & P3 & F3).
    exists w3. rewrite E3. unfold ret.
    split; [reflexivity|]. split; [|rewrite F3; reflexivity].
    apply (progress_quiet_l _ _ w1 w2); [subst w2; frame | exact P3].
  - unfold bind at 1. rewrite bind_print. unfold bind, print, printf, ret.
    eexists. split; [reflexivity|]. split; [frame | reflexivity].
Qed.

End ScriptReport.

(** X5. When every round of the loop fails, that is, ends with [success]
    false and without raising, [main] of
    [stable_diffusion_image_generator.py] ends without raising and with
    [success] false: it has sent, for each model in order, the gateway
    request and then the direct request, and after them one request for the
    gateway's model listing, whose failure it ignores.  No save went through:
    each file is what it was, or holds what a write that failed had put into
    it. *)
Theorem main_lists_models_after_total_failure
        (model_ids argv : list string) (w : World) :
  let prompt := ScriptMain.prompt_of argv in
  let r := StableDiffusionScript.main_from model_ids argv w in
  ScriptRuns.fruitless prompt model_ids (length model_ids) (ScriptMain.started argv w) ->
  fst r = Ret false
  /\ calls (snd r)
     = (calls w ++ flat_map (ScriptRequests.requests_of prompt) model_ids
          ++ [ScriptMain.models_request])%list
  /\ spoiled w (snd r).
Proof.
  intros prompt r Hall.
  destruct (main_from_loop model_ids argv w) as (w0 & k & -> & E & P0 & F0 & Kf & _).
  fold prompt in E.
  destruct (fruitless_run_script prompt model_ids _ Hall) as [Et [D1 S1]].
  pose proof (try_models_stops_script prompt model_ids (ScriptMain.started argv w)) as Hs.
  unfold ScriptRuns.stops_at_first_success in Hs. rewrite Et in Hs. simpl in Hs.
  destruct Hs as (_ & _ & C1).
  set (w1 := ScriptRuns.rounds prompt model_ids (ScriptMain.started argv w)) in *.
  destruct (Kf w1) as (w2 & E2 & P2 & F2).
  assert (Er : r = (Ret false, w2)).
  { subst r. rewrite E. now rewrite (bind_ret_eq _ _ _ _ _ Et). }
  rewrite Er. simpl.
  split; [reflexivity|]. split.
  - destruct P2 as (_ & _ & _ & _ & C2). rewrite C2, C1.
    destruct P0 as (_ & _ & _ & _ & C0). rewrite ?C0, ?app_nil_r.
    now rewrite <- app_assoc.
  - intros p. rewrite F2. destruct (S1 p) as [H|(e & n & data & Hd & Hf)].
    + left. now rewrite H, F0.
    + right. exists e, n, data. split; [|exact Hf].
      destruct P0 as (_ & _ & D0 & _). now rewrite <- D0.
Qed.

Lemma main_lists_models_after_total_failure_witness :
  let w := Scenarios.failing in
  let r := StableDiffusionScript.main_from ["p1"; "p2"] ["prog"; "a"; "cat"] w in
  fst r = Ret false
  /\ calls (snd r)
     = (calls w ++ flat_map (ScriptRequests.requests_of "a cat") ["p1"; "p2"]
          ++ [ScriptMain.models_request])%list
  /\ spoiled w (snd r).
Proof.
  apply (main_lists_models_after_total_failure ["p1"; "p2"] ["prog"; "a"; "cat"]
           Scenarios.failing).
  intros [|[|j]] m Hj Hm; simpl in Hj; try lia;
    injection Hm as <-; vm_compute; reflexivity.
Defined.

Section ScriptGatewaySuccess.
Import StableDiffusionScript ScriptMain.

(** the first entry of [data] carries a blob that can be saved: the loop
    over [data] ends there *)
Lemma save_data_first_saved model_id di b64 data others w :
  let filename := image_filename (strftime (clock w (clock_reads w))) 0 in
  Py.lookup "b64_json" di = Some b64 ->
  decode_payload b64 = inr data -> disk w filename = DiskOk ->
  exists w', save_data model_id 0 (PDict di :: others) w = (Ret true, w')
             /\ progress [] 1 w w' /\ fs w' = <[filename := data]> (fs w).
Proof.
  intros filename Hb Hd Hk. simpl.
  unfold bind at 1. unfold now. fold filename.
  unfold bind at 1. unfold lift. simpl. rewrite Hb. simpl.
  unfold bind at 1. simpl. unfold bind at 1.
  rewrite script_save_persist. unfold persist. rewrite Hd. simpl. rewrite Hk.
  rewrite bind_print. unfold ret.
  eexists. split; [reflexivity|]. split; [frame | reflexivity].
Qed.

End ScriptGatewaySuccess.

(** X6. When the gateway answers the first model with status 200 and a
    [data] list whose first entry carries a [b64_json] blob that decodes and
    can be written, [main] saves the decoded bytes as
    [generated_image_{timestamp}_0.png], the time stamp being the one clock
    reading of the run, and ends with [success] true after that single
    gateway request: the direct Bedrock adapter, the later models and the
    model listing are not called. *)
Theorem gateway_image_ends_main
        (model_id : string) (rest argv : list string) (w : World) (resp : response)
        (d di : list (string * pyval)) (others : list pyval) (b64 : pyval)
        (data : list byte) :
  let prompt := ScriptMain.prompt_of argv in
  let rq := StableDiffusionScript.gateway_request prompt model_id 1024 1024 in
  let filename :=
    StableDiffusionScript.image_filename (strftime (clock w (clock_reads w))) 0 in
  let r := StableDiffusionScript.main_from (model_id :: rest) argv w in
  transport w (length (calls w)) rq = Responds resp ->
  status_code resp = 200%Z -> json_body resp = Some (PDict d) ->
  Py.lookup "data" d = Some (PList (PDict di :: others)) ->
  Py.lookup "b64_json" di = Some b64 ->
  decode_payload b64 = inr data -> disk w filename = DiskOk ->
  fst r = Ret true
  /\ calls (snd r) = (calls w ++ [rq])%list
  /\ fs (snd r) = <[filename := data]> (fs w)
  /\ clock_reads (snd r) = S (clock_reads w).
Proof.
  intros prompt rq filename r Ht Hs Hj Hdata Hb Hd Hk.
  destruct (main_from_loop (model_id :: rest) argv w)
    as (w0 & k & _ & E & P0 & F0 & _ & Kt).
  fold prompt in E.
  destruct P0 as (T0 & K0 & D0 & R0 & C0). rewrite app_nil_r in C0.
  rewrite Nat.add_0_r in R0.
  set (wa := put_line [Lit (nl ++ "--- Trying model: " ++ model_id ++ " ---")] w0).
  destruct (gateway_value prompt model_id wa) as (Hv & Pg & Fg).
  destruct (StableDiffusionScript.generate_image_via_gateway prompt model_id 1024 1024 wa)
    as [v w1] eqn:Eg.
  simpl in Hv, Pg, Fg. fold rq in Hv, Pg.
  rewrite T0, C0, Ht in Hv. simpl in Hv. rewrite Hs, Hj in Hv. simpl in Hv. subst v.
  destruct Pg as (T1 & K1 & D1 & R1 & C1). simpl in T1, K1, D1, R1, C1.
  rewrite Nat.add_0_r in R1.
  assert (Hf1 : StableDiffusionScript.image_filename (strftime (clock w1 (clock_reads w1))) 0
                = filename).
  { unfold filename. now rewrite K1, R1, K0, R0. }
  destruct (save_data_first_saved model_id di b64 data others w1 Hb Hd) as (w2 & E2 & P2 & F2).
  { rewrite Hf1, D1, D0. exact Hk. }
  rewrite Hf1 in F2.
  assert (Ea : StableDiffusionScript.attempt prompt model_id w0 = (Ret true, w2)).
  { unfold StableDiffusionScript.attempt. rewrite bind_print. fold wa.
    rewrite (bind_ret_eq _ _ _ _ _ Eg).
    assert (Eu : StableDiffusionScript.save_under "data"
                   (StableDiffusionScript.save_data model_id) (PDict d) w1 = (Ret true, w2)).
    { unfold StableDiffusionScript.save_under.
      assert (Htr : Py.truthy (PDict d) = true) by (destruct d; [discriminate | reflexivity]).
      rewrite Htr. unfold bind at 1. unfold lift. simpl. rewrite Hdata. simpl.
      unfold bind at 1. simpl. unfold bind at 1. simpl. exact E2. }
    now rewrite (bind_ret_eq _ _ _ _ _ Eu). }
  destruct (Kt w2) as (w3 & E3 & P3 & F3).
  assert (Er : r = (Ret true, w3)).
  { subst r. rewrite E. simpl.
    rewrite (bind_ret_eq _ _ _ _ _ (bind_ret_eq _ _ _ _ _ Ea)). exact E3. }
  rewrite Er. simpl.
  destruct P2 as (_ & _ & _ & R2 & C2). destruct P3 as (_ & _ & _ & R3 & C3).
  rewrite app_nil_r in C2, C3. rewrite Nat.add_0_r in R3.
  split; [reflexivity|]. split; [now rewrite C3, C2, C1, C0|].
  split; [now rewrite F3, F2, Fg, F0|].
  rewrite R3, R2, R1, R0. lia.
Qed.

Lemma gateway_image_ends_main_witness :
  let w := Scenarios.answering Scenarios.hi_data in
  let rq := StableDiffusionScript.gateway_request "a cat" "p1" 1024 1024 in
  let filename := StableDiffusionScript.image_filename (strftime (clock w (clock_reads w))) 0 in
  let r := StableDiffusionScript.main_from ["p1"; "p2"] ["prog"; "a"; "cat"] w in
  fst r = Ret true
  /\ calls (snd r) = (calls w ++ [rq])%list
  /\ fs (snd r) = <[filename := list_byte_of_string "hi"]> (fs w)
  /\ clock_reads (snd r) = S (clock_reads w).
Proof.
  apply (gateway_image_ends_main "p1" ["p2"] ["prog"; "a"; "cat"]
           (Scenarios.answering Scenarios.hi_data)
           (Response 200 "" (Some Scenarios.hi_data))
           [("data", PList [PDict [("b64_json", PStr "aGk=")]])]
           [("b64_json", PStr "aGk=")] [] (PStr "aGk=")
           (list_byte_of_string "hi")); reflexivity.
Defined.

(** ** Answers the orchestrators do not expect *)
Section UnreadableResults.
Import SetupStableDiffusion.
Variable self : StableDiffusionImageGenerator.
Variables model_id timestamp : string.


(** a result with an [artifacts] entry is handled from that entry *)
Lemma save_result_artifacts result (v : pyval) w :
  Py.truthy result = true -> Py.contains "artifacts" result = inr true ->
  Py.getitem result "artifacts" = inr v ->
  save_result self model_id timestamp result w
  = bind (lift (Py.iter v)) (fun items => save_artifacts self model_id timestamp 0 items) w.
Proof.
  intros Ht Hc Hg. unfold save_result. rewrite Ht.
  unfold bind at 1. unfold lift at 1. rewrite Hc. simpl.
  unfold bind at 1. unfold lift at 1. rewrite Hg. reflexivity.
Qed.

(** without one, a result with an [images] entry is handled from that entry *)
Lemma save_result_images result (v : pyval) w :
  Py.truthy result = true -> Py.contains "artifacts" result = inr false ->
  Py.contains "images" result = inr true -> Py.getitem result "images" = inr v ->
  save_result self model_id timestamp result w
  = bind (lift (Py.iter v)) (fun items => save_images self model_id timestamp 0 items) w.
Proof.
  intros Ht Hc Hi Hg. unfold save_result. rewrite Ht.
  unfold bind at 1. unfold lift at 1. rewrite Hc. simpl.
  unfold bind at 1. unfold lift at 1. rewrite Hi. simpl.
  unfold bind at 1. unfold lift at 1. rewrite Hg. reflexivity.
Qed.

Lemma save_result_key d key (v : pyval) w :
  (key = "artifacts" \/ (key = "images" /\ Py.lookup "artifacts" d = None)) ->
  Py.lookup key d = Some v ->
  save_result self model_id timestamp (PDict d) w
  = save_result self model_id timestamp (PDict [(key, v)]) w.
Proof.
  intros Hkey Hv.
  assert (Ht : Py.truthy (PDict d) = true) by (destruct d; [discriminate | reflexivity]).
  destruct Hkey as [->|[-> Hno]].
  - rewrite (save_result_artifacts (PDict d) v), (save_result_artifacts (PDict [_]) v);
      try reflexivity; try exact Ht; unfold Py.contains, Py.getitem; now rewrite Hv.
  - rewrite (save_result_images (PDict d) v), (save_result_images (PDict [_]) v);
      try reflexivity; try exact Ht; unfold Py.contains, Py.getitem;
      rewrite ?Hno, ?Hv; reflexivity.
Qed.

End UnreadableResults.



(** X8. When a result carries the key [artifacts], [generate_image] handles
    it from that entry alone: an [images] list beside it is never looked at,
    whatever it holds.  [images] is handled only when there is no
    [artifacts] key, and then nothing else of the result matters. *)
Theorem artifacts_entry_hides_images
        (self : SetupStableDiffusion.StableDiffusionImageGenerator)
        (model_id timestamp : string) (d : list (string * pyval))
        (v : pyval) (w : World) :
  (Py.lookup "artifacts" d = Some v ->
   SetupStableDiffusion.save_result self model_id timestamp (PDict d) w
   = SetupStableDiffusion.save_result self model_id timestamp (PDict [("artifacts", v)]) w)
  /\ (Py.lookup "artifacts" d = None -> Py.lookup "images" d = Some v ->
      SetupStableDiffusion.save_result self model_id timestamp (PDict d) w
      = SetupStableDiffusion.save_result self model_id timestamp (PDict [("images", v)]) w)
  /\ (Py.lookup "artifacts" d = Some (PList []) ->
      SetupStableDiffusion.save_result self model_id timestamp (PDict d) w = (Ret None, w)).
Proof.
  split; [|split].
  - intros Hv. apply save_result_key; [now left | exact Hv].
  - intros Hno Hv. apply save_result_key; [now right | exact Hv].
  - intros Hv. rewrite (save_result_key self model_id timestamp d "artifacts" (PList []) w);
      [reflexivity | now left | exact Hv].
Qed.

Lemma artifacts_entry_hides_images_witness :
  let w := Scenarios.failing in
  let d := [("images", PList [PStr "aGk="]); ("artifacts", PList [])] in
  let d' := [("seed", PInt 7); ("images", PList [PStr "aGk="])] in
  SetupStableDiffusion.save_result Scenarios.self "p1" "t" (PDict d) w = (Ret None, w)
  /\ SetupStableDiffusion.save_result Scenarios.self "p1" "t" (PDict d') w
     = SetupStableDiffusion.save_result Scenarios.self "p1" "t"
         (PDict [("images", PList [PStr "aGk="])]) w.
Proof.
  cbv zeta. split.
  - apply (artifacts_entry_hides_images Scenarios.self "p1" "t"
             [("images", PList [PStr "aGk="]); ("artifacts", PList [])]
             (PList []) Scenarios.failing).
    reflexivity.
  - apply (artifacts_entry_hides_images Scenarios.self "p1" "t"
             [("seed", PInt 7); ("images", PList [PStr "aGk="])]
             (PList [PStr "aGk="]) Scenarios.failing); reflexivity.
Defined.

(** ** Saving a payload *)

(** X9. [save_image_from_base64] never raises, in either script.  It returns
    [True] exactly when the payload decodes and the file can be written, and
    the file then holds the decoded bytes; when it returns [False] the files
    are as they were, except that a write that failed after the file was
    opened leaves in that file the bytes that had been written, a beginning
    of the decoded payload.  Nothing is sent and the clock is not read. *)
Theorem save_reports_success_exactly
        (self : SetupStableDiffusion.StableDiffusionImageGenerator)
        (v : pyval) (filename : string) (w : World) :
  let r := SetupStableDiffusion.save_image_from_base64 self v filename w in
  let r' := StableDiffusionScript.save_image_from_base64 v filename w in
  (exists saved, fst r = Ret saved /\ fst r' = Ret saved)
  /\ (fst r = Ret true <-> saveable w filename v)
  /\ (forall data, decode_payload v = inr data -> disk w filename = DiskOk ->
        fs (snd r) = <[filename := data]> (fs w))
  /\ (fst r = Ret false ->
        fs (snd r) = fs w
        \/ (exists e written data,
              decode_payload v = inr data /\ disk w filename = WriteFails e written
              /\ fs (snd r) = <[filename := take written data]> (fs w)))
  /\ fs (snd r') = fs (snd r)
  /\ progress [] 0 w (snd r) /\ progress [] 0 w (snd r').
Proof.
  intros r r'. subst r r'. rewrite setup_save_persist, script_save_persist.
  split; [|split; [|split; [|split; [|split; [|split]]]]].
  - unfold persist. destruct (decode_payload v); simpl; eauto.
    destruct (disk w filename); simpl; eauto.
  - split.
    + intros H. destruct (persist_true _ _ _ _ H) as (data & Hd & Hk & _).
      split; [now exists data | exact Hk].
    + intros [[data Hd] Hk]. unfold persist. now rewrite Hd, Hk.
  - intros data Hd Hk. unfold persist. now rewrite Hd, Hk.
  - unfold persist. destruct (decode_payload v) as [e|data]; simpl; [now left|].
    destruct (disk w filename) as [|e|e written]; simpl; [discriminate | now left|].
    intros _. right. now exists e, written, data.
  - unfold persist. destruct (decode_payload v); simpl; [reflexivity|].
    destruct (disk w filename); reflexivity.
  - apply persist_progress.
  - apply persist_progress.
Qed.

Section DataUrls.

Lemma startswith_app (h t p : string) :
  PyStr.startswith h p = true -> PyStr.startswith (h ++ t) p = true.
Proof.
  unfold PyStr.startswith. intros H. apply prefix_app in H as [u ->].
  rewrite append_assoc. apply prefix_of_app.
Qed.

Lemma decode_data_url (h b t : string) :
  PyStr.startswith h "data:image" = true -> comma_free h = true ->
  nth_error (PyStr.split "," t) 0 = Some b ->
  decode_payload (PStr (h ++ String "," t)) = Base64.b64decode (PStr b).
Proof.
  intros Hs Hh Hb. unfold decode_payload, and_then, Py.startswith, Py.split_item.
  rewrite (startswith_app h (String "," t) _ Hs).
  rewrite split_cons_field by exact Hh.
  change (nth_error (h :: PyStr.split "," t) 1) with (nth_error (PyStr.split "," t) 0).
  rewrite Hb. reflexivity.
Qed.

End DataUrls.

(** X10. A payload that begins with [data:image] is cut at its commas,
    whatever the media type of the header: the text between the first and
    the second comma is what is decoded and written, and anything after a
    second comma is dropped without notice.  When that text decodes and the
    file can be written, the save returns [True] and the file holds exactly
    the bytes [base64.b64decode] gives for it; when it does not decode the
    save returns [False] and no file is touched.  A header with no comma at
    all is not saved: the save returns [False] with an index error printed,
    and no file is touched. *)
Theorem data_url_is_cut_at_commas
        (self : SetupStableDiffusion.StableDiffusionImageGenerator)
        (h b rest filename : string) (w : World) :
  let once := PStr (h ++ "," ++ b) in
  let twice := PStr (h ++ "," ++ b ++ "," ++ rest) in
  let r := SetupStableDiffusion.save_image_from_base64 self once filename w in
  let s := StableDiffusionScript.save_image_from_base64 once filename w in
  PyStr.startswith h "data:image" = true ->
  comma_free h = true -> comma_free b = true ->
  (forall data, Base64.b64decode (PStr b) = inr data -> disk w filename = DiskOk ->
     fst r = Ret true /\ fs (snd r) = <[filename := data]> (fs w)
     /\ fst s = Ret true /\ fs (snd s) = <[filename := data]> (fs w))
  /\ (forall e, Base64.b64decode (PStr b) = inl e ->
        fst r = Ret false /\ fs (snd r) = fs w /\ fst s = Ret false /\ fs (snd s) = fs w)
  /\ SetupStableDiffusion.save_image_from_base64 self twice filename w = r
  /\ StableDiffusionScript.save_image_from_base64 twice filename w = s
  /\ SetupStableDiffusion.save_image_from_base64 self (PStr h) filename w
     = (Ret false, put_line [Lit "Error saving image: list index out of range"] w)
  /\ StableDiffusionScript.save_image_from_base64 (PStr h) filename w
     = (Ret false, put_line [Lit "Error saving image: list index out of range"] w).
Proof.
  intros once twice r s Hs Hh Hb.
  assert (Hnone : decode_payload (PStr h) = inl (Exc IndexError "list index out of range")).
  { unfold decode_payload, and_then, Py.startswith, Py.split_item.
    rewrite Hs. now rewrite (split_no_sep _ _ Hh). }
  assert (H1 : decode_payload once = Base64.b64decode (PStr b)).
  { apply decode_data_url; try assumption. now rewrite (split_no_sep _ _ Hb). }
  assert (H2 : decode_payload twice = Base64.b64decode (PStr b)).
  { apply decode_data_url; try assumption.
    change (b ++ "," ++ rest) with (b ++ String "," rest).
    now rewrite (split_cons_field _ _ _ Hb). }
  subst r s. rewrite !setup_save_persist, !script_save_persist.
  split; [|split; [|split; [|split; [|split]]]].
  - intros data Hd Hk. rewrite <- H1 in Hd.
    rewrite !(persist_decoded _ once _ _ data Hd), Hk. simpl. auto.
  - intros e He. rewrite <- H1 in He.
    rewrite !(persist_undecoded _ once _ _ e He). simpl. auto.
  - unfold persist. now rewrite H1, H2.
  - unfold persist. now rewrite H1, H2.
  - unfold persist. now rewrite Hnone.
  - unfold persist. now rewrite Hnone.
Qed.

Lemma data_url_is_cut_at_commas_witness :
  let w := Scenarios.answering Scenarios.hello in
  let once := PStr ("data:image/jpeg;base64" ++ "," ++ "aGk=") in
  let twice := PStr ("data:image/jpeg;base64" ++ "," ++ "aGk=" ++ "," ++ "aGVsbG8=") in
  let r := SetupStableDiffusion.save_image_from_base64 Scenarios.self once "out.png" w in
  let s := StableDiffusionScript.save_image_from_base64 once "out.png" w in
  (fst r = Ret true /\ fs (snd r) = <["out.png" := list_byte_of_string "hi"]> (fs w)
   /\ fst s = Ret true /\ fs (snd s) = <["out.png" := list_byte_of_string "hi"]> (fs w))
  /\ SetupStableDiffusion.save_image_from_base64 Scenarios.self twice "out.png" w = r
  /\ StableDiffusionScript.save_image_from_base64 twice "out.png" w = s
  /\ SetupStableDiffusion.save_image_from_base64 Scenarios.self
       (PStr "data:image/jpeg;base64") "out.png" w
     = (Ret false, put_line [Lit "Error saving image: list index out of range"] w)
  /\ StableDiffusionScript.save_image_from_base64 (PStr "data:image/jpeg;base64") "out.png" w
     = (Ret false, put_line [Lit "Error saving image: list index out of range"] w).
Proof.
  cbv zeta.
  destruct (data_url_is_cut_at_commas Scenarios.self "data:image/jpeg;base64" "aGk="
              "aGVsbG8=" "out.png" (Scenarios.answering Scenarios.hello)
              eq_refl eq_refl eq_refl) as (H & _ & T).
  split; [exact (H (list_byte_of_string "hi") eq_refl eq_refl) | exact T].
Defined.

(** ** Listings with a malformed entry *)
Section MalformedListings.
Import Discovery.



End MalformedListings.



(** ** File names read back *)
Section NameParsing.

Lemma lacks_app c (s t : string) : lacks c (s ++ t) = lacks c s && lacks c t.
Proof. unfold lacks. now rewrite to_list_app, forallb_app. Qed.

Lemma digits_lack c (l : list ascii) :
  is_digit c = false -> forallb is_digit l = true ->
  forallb (fun a => negb (Ascii.eqb a c)) l = true.
Proof.
  intros Hc H. induction l as [|a l IH]; [reflexivity|].
  simpl in *. apply andb_prop in H as [Ha Hl]. rewrite (IH Hl), andb_true_r.
  destruct (Ascii.eqb_spec a c) as [->|]; [congruence | reflexivity].
Qed.

Lemma replace_lacks (a b : ascii) (s : string) :
  a <> b -> lacks a (PyStr.replace a b s) = true.
Proof.
  intros Hab. unfold lacks. induction s as [|c s IH]; [reflexivity|].
  simpl. rewrite IH, andb_true_r.
  destruct (Ascii.eqb_spec c a) as [->|Hc].
  - destruct (Ascii.eqb_spec b a); [congruence | reflexivity].
  - destruct (Ascii.eqb_spec c a); [congruence | reflexivity].
Qed.

Lemma replace_keeps_lacks (a b c : ascii) (s : string) :
  c <> b -> lacks c s = true -> lacks c (PyStr.replace a b s) = true.
Proof.
  intros Hcb. unfold lacks. induction s as [|x s IH]; [reflexivity|].
  simpl. intros H. apply andb_prop in H as [Hx Hs]. rewrite (IH Hs), andb_true_r.
  destruct (Ascii.eqb x a); [|exact Hx].
  destruct (Ascii.eqb_spec b c); [congruence | reflexivity].
Qed.

Lemma digits_lacks c k (s : string) :
  is_digit c = false -> digits k s = true -> lacks c s = true.
Proof.
  unfold digits, lacks. intros Hc H. apply andb_prop in H as [_ H].
  now apply digits_lack.
Qed.

Lemma of_nat_lacks c i : is_digit c = false -> lacks c (PyStr.of_nat i) = true.
Proof. intros Hc. apply digits_lack; [exact Hc | apply of_nat_digits]. Qed.

(** splitting distributes over a separator *)
Lemma split_app_sep (c : ascii) (a b : string) :
  PyStr.split c (a ++ String c b) = (PyStr.split c a ++ PyStr.split c b)%list.
Proof.
  induction a as [|x a IH].
  - simpl. now rewrite Ascii.eqb_refl.
  - change (String x a ++ String c b) with (String x (a ++ String c b)).
    simpl. rewrite IH. destruct (Ascii.eqb x c); [reflexivity|].
    destruct (PyStr.split c a) as [|h t] eqn:E; [|reflexivity].
    destruct a; simpl in E; [discriminate|].
    destruct (Ascii.eqb a c); [discriminate|].
    destruct (PyStr.split c a0); discriminate.
Qed.

Lemma split_lacks (c : ascii) (s : string) : lacks c s = true -> PyStr.split c s = [s].
Proof. apply split_no_sep. Qed.

(** the third and the second entry from the end *)
Lemma nth_from_end (pre : list string) (a b c d : string) :
  let l := (pre ++ [a; b; c])%list in
  (3 <=? length l)%nat = true
  /\ nth (length l - 3) l d = a /\ nth (length l - 2) l d = b.
Proof.
  intros l. subst l. rewrite length_app. simpl length.
  replace (length pre + 3 - 3) with (length pre) by lia.
  replace (length pre + 3 - 2) with (length pre + 1) by lia.
  split; [apply Nat.leb_le; lia|].
  rewrite !app_nth2 by lia.
  replace (length pre - length pre) with 0 by lia.
  replace (length pre + 1 - length pre) with 1 by lia.
  split; reflexivity.
Qed.

(** a keyword whose first character the text lacks does not occur in it *)
Lemma contains_lacks (f : ascii) (sub s : string) :
  lacks f s = true -> PyStr.contains (String f sub) s = false.
Proof.
  unfold lacks. induction s as [|a s IH]; intros H.
  - reflexivity.
  - simpl in H. apply andb_prop in H as [Ha Hs].
    change (String.prefix (String f sub) (String a s) || PyStr.contains (String f sub) s
            = false).
    rewrite (IH Hs), orb_false_r. simpl.
    destruct (ascii_dec f a) as [->|]; [|reflexivity].
    now rewrite Ascii.eqb_refl in Ha.
Qed.

(** a keyword cannot end inside text that begins with a character it lacks *)
Lemma prefix_before (c : ascii) (sub x t : string) :
  lacks c sub = true ->
  String.prefix sub (x ++ String c t) = String.prefix sub x.
Proof.
  unfold lacks. revert x. induction sub as [|p sub IH]; intros x H.
  - now destruct x.
  - simpl in H. apply andb_prop in H as [Hp Hsub].
    destruct x as [|a x].
    + simpl. destruct (ascii_dec p c) as [->|]; [|reflexivity].
      now rewrite Ascii.eqb_refl in Hp.
    + change (String a x ++ String c t) with (String a (x ++ String c t)).
      simpl. destruct (ascii_dec p a); [now apply IH | reflexivity].
Qed.

Lemma contains_before (c : ascii) (sub s t : string) :
  lacks c sub = true -> PyStr.contains sub (String c t) = false ->
  PyStr.contains sub (s ++ String c t) = PyStr.contains sub s.
Proof.
  intros Hc Ht. induction s as [|a s IH].
  - change ("" ++ String c t) with (String c t). rewrite Ht.
    simpl. rewrite orb_false_r.
    destruct sub as [|p sub]; [discriminate | reflexivity].
  - change (String a s ++ String c t) with (String a (s ++ String c t)).
    change (String.prefix sub (String a (s ++ String c t))
            || PyStr.contains sub (s ++ String c t)
            = String.prefix sub (String a s) || PyStr.contains sub s).
    rewrite IH. f_equal.
    exact (prefix_before c sub (String a s) t Hc).
Qed.

(** replacing characters a keyword lacks does not change where it occurs *)
Lemma prefix_replace (a b : ascii) (sub s : string) :
  lacks a sub = true -> lacks b sub = true ->
  String.prefix sub (PyStr.replace a b s) = String.prefix sub s.
Proof.
  unfold lacks. revert s. induction sub as [|p sub IH]; intros s Ha Hb.
  - now destruct s.
  - simpl in Ha, Hb. apply andb_prop in Ha as [Hpa Ha]. apply andb_prop in Hb as [Hpb Hb].
    destruct s as [|x s]; [reflexivity|]. simpl.
    destruct (Ascii.eqb_spec x a) as [->|Hx].
    + destruct (ascii_dec p b) as [->|]; [now rewrite Ascii.eqb_refl in Hpb|].
      destruct (ascii_dec p a) as [->|]; [now rewrite Ascii.eqb_refl in Hpa | reflexivity].
    + destruct (ascii_dec p x); [now apply IH | reflexivity].
Qed.

Lemma contains_replace (a b : ascii) (sub s : string) :
  lacks a sub = true -> lacks b sub = true ->
  PyStr.contains sub (PyStr.replace a b s) = PyStr.contains sub s.
Proof.
  intros Ha Hb. induction s as [|x s IH]; [reflexivity|].
  change (String.prefix sub (PyStr.replace a b (String x s))
          || PyStr.contains sub (PyStr.replace a b s)
          = String.prefix sub (String x s) || PyStr.contains sub s).
  now rewrite IH, prefix_replace.
Qed.

End NameParsing.

Section GeneratedNames.
Variables (date time : string) (i : nat).
Hypothesis Hdate : digits 8 date = true.
Hypothesis Htime : digits 6 time = true.

(** the end of a generated name: time stamp, position, extension *)
Lemma tail_lacks (f : ascii) :
  is_digit f = false -> lacks f "_.png" = true ->
  lacks f (date ++ String "_" (time ++ String "_" (PyStr.of_nat i ++ ".png"))) = true.
Proof.
  intros Hf Hp.
  change (String "_" (time ++ String "_" (PyStr.of_nat i ++ ".png")))
    with ("_" ++ (time ++ "_" ++ (PyStr.of_nat i ++ ".png"))).
  rewrite !lacks_app, (digits_lacks f 8 date Hf Hdate), (digits_lacks f 6 time Hf Htime),
    (of_nat_lacks f i Hf).
  revert Hp. unfold lacks. simpl. intros Hp.
  repeat (apply andb_prop in Hp as [? Hp]).
  repeat (apply andb_true_intro; split); assumption.
Qed.

Lemma index_png_one_part : PyStr.split "_" (PyStr.of_nat i ++ ".png") = [PyStr.of_nat i ++ ".png"].
Proof.
  apply split_lacks. rewrite lacks_app, (of_nat_lacks "_" i eq_refl). reflexivity.
Qed.

Lemma setup_name_parts model_id :
  PyStr.split "_" (SetupStableDiffusion.image_filename model_id (date ++ "_" ++ time) i)
  = (("generated" :: "image"
        :: PyStr.split "_" (PyStr.replace "." "_" (PyStr.replace ":" "_" model_id)))
       ++ [date; time; (PyStr.of_nat i ++ ".png")%string])%list.
Proof.
  unfold SetupStableDiffusion.image_filename.
  set (san := PyStr.replace "." "_" (PyStr.replace ":" "_" model_id)).
  rewrite (append_assoc date).
  change ("generated_image_" ++ san ++ "_" ++ date ++ ("_" ++ time) ++ "_"
            ++ PyStr.of_nat i ++ ".png")
    with ("generated" ++ String "_" ("image" ++ String "_" (san ++ String "_"
            (date ++ String "_" (time ++ String "_" (PyStr.of_nat i ++ ".png")))))).
  rewrite !split_app_sep, index_png_one_part.
  rewrite (split_lacks "_" date (digits_lacks "_" 8 date eq_refl Hdate)).
  rewrite (split_lacks "_" time (digits_lacks "_" 6 time eq_refl Htime)).
  change (PyStr.split "_" "generated") with ["generated"].
  change (PyStr.split "_" "image") with ["image"].
  reflexivity.
Qed.

Lemma script_name_parts :
  PyStr.split "_" (StableDiffusionScript.image_filename (date ++ "_" ++ time) i)
  = (["generated"; "image"] ++ [date; time; (PyStr.of_nat i ++ ".png")%string])%list.
Proof.
  unfold StableDiffusionScript.image_filename.
  rewrite (append_assoc date).
  change ("generated_image_" ++ date ++ ("_" ++ time) ++ "_" ++ PyStr.of_nat i ++ ".png")
    with ("generated" ++ String "_" ("image" ++ String "_"
            (date ++ String "_" (time ++ String "_" (PyStr.of_nat i ++ ".png"))))).
  rewrite !split_app_sep, index_png_one_part.
  rewrite (split_lacks "_" date (digits_lacks "_" 8 date eq_refl Hdate)).
  rewrite (split_lacks "_" time (digits_lacks "_" 6 time eq_refl Htime)).
  reflexivity.
Qed.

(** a keyword that cannot touch the fixed parts of a name occurs in the
    name exactly when it occurs in the model id *)
Lemma contains_in_setup_name (f : ascii) (sub' model_id : string) :
  let sub := String f sub' in
  (forall x, PyStr.contains sub ("generated_image_" ++ x) = PyStr.contains sub x) ->
  is_digit f = false -> lacks f "_.png" = true ->
  lacks "_" sub = true -> lacks ":" sub = true -> lacks "." sub = true ->
  PyStr.contains sub
    (SetupStableDiffusion.image_filename model_id (date ++ "_" ++ time) i)
  = PyStr.contains sub model_id.
Proof.
  intros sub Hpre Hf Hp Hu Hc Hd.
  unfold SetupStableDiffusion.image_filename.
  rewrite Hpre, (append_assoc date).
  change (PyStr.replace "." "_" (PyStr.replace ":" "_" model_id) ++ "_" ++ date
            ++ ("_" ++ time) ++ "_" ++ PyStr.of_nat i ++ ".png")
    with (PyStr.replace "." "_" (PyStr.replace ":" "_" model_id) ++ String "_"
            (date ++ String "_" (time ++ String "_" (PyStr.of_nat i ++ ".png")))).
  rewrite contains_before; [|exact Hu|].
  - now rewrite !contains_replace.
  - apply contains_lacks.
    change (String "_" (date ++ String "_" (time ++ String "_" (PyStr.of_nat i ++ ".png"))))
      with ("_" ++ (date ++ String "_" (time ++ String "_" (PyStr.of_nat i ++ ".png")))).
    rewrite lacks_app, (tail_lacks f Hf Hp), andb_true_r.
    revert Hp. unfold lacks. simpl. intros Hp. now apply andb_prop in Hp as [-> _].
Qed.

Lemma contains_in_script_name (f : ascii) (sub' : string) :
  let sub := String f sub' in
  (forall x, PyStr.contains sub ("generated_image_" ++ x) = PyStr.contains sub x) ->
  is_digit f = false -> lacks f "_.png" = true ->
  PyStr.contains sub (StableDiffusionScript.image_filename (date ++ "_" ++ time) i) = false.
Proof.
  intros sub Hpre Hf Hp.
  unfold StableDiffusionScript.image_filename.
  rewrite Hpre, (append_assoc date).
  apply contains_lacks. exact (tail_lacks f Hf Hp).
Qed.

End GeneratedNames.

Section ViewerNames.

Lemma drop_app_length (y t : string) : PyLib.drop (String.length y) (y ++ t) = t.
Proof. induction y as [|c y IH]; [now destruct t | exact IH]. Qed.

Lemma endswith_app (y t : string) : PyLib.endswith (y ++ t) t = true.
Proof.
  unfold PyLib.endswith. rewrite string_length_app.
  replace (String.length y + String.length t - String.length t) with (String.length y) by lia.
  rewrite drop_app_length. apply String.eqb_refl.
Qed.

Lemma pattern_matches_setup model_id ts i :
  ImageViewer.pattern_matches (SetupStableDiffusion.image_filename model_id ts i) = true.
Proof.
  unfold ImageViewer.pattern_matches, PyLib.fnmatch_star,
    SetupStableDiffusion.image_filename.
  rewrite prefix_of_app.
  change (String.length "generated_image_") with 16.
  change (PyLib.drop 16 ("generated_image_" ++ ?x)) with x.
  rewrite <- !append_assoc. apply endswith_app.
Qed.

Lemma pattern_matches_script ts i :
  ImageViewer.pattern_matches (StableDiffusionScript.image_filename ts i) = true.
Proof.
  unfold ImageViewer.pattern_matches, PyLib.fnmatch_star,
    StableDiffusionScript.image_filename.
  rewrite prefix_of_app.
  change (String.length "generated_image_") with 16.
  change (PyLib.drop 16 ("generated_image_" ++ ?x)) with x.
  rewrite <- !append_assoc. apply endswith_app.
Qed.

Lemma setup_name_in_cwd model_id (date time : string) i :
  lacks "/" model_id = true -> digits 8 date = true -> digits 6 time = true ->
  ImageViewer.in_cwd
    (SetupStableDiffusion.image_filename model_id (date ++ "_" ++ time) i) = true.
Proof.
  intros Hid Hd Ht.
  unfold ImageViewer.in_cwd, SetupStableDiffusion.image_filename.
  rewrite !lacks_app.
  rewrite (replace_keeps_lacks "." "_" "/" _ ltac:(discriminate)
             (replace_keeps_lacks ":" "_" "/" _ ltac:(discriminate) Hid)).
  rewrite (digits_lacks "/" 8 date eq_refl Hd), (digits_lacks "/" 6 time eq_refl Ht).
  rewrite (of_nat_lacks "/" i eq_refl).
  reflexivity.
Qed.

Lemma script_name_in_cwd (date time : string) i :
  digits 8 date = true -> digits 6 time = true ->
  ImageViewer.in_cwd (StableDiffusionScript.image_filename (date ++ "_" ++ time) i) = true.
Proof.
  intros Hd Ht.
  unfold ImageViewer.in_cwd, StableDiffusionScript.image_filename.
  rewrite !lacks_app.
  rewrite (digits_lacks "/" 8 date eq_refl Hd), (digits_lacks "/" 6 time eq_refl Ht).
  rewrite (of_nat_lacks "/" i eq_refl).
  reflexivity.
Qed.

End ViewerNames.

Lemma describe_setup_name (model_id date time : string) (i size_bytes : nat) :
  let f := SetupStableDiffusion.image_filename model_id (date ++ "_" ++ time) i in
  digits 8 date = true -> digits 6 time = true ->
  ImageViewer.describe f size_bytes
  = PDict [("filename", PStr f); ("size_mb", PyLib.round_mb size_bytes);
           ("model", PStr (ImageViewer.model_of model_id));
           ("timestamp", PStr (date ++ " " ++ time))].
Proof.
  intros f Hd Ht.
  unfold ImageViewer.describe. f_equal. f_equal. f_equal. f_equal; [|f_equal].
  - unfold ImageViewer.model_of at 1. subst f.
    rewrite (contains_in_setup_name date time i Hd Ht "t" "itan" model_id);
      try reflexivity.
    rewrite (contains_in_setup_name date time i Hd Ht "s" "table" model_id);
      try reflexivity.
  - unfold ImageViewer.timestamp_of. subst f.
    rewrite (setup_name_parts date time i Hd Ht model_id).
    destruct (nth_from_end
                ("generated" :: "image"
                   :: PyStr.split "_" (PyStr.replace "." "_" (PyStr.replace ":" "_" model_id)))
                date time (PyStr.of_nat i ++ ".png") EmptyString) as (H3 & Ha & Hb).
    rewrite H3, Ha, Hb. reflexivity.
Qed.

Lemma describe_script_name (date time : string) (i size_bytes : nat) :
  let g := StableDiffusionScript.image_filename (date ++ "_" ++ time) i in
  digits 8 date = true -> digits 6 time = true ->
  ImageViewer.describe g size_bytes
  = PDict [("filename", PStr g); ("size_mb", PyLib.round_mb size_bytes);
           ("model", PStr "Unknown"); ("timestamp", PStr (date ++ " " ++ time))].
Proof.
  intros g Hd Ht.
  unfold ImageViewer.describe. f_equal. f_equal. f_equal. f_equal; [|f_equal].
  - unfold ImageViewer.model_of. subst g.
    rewrite (contains_in_script_name date time i Hd Ht "t" "itan"); try reflexivity.
    rewrite (contains_in_script_name date time i Hd Ht "s" "table"); reflexivity.
  - unfold ImageViewer.timestamp_of. subst g.
    rewrite (script_name_parts date time i Hd Ht). reflexivity.
Qed.

(** X13. The viewer reads the names of both generators back.  For a file
    named by [generate_image] it shows the date and the time of the name's
    time stamp, and the model label depends on the model id alone ([titan]
    in the id, else [stable] in the id, else unknown); for a file named by
    [main] of the other script it shows the same date and time and no model.
    Both kinds of names match the viewer's pattern, and a name of the second
    kind has no slash in it. *)
Theorem viewer_reads_generated_names
        (model_id date time : string) (i size_bytes : nat) :
  let ts := date ++ "_" ++ time in
  let f := SetupStableDiffusion.image_filename model_id ts i in
  let g := StableDiffusionScript.image_filename ts i in
  digits 8 date = true -> digits 6 time = true ->
  ImageViewer.describe f size_bytes
  = PDict [("filename", PStr f); ("size_mb", PyLib.round_mb size_bytes);
           ("model", PStr (ImageViewer.model_of model_id));
           ("timestamp", PStr (date ++ " " ++ time))]
  /\ ImageViewer.describe g size_bytes
     = PDict [("filename", PStr g); ("size_mb", PyLib.round_mb size_bytes);
              ("model", PStr "Unknown"); ("timestamp", PStr (date ++ " " ++ time))]
  /\ ImageViewer.pattern_matches f = true /\ ImageViewer.pattern_matches g = true
  /\ ImageViewer.in_cwd g = true.
Proof.
  intros ts f g Hd Ht.
  split; [now apply describe_setup_name|].
  split; [now apply describe_script_name|].
  split; [apply pattern_matches_setup|].
  split; [apply pattern_matches_script | now apply script_name_in_cwd].
Qed.

Lemma viewer_reads_generated_names_witness :
  let ts := "20250102" ++ "_" ++ "030405" in
  let f := SetupStableDiffusion.image_filename "amazon.titan-image-generator-v1" ts 0 in
  let g := StableDiffusionScript.image_filename ts 0 in
  ImageViewer.describe f 5
  = PDict [("filename", PStr f); ("size_mb", PyLib.round_mb 5);
           ("model", PStr (ImageViewer.model_of "amazon.titan-image-generator-v1"));
           ("timestamp", PStr ("20250102" ++ " " ++ "030405"))]
  /\ ImageViewer.describe g 5
     = PDict [("filename", PStr g); ("size_mb", PyLib.round_mb 5);
              ("model", PStr "Unknown"); ("timestamp", PStr ("20250102" ++ " " ++ "030405"))]
  /\ ImageViewer.pattern_matches f = true /\ ImageViewer.pattern_matches g = true
  /\ ImageViewer.in_cwd g = true.
Proof.
  apply (viewer_reads_generated_names "amazon.titan-image-generator-v1"
           "20250102" "030405" 0 5); reflexivity.
Defined.

(** ** The viewer's index *)
Section Sorting.
Context {A : Type} (key : A -> string).

Lemma str_lt_asym (a b : string) : PyLib.str_lt a b = true -> PyLib.str_lt b a = false.
Proof.
  unfold PyLib.str_lt. rewrite (String.compare_antisym b a).
  destruct (String.compare a b); simpl; congruence.
Qed.

Lemma insert_reverse_perm (x : A) (l : list A) :
  Permutation (PyLib.insert_reverse key x l) (x :: l).
Proof.
  induction l as [|y l IH]; simpl; [reflexivity|].
  destruct (PyLib.str_lt (key x) (key y)); [|reflexivity].
  rewrite IH. apply perm_swap.
Qed.

Lemma sort_reverse_perm (l : list A) : Permutation (PyLib.sort_reverse key l) l.
Proof.
  induction l as [|x l IH]; simpl; [reflexivity|].
  unfold PyLib.sort_reverse in *. simpl. rewrite insert_reverse_perm. now rewrite IH.
Qed.

Lemma insert_reverse_descending (x : A) (l : list A) :
  descending (map key l) = true ->
  descending (map key (PyLib.insert_reverse key x l)) = true.
Proof.
  induction l as [|y l IH]; intros H; [reflexivity|].
  simpl PyLib.insert_reverse.
  destruct (PyLib.str_lt (key x) (key y)) eqn:Hxy.
  - assert (Hl : descending (map key l) = true).
    { destruct l; [reflexivity|]. simpl in H. now apply andb_prop in H as [_ H]. }
    specialize (IH Hl).
    destruct l as [|z l].
    + simpl. now rewrite (str_lt_asym _ _ Hxy).
    + simpl PyLib.insert_reverse in *.
      destruct (PyLib.str_lt (key x) (key z)) eqn:Hxz.
      * simpl in H. apply andb_prop in H as [Hyz _].
        simpl map. simpl map in IH.
        change (negb (PyLib.str_lt (key y) (key z))
                && descending (key z :: map key (PyLib.insert_reverse key x l)) = true).
        now rewrite Hyz, IH.
      * simpl map. simpl map in IH.
        change (negb (PyLib.str_lt (key y) (key x))
                && descending (key x :: key z :: map key l) = true).
        now rewrite (str_lt_asym _ _ Hxy), IH.
  - simpl map.
    change (negb (PyLib.str_lt (key x) (key y)) && descending (map key (y :: l)) = true).
    now rewrite Hxy, H.
Qed.

Lemma sort_reverse_descending (l : list A) :
  descending (map key (PyLib.sort_reverse key l)) = true.
Proof.
  induction l as [|x l IH]; [reflexivity|].
  unfold PyLib.sort_reverse in *. simpl. now apply insert_reverse_descending.
Qed.

End Sorting.

Section ViewerIndex.
Import ImageViewer.

(** the entry of one file, none for a file that is not there *)
Lemma collect_entries image_files : forall images w,
  collect image_files images w
  = (Ret (images ++ flat_map (fun f => match fs w !! f with
                                       | Some data => [describe f (length data)]
                                       | None => []
                                       end) image_files)%list, w).
Proof.
  induction image_files as [|f rest IH]; intros images w; simpl.
  - now rewrite app_nil_r.
  - unfold bind at 1. unfold try_except, bind, PyLib.getsize, ret.
    destruct (fs w !! f) as [data|]; rewrite IH.
    + now rewrite <- app_assoc.
    + reflexivity.
Qed.

Lemma glob_spec w f :
  In f (glob w)
  <-> is_Some (fs w !! f) /\ in_cwd f = true /\ pattern_matches f = true.
Proof.
  unfold glob. rewrite filter_In, in_map_iff, andb_true_iff. split.
  - intros [([f' data] & <- & Hin) Hm]. split; [|exact Hm].
    exists data. apply elem_of_map_to_list. now apply list_elem_of_In.
  - intros [[data Hd] Hm]. split; [|exact Hm].
    exists (f, data). split; [reflexivity|].
    apply list_elem_of_In. now apply elem_of_map_to_list.
Qed.

Lemma glob_nodup w : NoDup (glob w).
Proof.
  unfold glob. apply NoDup_ListNoDup, List.NoDup_filter, NoDup_ListNoDup.
  exact (NoDup_fst_map_to_list (fs w)).
Qed.

Lemma entries_of_existing w files :
  (forall f, In f files -> is_Some (fs w !! f)) ->
  map filename_of
      (flat_map (fun f => match fs w !! f with
                          | Some data => [describe f (length data)]
                          | None => []
                          end) files) = files.
Proof.
  induction files as [|f rest IH]; intros H; [reflexivity|]. simpl.
  destruct (H f (or_introl eq_refl)) as [data ->]. simpl.
  f_equal. apply IH. intros g Hg. apply H. now right.
Qed.

End ViewerIndex.

Section ViewerIndexResult.
Import ImageViewer.

(** the result of [index], and what is in it *)
Lemma index_result w :
  exists images,
    index w = (Ret images, w)
    /\ Permutation (map filename_of images) (glob w)
    /\ descending (map filename_of images) = true
    /\ (forall x, In x images <->
          exists f data, fs w !! f = Some data
                         /\ in_cwd f = true /\ pattern_matches f = true
                         /\ x = describe f (length data)).
Proof.
  set (entry := fun f => match fs w !! f with
                         | Some data => [describe f (length data)]
                         | None => []
                         end).
  exists (PyLib.sort_reverse filename_of (flat_map entry (glob w))).
  assert (Hnames : map filename_of (flat_map entry (glob w)) = glob w).
  { apply entries_of_existing. intros f Hf. now apply glob_spec in Hf as [Hf _]. }
  split; [|split; [|split]].
  - unfold index, index_from.
    now rewrite (bind_ret_eq _ _ _ _ _ (collect_entries (glob w) [] w)).
  - rewrite <- Hnames at 2. apply Permutation_map, sort_reverse_perm.
  - apply sort_reverse_descending.
  - intros x.
    rewrite (Permutation_in' (eq_refl x) (sort_reverse_perm filename_of _)).
    rewrite in_flat_map. split.
    + intros (f & Hf & Hx). apply glob_spec in Hf as ([data Hd] & Hc & Hm).
      exists f, data. subst entry. simpl in Hx. rewrite Hd in Hx.
      destruct Hx as [<-|[]]. auto.
    + intros (f & data & Hd & Hc & Hm & ->). exists f. split.
      * apply glob_spec. split; [now exists data | now split].
      * subst entry. simpl. rewrite Hd. now left.
Qed.

End ViewerIndexResult.

(** X14. The viewer's [index] never raises and changes nothing.  The list it
    hands to the template has one entry for each file of the working
    directory (a path with no slash) whose name matches
    [generated_image_*.png], built from the name and the size of that file,
    and no other entry; the entries are in descending order of their file
    names. *)
Theorem viewer_index_lists_matching_files (w : World) :
  exists images,
    ImageViewer.index w = (Ret images, w)
    /\ descending (map ImageViewer.filename_of images) = true
    /\ NoDup (map ImageViewer.filename_of images)
    /\ (forall x, In x images <->
          exists f data, fs w !! f = Some data
                         /\ ImageViewer.in_cwd f = true
                         /\ ImageViewer.pattern_matches f = true
                         /\ x = ImageViewer.describe f (length data)).
Proof.
  destruct (index_result w) as (images & E & P & D & Hin).
  exists images. split; [exact E|]. split; [exact D|]. split; [|exact Hin].
  rewrite P. apply glob_nodup.
Qed.

(** X15. What [generate_image] saves, the viewer shows.  When no model id
    has a slash in it (none of the script's has), then after a call that
    returned a file name the viewer's index of the resulting directory has an
    entry for that file.  The file was saved from the answer to the last
    model called, the [n]-th of the list: it holds the decoded blob of a
    position [k] of that answer and is named after that model, the clock
    reading with which the call started and [k].  The entry shows the size of
    that decoded blob, the date and time of that clock reading, and the
    model label of that model. *)
Theorem saved_image_is_shown_by_the_viewer
        (self : SetupStableDiffusion.StableDiffusionImageGenerator)
        (prompt : string) (models : list (string * SetupStableDiffusion.generate_func))
        (w : World) (f : string) :
  let r := SetupStableDiffusion.generate_image_from models self prompt w in
  let t := clock w (clock_reads w) in
  valid_datetime t = true ->
  (forall m, In m models -> lacks "/" (fst m) = true) ->
  fst r = Ret (Some f) ->
  exists n m k b data (date time : string) images,
    models !! n = Some m
    /\ calls (snd r)
       = (calls w ++ map (SetupRequests.request_of self prompt) (take (S n) models))%list
    /\ SetupNames.payload_at
         (parsed_or_none (transport w (length (calls w) + n)
                                    (SetupRequests.request_of self prompt m))) k b
    /\ decode_payload b = inr data
    /\ f = SetupStableDiffusion.image_filename (fst m) (strftime t) k
    /\ fs (snd r) !! f = Some data
    /\ strftime t = date ++ "_" ++ time
    /\ ImageViewer.index (snd r) = (Ret images, snd r)
    /\ In (PDict [("filename", PStr f); ("size_mb", PyLib.round_mb (length data));
                  ("model", PStr (ImageViewer.model_of (fst m)));
                  ("timestamp", PStr (date ++ " " ++ time))]) images.
Proof.
  intros r t Hv Hids Hf.
  destruct (generate_image_from_ordered self prompt models w) as (n & _ & P & _ & Hr).
  fold r in P, Hr. rewrite Hf in Hr.
  destruct Hr as (m & _ & Hm & Hpos & _ & (k & b & data & Hat & Hdec & Hname & Hfs)).
  destruct (strftime_shape t Hv) as (date & time & Hts & Hd & Ht).
  fold t in Hname.
  destruct (index_result (snd r)) as (images & E & _ & _ & Hin).
  assert (Hmin : In m models)
    by exact (proj1 (list_elem_of_In _ _) (list_elem_of_lookup_2 _ _ _ Hm)).
  exists (pred n), m, k, b, data, date, time, images.
  split; [exact Hm|].
  split; [replace (S (pred n)) with n by lia; now destruct P as (_ & _ & _ & _ & C)|].
  split; [exact Hat|]. split; [exact Hdec|]. split; [exact Hname|].
  split; [exact Hfs|]. split; [exact Hts|]. split; [exact E|].
  rewrite Hts in Hname.
  apply Hin. exists f, data. split; [exact Hfs|].
  split; [rewrite Hname; apply (setup_name_in_cwd _ _ _ _ (Hids m Hmin) Hd Ht)|].
  split; [rewrite Hname; apply pattern_matches_setup|].
  rewrite Hname. symmetry. now apply describe_setup_name.
Qed.

Lemma saved_image_is_shown_by_the_viewer_witness :
  let w := Scenarios.answering Scenarios.hello in
  let r := SetupStableDiffusion.generate_image_from Scenarios.p1_stability
             Scenarios.self "a cat" w in
  let t := clock w (clock_reads w) in
  let f := "generated_image_p1_20250102_030400_0.png" in
  exists n m k b data (date time : string) images,
    Scenarios.p1_stability !! n = Some m
    /\ calls (snd r)
       = (calls w ++ map (SetupRequests.request_of Scenarios.self "a cat")
                         (take (S n) Scenarios.p1_stability))%list
    /\ SetupNames.payload_at
         (parsed_or_none (transport w (length (calls w) + n)
                            (SetupRequests.request_of Scenarios.self "a cat" m))) k b
    /\ decode_payload b = inr data
    /\ f = SetupStableDiffusion.image_filename (fst m) (strftime t) k
    /\ fs (snd r) !! f = Some data
    /\ strftime t = date ++ "_" ++ time
    /\ ImageViewer.index (snd r) = (Ret images, snd r)
    /\ In (PDict [("filename", PStr f); ("size_mb", PyLib.round_mb (length data));
                  ("model", PStr (ImageViewer.model_of (fst m)));
                  ("timestamp", PStr (date ++ " " ++ time))]) images.
Proof.
  apply (saved_image_is_shown_by_the_viewer Scenarios.self "a cat" Scenarios.p1_stability
           (Scenarios.answering Scenarios.hello)
           "generated_image_p1_20250102_030400_0.png"); try reflexivity.
  intros m [<-|[]]. reflexivity.
Defined.

(** the viewer's entry for the image saved in scenario A *)
Example viewer_shows_hello :
  let w := snd (SetupStableDiffusion.generate_image_from Scenarios.p1_stability
                  Scenarios.self "a cat" (Scenarios.answering Scenarios.hello)) in
  fst (ImageViewer.index w)
  = Ret [PDict [("filename", PStr "generated_image_p1_20250102_030400_0.png");
                ("size_mb", PyLib.round_mb 5);
                ("model", PStr "Unknown");
                ("timestamp", PStr "20250102 030400")]].
Proof. vm_compute. reflexivity. Qed.

(** ** Time stamps read back *)
Section ReadingTimeStamps.

Lemma pad2_explicit n :
  n < 100 ->
  PyStr.pad 2 n = String (digit_char (n / 10)) (String (digit_char (n mod 10)) "").
Proof.
  intros Hn.
  assert (H : forallb (fun k => String.eqb (PyStr.pad 2 k)
                         (String (digit_char (k / 10)) (String (digit_char (k mod 10)) "")))
                      (seq 0 100) = true) by (vm_compute; reflexivity).
  rewrite forallb_forall in H. apply String.eqb_eq, H, in_seq. lia.
Qed.

Lemma pad4_explicit n :
  n < 100 * 100 ->
  PyStr.pad 4 n
  = String (digit_char (n / 1000))
      (String (digit_char (n / 100 mod 10))
         (String (digit_char (n / 10 mod 10)) (String (digit_char (n mod 10)) ""))).
Proof.
  intros Hn.
  assert (H : forallb (fun k => String.eqb (PyStr.pad 4 k)
                         (String (digit_char (k / 1000))
                            (String (digit_char (k / 100 mod 10))
                               (String (digit_char (k / 10 mod 10))
                                  (String (digit_char (k mod 10)) "")))))
                      (seq 0 (100 * 100)) = true) by (vm_compute; reflexivity).
  rewrite forallb_forall in H. apply String.eqb_eq, H, in_seq. lia.
Qed.

Lemma digit_value_char k : k < 10 -> PyLib.digit_value (digit_char k) = Some k.
Proof.
  intros Hk.
  assert (H : forallb (fun k => match PyLib.digit_value (digit_char k) with
                                | Some j => (j =? k)%nat
                                | None => false
                                end) (seq 0 10) = true) by (vm_compute; reflexivity).
  rewrite forallb_forall in H. specialize (H k).
  destruct (PyLib.digit_value (digit_char k)) as [j|].
  - f_equal. apply Nat.eqb_eq, H, in_seq. lia.
  - discriminate H. apply in_seq. lia.
Qed.

(** a two-digit field reads what [%02d] wrote *)
Lemma field_reads_pad2 {A} (lo2 hi2 lo1 n : nat) (rest : string)
      (k : nat -> string -> option A) (r : A) :
  n < 100 -> lo2 <= n <= hi2 -> k n rest = Some r ->
  PyLib.field lo2 hi2 lo1 (PyStr.pad 2 n ++ rest) k = Some r.
Proof.
  intros Hn [Hlo Hhi] Hk. rewrite (pad2_explicit n Hn).
  change (String (digit_char (n / 10)) (String (digit_char (n mod 10)) "") ++ rest)
    with (String (digit_char (n / 10)) (String (digit_char (n mod 10)) rest)).
  unfold PyLib.field.
  rewrite (digit_value_char (n / 10)) by (apply Nat.Div0.div_lt_upper_bound; lia).
  rewrite (digit_value_char (n mod 10)) by (apply Nat.mod_upper_bound; lia).
  replace (10 * (n / 10) + n mod 10) with n by (rewrite <- Nat.div_mod_eq; reflexivity).
  assert (H1 : (lo2 <=? n)%nat = true) by (apply Nat.leb_le; lia).
  assert (H2 : (n <=? hi2)%nat = true) by (apply Nat.leb_le; lia).
  now rewrite H1, H2, Hk.
Qed.

Lemma year_reads_pad4 {A} (n : nat) (rest : string)
      (k : nat -> string -> option A) :
  n < 100 * 100 ->
  PyLib.year_field (PyStr.pad 4 n ++ rest) k = k n rest.
Proof.
  intros Hn. rewrite (pad4_explicit n Hn).
  change (String (digit_char (n / 1000))
            (String (digit_char (n / 100 mod 10))
               (String (digit_char (n / 10 mod 10)) (String (digit_char (n mod 10)) ""))) ++ rest)
    with (String (digit_char (n / 1000))
            (String (digit_char (n / 100 mod 10))
               (String (digit_char (n / 10 mod 10)) (String (digit_char (n mod 10)) rest)))).
  unfold PyLib.year_field.
  rewrite (digit_value_char (n / 1000)) by (apply Nat.Div0.div_lt_upper_bound; lia).
  rewrite !digit_value_char by (apply Nat.mod_upper_bound; lia).
  f_equal.
  pose proof (Nat.div_mod_eq n 10). pose proof (Nat.div_mod_eq (n / 10) 10).
  pose proof (Nat.div_mod_eq (n / 100) 10).
  assert (n / 10 / 10 = n / 100) by (rewrite Nat.Div0.div_div; reflexivity).
  assert (n / 100 / 10 = n / 1000) by (rewrite Nat.Div0.div_div; reflexivity).
  assert (n / 1000 < 10) by (apply Nat.Div0.div_lt_upper_bound; lia).
  assert (n / 100 mod 10 = n / 100 - 10 * (n / 1000)) by lia.
  lia.
Qed.

Lemma append_nil_r (s : string) : s ++ "" = s.
Proof.
  induction s as [|c s IH]; [reflexivity|].
  change (String c (s ++ "") = String c s). now rewrite IH.
Qed.

(** the gallery's parser reads back what the generators' clock wrote *)
Lemma strptime_strftime d :
  calendar_datetime d = true -> PyLib.strptime (strftime d) = inr d.
Proof.
  unfold calendar_datetime. intros H. apply andb_prop in H as [Hv Hday].
  apply Nat.leb_le in Hday.
  destruct (valid_datetime_bounds d Hv) as (Hy & Hm & Hd & Hh & Hmi & Hs).
  unfold valid_datetime in Hv.
  repeat (apply andb_prop in Hv as [Hv ?]).
  repeat match goal with
         | H : (_ <=? _)%nat = true |- _ => apply Nat.leb_le in H
         | H : (_ <? _)%nat = true |- _ => apply Nat.ltb_lt in H
         end.
  destruct d as [y m dd h mi s]. simpl in *.
  set (r := (DateTime y m dd h mi s, EmptyString)).
  assert (S6 : PyLib.field 0 61 0 (PyStr.pad 2 s ++ "")
                 (fun sec rest => Some (DateTime y m dd h mi sec, rest)) = Some r)
    by (apply field_reads_pad2; [lia | lia | reflexivity]).
  rewrite append_nil_r in S6.
  assert (S5 : PyLib.field 0 59 0 (PyStr.pad 2 mi ++ PyStr.pad 2 s)
                 (fun mi' s6 => PyLib.field 0 61 0 s6
                    (fun sec rest => Some (DateTime y m dd h mi' sec, rest))) = Some r)
    by (apply field_reads_pad2; [lia | lia | exact S6]).
  assert (S4 : PyLib.field 0 23 0 (PyStr.pad 2 h ++ PyStr.pad 2 mi ++ PyStr.pad 2 s)
                 (fun h' s5 => PyLib.field 0 59 0 s5 (fun mi' s6 => PyLib.field 0 61 0 s6
                    (fun sec rest => Some (DateTime y m dd h' mi' sec, rest)))) = Some r)
    by (apply field_reads_pad2; [lia | lia | exact S5]).
  assert (S3 : PyLib.day_field
                 (PyStr.pad 2 dd ++ "_" ++ PyStr.pad 2 h ++ PyStr.pad 2 mi ++ PyStr.pad 2 s)
                 (fun d' s3 => PyLib.literal "_" s3 (fun s4 =>
                    PyLib.field 0 23 0 s4 (fun h' s5 => PyLib.field 0 59 0 s5
                      (fun mi' s6 => PyLib.field 0 61 0 s6
                         (fun sec rest => Some (DateTime y m d' h' mi' sec, rest)))))) = Some r).
  { unfold PyLib.day_field.
    rewrite (field_reads_pad2 1 31 1 dd _ _ r); [reflexivity | lia | lia | exact S4]. }
  assert (S2 : PyLib.field 1 12 1
                 (PyStr.pad 2 m ++ PyStr.pad 2 dd ++ "_" ++ PyStr.pad 2 h ++ PyStr.pad 2 mi
                    ++ PyStr.pad 2 s)
                 (fun m' s2 => PyLib.day_field s2
                    (fun d' s3 => PyLib.literal "_" s3 (fun s4 =>
                       PyLib.field 0 23 0 s4 (fun h' s5 => PyLib.field 0 59 0 s5
                         (fun mi' s6 => PyLib.field 0 61 0 s6
                            (fun sec rest => Some (DateTime y m' d' h' mi' sec, rest))))))) = Some r)
    by (apply field_reads_pad2; [lia | lia | exact S3]).
  unfold PyLib.strptime, strftime. simpl year. simpl month. simpl day. simpl hour.
  simpl minute. simpl second.
  rewrite year_reads_pad4 by exact Hy.
  rewrite S2. unfold r. simpl.
  assert (E0 : (y =? 0)%nat = false) by (apply Nat.eqb_neq; lia).
  assert (E1 : (PyLib.days_in_month y m <? dd)%nat = false) by (apply Nat.ltb_ge; lia).
  assert (E2 : (59 <? s)%nat = false) by (apply Nat.ltb_ge; lia).
  now rewrite E0, E1, E2.
Qed.

End ReadingTimeStamps.

(** ** The gallery's description of a file *)
Section GalleryParts.
Import ImageGalleryServer.

(** the extension is all [replace('.png', '')] removes from a name with no
    other dot *)
Lemma replace_png (s : string) :
  lacks "." s = true -> PyLib.replace ".png" "" (s ++ ".png") = s.
Proof.
  unfold lacks, PyLib.replace. induction s as [|c s IH]; intros H; [reflexivity|].
  simpl in H. apply andb_prop in H as [Hc Hs].
  change (String c s ++ ".png") with (String c (s ++ ".png")).
  change (PyLib.replace_from ".png" "" 0 (String c (s ++ ".png")))
    with (if String.prefix ".png" (String c (s ++ ".png"))
          then "" ++ PyLib.replace_from ".png" "" (String.length ".png" - 1) (s ++ ".png")
          else String c (PyLib.replace_from ".png" "" 0 (s ++ ".png"))).
  assert (Hp : String.prefix ".png" (String c (s ++ ".png")) = false).
  { change (String.prefix ".png" (String c (s ++ ".png")))
      with (if ascii_dec "." c then String.prefix "png" (s ++ ".png") else false).
    destruct (ascii_dec "." c) as [<-|_]; [discriminate Hc | reflexivity]. }
  rewrite Hp. now rewrite (IH Hs).
Qed.

Lemma created_skip parts pre rest :
  forallb (fun part => negb (date_like part)) pre = true ->
  created parts (pre ++ rest) = created parts rest.
Proof.
  induction pre as [|p pre IH]; intros H; [reflexivity|].
  simpl in H. apply andb_prop in H as [Hp Hpre].
  simpl. fold (date_like p). apply negb_true_iff in Hp. rewrite Hp. now apply IH.
Qed.

Lemma index_first (x : string) pre rest :
  forallb (fun p => negb (String.eqb p x)) pre = true ->
  PyLib.index x (pre ++ x :: rest) = inr (length pre).
Proof.
  induction pre as [|p pre IH]; intros H; simpl.
  - now rewrite String.eqb_refl.
  - simpl in H. apply andb_prop in H as [Hp Hpre]. apply negb_true_iff in Hp.
    rewrite Hp, (IH Hpre). reflexivity.
Qed.

Lemma digits_date_like date : digits 8 date = true -> date_like date = true.
Proof.
  unfold digits, date_like, PyLib.isdigit. intros H. apply andb_prop in H as [Hl Hd].
  rewrite Hl, Hd. destruct date; [discriminate | reflexivity].
Qed.

Lemma digits_isdigit k time : 0 < k -> digits k time = true -> PyLib.isdigit time = true.
Proof.
  unfold digits, PyLib.isdigit. intros Hk H. apply andb_prop in H as [Hl Hd].
  rewrite Hd. destruct time; [|reflexivity].
  apply Nat.eqb_eq in Hl. simpl in Hl. lia.
Qed.

(** the loop over the parts of a generated name finds the date after the
    parts of the model id, and the time behind it *)
Lemma created_of_parts pre date time last t :
  forallb (fun part => negb (date_like part)) pre = true ->
  digits 8 date = true -> digits 6 time = true ->
  PyLib.strptime (date ++ "_" ++ time) = inr t ->
  created (pre ++ [date; time; last]) (pre ++ [date; time; last])
  = inr (PyLib.strftime_display t).
Proof.
  intros Hpre Hd Ht Hp.
  rewrite (created_skip _ pre) at 1 by exact Hpre.
  simpl created. fold (date_like date). rewrite (digits_date_like date Hd).
  rewrite index_first.
  - unfold and_then.
    assert (Hlt : (length pre + 1 <? length (pre ++ [date; time; last]))%nat = true).
    { apply Nat.ltb_lt. rewrite length_app. simpl. lia. }
    rewrite Hlt.
    assert (Hn : nth (length pre + 1) (pre ++ [date; time; last]) EmptyString = time).
    { rewrite app_nth2 by lia.
      replace (length pre + 1 - length pre) with 1 by lia. reflexivity. }
    rewrite Hn.
    assert (H6 : (String.length time =? 6)%nat = true).
    { apply Nat.eqb_eq. exact (digits_length _ _ Ht). }
    rewrite H6, (digits_isdigit 6 time) by (lia || exact Ht). simpl.
    now rewrite Hp.
  - clear -Hpre Hd. induction pre as [|p pre IH]; [reflexivity|].
    simpl in *. apply andb_prop in Hpre as [Hp Hpre]. rewrite (IH Hpre), andb_true_r.
    destruct (String.eqb_spec p date) as [->|]; [|reflexivity].
    now rewrite (digits_date_like date Hd) in Hp.
Qed.

(** a name [base ++ ".png"] whose parts end in date, time and position *)
Lemma get_image_info_of_parts w base pre date time last t data :
  let filename := base ++ ".png" in
  lacks "." base = true ->
  PyStr.split "_" base = (pre ++ [date; time; last])%list ->
  forallb (fun part => negb (date_like part)) pre = true ->
  digits 8 date = true -> digits 6 time = true ->
  PyLib.strptime (date ++ "_" ++ time) = inr t ->
  fs w !! filename = Some data ->
  get_image_info filename w
  = (Ret (PDict [("filename", PStr filename);
                 ("model", PStr (model_of filename));
                 ("created", PStr (PyLib.strftime_display t));
                 ("size", PStr (PyLib.thousands (length data) ++ " bytes"));
                 ("prompt", PStr "Generated image")]), w).
Proof.
  intros filename Hdot Hparts Hpre Hd Ht Hp Hfs.
  unfold get_image_info, try_except.
  unfold bind at 1. unfold PyLib.getsize. rewrite Hfs.
  unfold bind, lift. subst filename. rewrite (replace_png base Hdot), Hparts.
  now rewrite (created_of_parts pre date time last t Hpre Hd Ht Hp).
Qed.

(** whatever the parts are, the loop ends without raising *)
Lemma created_returns parts : forall pre remaining,
  parts = (pre ++ remaining)%list -> exists s, created parts remaining = inr s.
Proof.
  intros pre remaining. revert pre.
  induction remaining as [|part rest IH]; intros pre Hparts; [now exists "Unknown"|].
  simpl. destruct ((String.length part =? 8)%nat && PyLib.isdigit part).
  - assert (Hi : exists i, PyLib.index part parts = inr i).
    { subst parts. clear. induction pre as [|p pre [i IH]]; simpl.
      - rewrite String.eqb_refl. now exists 0.
      - destruct (String.eqb p part); [now exists 0|]. rewrite IH. now exists (S i). }
    destruct Hi as [i ->]. unfold and_then.
    destruct ((String.length _ =? 6)%nat && PyLib.isdigit _); [|now exists "Unknown"].
    destruct (PyLib.strptime _) as [e|dt]; eauto.
  - apply (IH (pre ++ [part])%list). rewrite <- app_assoc. exact Hparts.
Qed.

End GalleryParts.

Section GalleryNames.
Variables (date time last : string).
Hypothesis Hdate : digits 8 date = true.
Hypothesis Htime : digits 6 time = true.
Hypothesis Hlast : lacks "_" last = true.

Lemma name_parts (san : string) :
  PyStr.split "_" ("generated_image_" ++ san ++ "_" ++ (date ++ "_" ++ time) ++ "_" ++ last)
  = (("generated" :: "image" :: PyStr.split "_" san) ++ [date; time; last])%list.
Proof.
  rewrite (append_assoc date).
  change ("generated_image_" ++ san ++ "_" ++ date ++ ("_" ++ time) ++ "_" ++ last)
    with ("generated" ++ String "_" ("image" ++ String "_" (san ++ String "_"
            (date ++ String "_" (time ++ String "_" last))))).
  rewrite !split_app_sep, (split_lacks "_" last Hlast).
  rewrite (split_lacks "_" date (digits_lacks "_" 8 date eq_refl Hdate)).
  rewrite (split_lacks "_" time (digits_lacks "_" 6 time eq_refl Htime)).
  reflexivity.
Qed.

Lemma script_parts :
  PyStr.split "_" ("generated_image_" ++ (date ++ "_" ++ time) ++ "_" ++ last)
  = (["generated"; "image"] ++ [date; time; last])%list.
Proof.
  rewrite (append_assoc date).
  change ("generated_image_" ++ date ++ ("_" ++ time) ++ "_" ++ last)
    with ("generated" ++ String "_" ("image" ++ String "_"
            (date ++ String "_" (time ++ String "_" last)))).
  rewrite !split_app_sep, (split_lacks "_" last Hlast).
  rewrite (split_lacks "_" date (digits_lacks "_" 8 date eq_refl Hdate)).
  rewrite (split_lacks "_" time (digits_lacks "_" 6 time eq_refl Htime)).
  reflexivity.
Qed.

End GalleryNames.

(** X16. The gallery reads the names of both generators back.  For a file
    that [generate_image] named at a clock reading with a calendar date,
    [get_image_info] reports that reading as [YYYY-MM-DD HH:MM:SS], the size
    of the file in bytes with thousands separators, and a model label that
    depends on the model id alone ([amazon] in the id, else [stability] in
    the id, else unknown), provided the model id is ASCII text no part of
    which is itself eight digits long; for a file named by [main] of the
    other script it reports the same time and no model. *)
Theorem gallery_describes_generated_files
        (model_id : string) (t : datetime) (i : nat) (w : World) (data : list byte) :
  let f := SetupStableDiffusion.image_filename model_id (strftime t) i in
  let g := StableDiffusionScript.image_filename (strftime t) i in
  calendar_datetime t = true ->
  forallb Base64.is_ascii (PyStr.to_list model_id) = true ->
  no_date_part model_id = true ->
  (fs w !! f = Some data ->
   ImageGalleryServer.get_image_info f w
   = (Ret (PDict [("filename", PStr f);
                  ("model", PStr (ImageGalleryServer.model_of model_id));
                  ("created", PStr (PyLib.strftime_display t));
                  ("size", PStr (PyLib.thousands (length data) ++ " bytes"));
                  ("prompt", PStr "Generated image")]), w))
  /\ (fs w !! g = Some data ->
      ImageGalleryServer.get_image_info g w
      = (Ret (PDict [("filename", PStr g);
                     ("model", PStr "Unknown");
                     ("created", PStr (PyLib.strftime_display t));
                     ("size", PStr (PyLib.thousands (length data) ++ " bytes"));
                     ("prompt", PStr "Generated image")]), w)).
Proof.
  intros f g Hcal _ Hno.
  assert (Hv : valid_datetime t = true).
  { unfold calendar_datetime in Hcal. now apply andb_prop in Hcal as [Hv _]. }
  destruct (strftime_shape t Hv) as (date & time & Hts & Hd & Ht).
  assert (Hp : PyLib.strptime (date ++ "_" ++ time) = inr t).
  { rewrite <- Hts. now apply strptime_strftime. }
  assert (Hi : lacks "_" (PyStr.of_nat i) = true) by (now apply of_nat_lacks).
  assert (Hdd : lacks "." date = true) by exact (digits_lacks "." 8 date eq_refl Hd).
  assert (Hdt : lacks "." time = true) by exact (digits_lacks "." 6 time eq_refl Ht).
  assert (Hdi : lacks "." (PyStr.of_nat i) = true) by exact (of_nat_lacks "." i eq_refl).
  split; intros Hfs.
  - set (san := PyStr.replace "." "_" (PyStr.replace ":" "_" model_id)).
    assert (Ef : f = ("generated_image_" ++ san ++ "_" ++ (date ++ "_" ++ time) ++ "_"
                        ++ PyStr.of_nat i) ++ ".png").
    { subst f san. unfold SetupStableDiffusion.image_filename. rewrite Hts.
      now rewrite !append_assoc. }
    assert (Em : ImageGalleryServer.model_of f = ImageGalleryServer.model_of model_id).
    { unfold ImageGalleryServer.model_of, f. rewrite Hts.
      rewrite (contains_in_setup_name date time i Hd Ht "a" "mazon" model_id);
        try reflexivity.
      rewrite (contains_in_setup_name date time i Hd Ht "s" "tability" model_id);
        try reflexivity. }
    rewrite <- Em. rewrite Ef in Hfs |- *.
    apply (get_image_info_of_parts w _ ("generated" :: "image" :: PyStr.split "_" san)
             date time (PyStr.of_nat i) t data); try assumption.
    + rewrite !lacks_app, Hdd, Hdt, Hdi.
      unfold san. now rewrite (replace_lacks "." "_") by discriminate.
    + now apply name_parts.
  - assert (Eg : g = ("generated_image_" ++ (date ++ "_" ++ time) ++ "_"
                        ++ PyStr.of_nat i) ++ ".png").
    { subst g. unfold StableDiffusionScript.image_filename. rewrite Hts.
      now rewrite !append_assoc. }
    assert (Em : ImageGalleryServer.model_of g = "Unknown").
    { unfold ImageGalleryServer.model_of, g. rewrite Hts.
      rewrite (contains_in_script_name date time i Hd Ht "a" "mazon"); try reflexivity.
      rewrite (contains_in_script_name date time i Hd Ht "s" "tability"); reflexivity. }
    rewrite <- Em. rewrite Eg in Hfs |- *.
    apply (get_image_info_of_parts w _ ["generated"; "image"]
             date time (PyStr.of_nat i) t data); try assumption; try reflexivity.
    + now rewrite !lacks_app, Hdd, Hdt, Hdi.
    + now apply script_parts.
Qed.

Lemma gallery_describes_generated_files_witness :
  let t := Scenarios.at_second 5 in
  let w := snd (SetupStableDiffusion.generate_image_from Scenarios.p1_titan
                  Scenarios.self "a cat"
                  (Scenarios.world (fun _ _ => Scenarios.replies
                                      (PDict [("images", PList [PStr "aGVsbG8="])]))
                                   (fun _ => Scenarios.at_second 5))) in
  let data := list_byte_of_string "hello" in
  let f := SetupStableDiffusion.image_filename "p1" (strftime t) 0 in
  let g := StableDiffusionScript.image_filename (strftime t) 0 in
  (fs w !! f = Some data ->
   ImageGalleryServer.get_image_info f w
   = (Ret (PDict [("filename", PStr f);
                  ("model", PStr (ImageGalleryServer.model_of "p1"));
                  ("created", PStr (PyLib.strftime_display t));
                  ("size", PStr (PyLib.thousands (length data) ++ " bytes"));
                  ("prompt", PStr "Generated image")]), w))
  /\ (fs w !! g = Some data ->
      ImageGalleryServer.get_image_info g w
      = (Ret (PDict [("filename", PStr g);
                     ("model", PStr "Unknown");
                     ("created", PStr (PyLib.strftime_display t));
                     ("size", PStr (PyLib.thousands (length data) ++ " bytes"));
                     ("prompt", PStr "Generated image")]), w)).
Proof.
  apply (gallery_describes_generated_files "p1" (Scenarios.at_second 5) 0); reflexivity.
Defined.

Example gallery_shows_saved_image :
  let w := snd (SetupStableDiffusion.generate_image_from Scenarios.p1_titan
                  Scenarios.self "a cat"
                  (Scenarios.world (fun _ _ => Scenarios.replies
                                      (PDict [("images", PList [PStr "aGVsbG8="])]))
                                   (fun _ => Scenarios.at_second 5))) in
  fst (ImageGalleryServer.get_image_info "generated_image_p1_20250102_030405_0.png" w)
  = Ret (PDict [("filename", PStr "generated_image_p1_20250102_030405_0.png");
                ("model", PStr "Unknown");
                ("created", PStr "2025-01-02 03:04:05");
                ("size", PStr "5 bytes");
                ("prompt", PStr "Generated image")]).
Proof. vm_compute. reflexivity. Qed.

(** X17. [get_image_info] never raises and changes nothing; it returns
    [None] exactly when the file does not exist.  For every file that
    exists, whatever its name, it returns a description. *)
Theorem gallery_info_is_none_only_for_missing_files (filename : string) (w : World) :
  exists v, ImageGalleryServer.get_image_info filename w = (Ret v, w)
            /\ (v = PNone <-> fs w !! filename = None).
Proof.
  unfold ImageGalleryServer.get_image_info, try_except.
  unfold bind at 1. unfold PyLib.getsize.
  destruct (fs w !! filename) as [data|] eqn:Hfs.
  - destruct (created_returns
                (PyStr.split "_" (PyLib.replace ".png" "" filename)) []
                (PyStr.split "_" (PyLib.replace ".png" "" filename)) eq_refl) as [s Hs].
    unfold bind, lift. rewrite Hs. eexists. split; [reflexivity|].
    split; discriminate.
  - eexists. split; [reflexivity|]. split; reflexivity.
Qed.

(** ** [main] of [setup_stable_diffusion.py] *)
Section SetupMainRuns.
Import SetupStableDiffusion SetupMain.

Lemma any_keyword_quiet model keywords : forall w r w',
  any_keyword model keywords w = (r, w') -> w' = w.
Proof.
  induction keywords as [|keyword rest IH]; intros w r w' E; simpl in E.
  - now injection E as _ <-.
  - unfold bind at 1 in E. unfold lift in E.
    destruct (Py.getitem model "modelId") as [e|id]; simpl in E; [now injection E as _ <-|].
    unfold bind at 1 in E.
    destruct (Py.lower id) as [e|low]; simpl in E; [now injection E as _ <-|].
    destruct (PyStr.contains keyword low); [now injection E as _ <- | exact (IH _ _ _ E)].
Qed.

Ltac quiet_step E :=
  first
    [ rewrite bind_printf in E
    | rewrite bind_print in E
    | unfold bind at 1 in E; unfold lift at 1 in E;
      match type of E with
      | context [Py.getitem ?m ?k] => destruct (Py.getitem m k); simpl in E
      | context [Py.get ?m ?k ?d] => destruct (Py.get m k d); simpl in E
      end ].

Lemma print_model_quiet model w r w' :
  print_model model w = (r, w') -> progress [] 0 w w' /\ fs w' = fs w.
Proof.
  unfold print_model. intros E.
  repeat (quiet_step E; try (injection E as _ <-; split; [frame | reflexivity])).
  all: try (unfold print, printf in E; injection E as _ <-; split; [frame | reflexivity]).
Qed.

Lemma collect_quiet entries : forall image_models w r w',
  collect_image_models entries image_models w = (r, w') ->
  progress [] 0 w w' /\ fs w' = fs w.
Proof.
  induction entries as [|entry rest IH]; intros image_models w r w' E.
  - injection E as _ <-. split; [frame | reflexivity].
  - unfold collect_image_models in E. fold collect_image_models in E.
    unfold bind at 1 in E.
    destruct (any_keyword entry image_keywords w) as [[hit|e] w1] eqn:Ea;
      pose proof (any_keyword_quiet _ _ _ _ _ Ea) as ->;
      [|injection E as _ <-; split; [frame | reflexivity]].
    destruct hit; [|exact (IH _ _ _ _ E)].
    unfold bind at 1 in E.
    destruct (print_model entry w) as [[[]|e] w2] eqn:Ep;
      destruct (print_model_quiet _ _ _ _ Ep) as [P2 F2].
    + destruct (IH _ _ _ _ E) as [P F]. split; [|now rewrite F].
      exact (progress_quiet_l _ _ _ _ _ P2 P).
    + injection E as _ <-. now split.
Qed.

(** the listing never raises, sends its one request and leaves the files
    and the clock alone *)
Lemma list_available_models_frame self w :
  exists l w', list_available_models self w = (Ret l, w')
               /\ progress [ListFoundationModels (region self)] 0 w w' /\ fs w' = fs w.
Proof.
  unfold list_available_models, try_except.
  set (rq := ListFoundationModels (region self)).
  unfold bind at 1. unfold send.
  destruct (transport w (length (calls w)) rq) as [r|e]; simpl;
    [|eexists; eexists; split; [reflexivity|]; split; [frame | reflexivity]].
  unfold bind at 1. unfold parse_json.
  destruct (json_body r) as [body|]; simpl;
    [|eexists; eexists; split; [reflexivity|]; split; [frame | reflexivity]].
  unfold bind at 1. unfold lift.
  destruct (Py.get body "modelSummaries" (PList [])) as [e|models]; simpl;
    [eexists; eexists; split; [reflexivity|]; split; [frame | reflexivity]|].
  rewrite bind_print. unfold bind at 1.
  destruct (Py.iter models) as [e|items]; simpl;
    [eexists; eexists; split; [reflexivity|]; split; [frame | reflexivity]|].
  match goal with |- context [collect_image_models items [] ?w0] => set (w1 := w0) end.
  destruct (collect_image_models items [] w1) as [[l|e] w2] eqn:Ec;
    destruct (collect_quiet _ _ _ _ _ Ec) as [P F]; simpl;
    eexists; eexists; (split; [reflexivity|]); simpl; (split; [|rewrite ?F; reflexivity]).
  - apply (progress_quiet_r _ _ w w1); [subst w1; frame | exact P].
  - apply (progress_quiet_r _ _ w w1); [subst w1; frame|].
    apply (progress_quiet_r _ _ w1 w2); [exact P | frame].
Qed.

End SetupMainRuns.

Section SetupConstruction.
Import SetupStableDiffusion SetupMain.

(** the constructor creates its two clients in turn and does nothing else *)
Lemma init_result region w :
  init region w
  = match construction_failure region w with
    | None => (Ret {| region := region |}, w)
    | Some e => (Raise e, w)
    end.
Proof.
  unfold init, construction_failure, bind, boto3_client, ret.
  destruct (sdk_clients w "bedrock-runtime" region); [reflexivity|].
  destruct (sdk_clients w "bedrock" region); reflexivity.
Qed.

Lemma main_constructs args w :
  setup_help args = false ->
  main args w
  = match construction_failure (region_arg args) w with
    | None =>
        let generator := {| region := region_arg args |} in
        if list_models args then (list_available_models generator ;; ret tt) w
        else
          bind (generate_image generator (PyStr.join " " (prompt args)))
            (fun filename =>
               match filename with
               | Some filename =>
                   if negb (String.eqb filename EmptyString) then
                     print (nl ++ "🎉 Success! Image generated and saved as: " ++ filename) ;;
                     try_except
                       (let* size := PyLib.getsize filename in
                        print ("File size: " ++ PyLib.thousands size ++ " bytes"))
                       (fun _ => ret tt)
                   else
                     print (nl ++ "❌ Failed to generate image.") ;;
                     print (nl ++ "Troubleshooting steps:") ;;
                     print "1. Run with --setup-help to see setup instructions" ;;
                     print "2. Run with --list-models to see available models" ;;
                     print "3. Try a different region with --region us-west-2" ;;
                     print "4. Check AWS Bedrock console for model access"
               | None =>
                   print (nl ++ "❌ Failed to generate image.") ;;
                   print (nl ++ "Troubleshooting steps:") ;;
                   print "1. Run with --setup-help to see setup instructions" ;;
                   print "2. Run with --list-models to see available models" ;;
                   print "3. Try a different region with --region us-west-2" ;;
                   print "4. Check AWS Bedrock console for model access"
               end) (generation_started args w)
    | Some e => (Raise e, w)
    end.
Proof.
  intros Hh. unfold main. rewrite Hh. unfold bind at 1. rewrite init_result.
  destruct (construction_failure (region_arg args) w); [reflexivity|].
  cbv zeta. destruct (list_models args); reflexivity.
Qed.

Lemma image_filename_not_empty model_id timestamp i :
  String.eqb (image_filename model_id timestamp i) EmptyString = false.
Proof. reflexivity. Qed.

End SetupConstruction.

(** X18. With [--setup-help], [main] of [setup_stable_diffusion.py] prints
    the instructions and nothing else happens: no request is sent, no file
    is touched, the clock is not read and no SDK client is created, whatever
    the other arguments are.  Without it, [main] first constructs the
    generator: when one of its two SDK clients cannot be created for the
    region (a malformed or missing region), [main] raises that exception
    before anything is printed or sent, with [--list-models] or without.
    With [--list-models], when the clients can be created, it sends one
    request, the listing of foundation models in the chosen region, does not
    raise, and generates nothing: no model is invoked and no file is
    touched. *)
Theorem help_and_listing_generate_nothing (args : SetupMain.Namespace) (w : World) :
  let r := SetupMain.main args w in
  (SetupMain.setup_help args = true ->
   r = (Ret tt, put_line [Lit (String.concat nl SetupMain.setup_instructions_lines)] w))
  /\ (SetupMain.setup_help args = false ->
      forall e, construction_failure (SetupMain.region_arg args) w = Some e ->
                r = (Raise e, w))
  /\ (SetupMain.setup_help args = false -> SetupMain.list_models args = true ->
      construction_failure (SetupMain.region_arg args) w = None ->
      fst r = Ret tt
      /\ calls (snd r) = (calls w ++ [ListFoundationModels (SetupMain.region_arg args)])%list
      /\ fs (snd r) = fs w /\ clock_reads (snd r) = clock_reads w).
Proof.
  intros r. subst r. split; [|split].
  - unfold SetupMain.main. intros ->. reflexivity.
  - intros Hh e He. rewrite (main_constructs args w Hh), He. reflexivity.
  - intros Hh Hl Hc. rewrite (main_constructs args w Hh), Hc, Hl. cbv zeta.
    destruct (list_available_models_frame
                {| SetupStableDiffusion.region := SetupMain.region_arg args |} w)
      as (l & w' & E & (_ & _ & _ & R & C) & F).
    unfold bind. rewrite E. simpl. rewrite Nat.add_0_r in R.
    split; [reflexivity|]. split; [exact C|]. split; [exact F | exact R].
Qed.

Lemma help_and_listing_generate_nothing_witness :
  let help := {| SetupMain.prompt := ["a"; "cat"]; SetupMain.region_arg := "us-east-1";
                 SetupMain.list_models := true; SetupMain.setup_help := true |} in
  let listing := {| SetupMain.prompt := ["a"; "cat"]; SetupMain.region_arg := "eu-west-1";
                    SetupMain.list_models := true; SetupMain.setup_help := false |} in
  let w := Scenarios.answering Scenarios.hello in
  let rejecting := rejecting_region "eu-west-1" w in
  calls (snd (SetupMain.main help w)) = calls w
  /\ fs (snd (SetupMain.main help w)) = fs w
  /\ calls (snd (SetupMain.main listing w))
     = (calls w ++ [ListFoundationModels "eu-west-1"])%list
  /\ fs (snd (SetupMain.main listing w)) = fs w
  /\ SetupMain.main listing rejecting
     = (Raise (Exc ValueError
                 "Provided region_name 'eu-west-1' doesn't match a supported format."),
        rejecting).
Proof.
  cbv zeta.
  destruct (help_and_listing_generate_nothing
              {| SetupMain.prompt := ["a"; "cat"]; SetupMain.region_arg := "us-east-1";
                 SetupMain.list_models := true; SetupMain.setup_help := true |}
              (Scenarios.answering Scenarios.hello)) as (H & _).
  rewrite (H eq_refl).
  destruct (help_and_listing_generate_nothing
              {| SetupMain.prompt := ["a"; "cat"]; SetupMain.region_arg := "eu-west-1";
                 SetupMain.list_models := true; SetupMain.setup_help := false |}
              (Scenarios.answering Scenarios.hello)) as (_ & _ & L).
  destruct (L eq_refl eq_refl eq_refl) as (_ & C & F & _).
  destruct (help_and_listing_generate_nothing
              {| SetupMain.prompt := ["a"; "cat"]; SetupMain.region_arg := "eu-west-1";
                 SetupMain.list_models := true; SetupMain.setup_help := false |}
              (rejecting_region "eu-west-1" (Scenarios.answering Scenarios.hello)))
    as (_ & R & _).
  split; [reflexivity|]. split; [reflexivity|]. split; [exact C|]. split; [exact F|].
  exact (R eq_refl _ eq_refl).
Defined.

(** X19. Without [--setup-help] and [--list-models], and when the two SDK
    clients of the generator can be created for the region, [main] of
    [setup_stable_diffusion.py] joins the words of the prompt with blanks and
    calls [generate_image] for the chosen region; it sends and writes what
    that call sends and writes, and nothing more.  When a file name comes
    back, the last line it prints is the size of that file: the number of
    bytes the file holds, in groups of three digits.  When [None] comes back
    it returns after the troubleshooting lines, and an exception of
    [generate_image] leaves [main] as it is. *)
Theorem main_reports_the_saved_file (args : SetupMain.Namespace) (w : World) :
  let generator := {| SetupStableDiffusion.region := SetupMain.region_arg args |} in
  let g := SetupStableDiffusion.generate_image generator
             (PyStr.join " " (SetupMain.prompt args)) (generation_started args w) in
  let r := SetupMain.main args w in
  SetupMain.setup_help args = false -> SetupMain.list_models args = false ->
  construction_failure (SetupMain.region_arg args) w = None ->
  calls (snd r) = calls (snd g) /\ fs (snd r) = fs (snd g)
  /\ match fst g with
     | Ret (Some f) =>
         exists data line,
           fs (snd g) !! f = Some data /\ fst r = Ret tt
           /\ stdout (snd r)
              = (stdout (snd g)
                   ++ [line; [Lit ("File size: " ++ PyLib.thousands (length data)
                                     ++ " bytes")]])%list
     | Ret None => fst r = Ret tt
     | Raise e => fst r = Raise e
     end.
Proof.
  intros generator g r Hh Hl Hc.
  pose proof (main_constructs args w Hh) as Er. rewrite Hc, Hl in Er.
  cbv zeta in Er. fold generator in Er.
  unfold bind at 1 in Er. fold g in Er. fold r in Er.
  destruct (generate_image_from_ordered generator
              (PyStr.join " " (SetupMain.prompt args))
              SetupStableDiffusion.models_to_try (generation_started args w))
    as (n & _ & _ & _ & Hr).
  fold (SetupStableDiffusion.generate_image generator
          (PyStr.join " " (SetupMain.prompt args))) in Hr.
  fold g in Hr.
  destruct g as [[[f|]|e] w1]; simpl in Hr |- *.
  - destruct Hr as (m & _ & _ & _ & _ & (k & b & data & _ & _ & Hname & Hfs)).
    assert (Hne : String.eqb f EmptyString = false)
      by (rewrite Hname; apply image_filename_not_empty).
    rewrite Hne in Er. change (negb false) with true in Er. cbv iota in Er.
    rewrite bind_print in Er. unfold try_except, bind, PyLib.getsize in Er.
    simpl fs in Er. rewrite Hfs in Er. unfold print, printf in Er. rewrite Er. simpl.
    split; [reflexivity|]. split; [reflexivity|].
    exists data. eexists. split; [exact Hfs|]. split; [reflexivity|].
    now rewrite <- app_assoc.
  - rewrite !bind_print in Er. unfold print, printf in Er. rewrite Er.
    simpl. now repeat split.
  - rewrite Er. now repeat split.
Qed.

Lemma main_reports_the_saved_file_witness :
  let args := {| SetupMain.prompt := ["a"; "cat"]; SetupMain.region_arg := "us-east-1";
                 SetupMain.list_models := false; SetupMain.setup_help := false |} in
  let w := Scenarios.answering Scenarios.hello in
  let generator := {| SetupStableDiffusion.region := SetupMain.region_arg args |} in
  let g := SetupStableDiffusion.generate_image generator
             (PyStr.join " " (SetupMain.prompt args)) (generation_started args w) in
  let r := SetupMain.main args w in
  calls (snd r) = calls (snd g) /\ fs (snd r) = fs (snd g)
  /\ match fst g with
     | Ret (Some f) =>
         exists data line,
           fs (snd g) !! f = Some data /\ fst r = Ret tt
           /\ stdout (snd r)
              = (stdout (snd g)
                   ++ [line; [Lit ("File size: " ++ PyLib.thousands (length data)
                                     ++ " bytes")]])%list
     | Ret None => fst r = Ret tt
     | Raise e => fst r = Raise e
     end.
Proof.
  apply (main_reports_the_saved_file
           {| SetupMain.prompt := ["a"; "cat"]; SetupMain.region_arg := "us-east-1";
              SetupMain.list_models := false; SetupMain.setup_help := false |}
           (Scenarios.answering Scenarios.hello)); reflexivity.
Defined.

(** ** [main] of [claude_gateway.py] *)
Section ClaudeMain.
Import ClaudeGateway Discovery.

Lemma claude_models_quiet models : forall w r w',
  claude_models models w = (r, w') ->
  w' = w /\ forall e, r = Raise e -> exn_cls e = AttributeError.
Proof.
  induction models as [|model rest IH]; intros w r w' E; simpl in E.
  - injection E as <- <-. split; [reflexivity | discriminate].
  - unfold bind at 1 in E. unfold lift in E.
    destruct model as [| | | |s| |]; simpl in E;
      try (injection E as <- <-; split; [reflexivity | now intros e [= <-]]).
    unfold bind at 1 in E.
    destruct (claude_models rest w) as [[found|e] w1] eqn:Er;
      destruct (IH _ _ _ Er) as [-> He]; injection E as <- <-.
    + split; [reflexivity | discriminate].
    + split; [reflexivity | intros e' [= <-]; now apply He].
Qed.

(** what a call without a model id sends, writes and raises *)
Lemma call_without_model_frame prompt w :
  let c := call_claude_model prompt None w in
  fs (snd c) = fs w
  /\ (calls (snd c) = (calls w ++ [models_request])%list
      \/ exists id, calls (snd c)
                    = (calls w ++ [models_request; chat_request prompt id])%list)
  /\ (forall e, fst c = Raise e -> exn_cls e = AttributeError).
Proof.
  intros c.
  destruct (get_available_models_calls w) as [(_ & _ & _ & _ & C) F].
  assert (Hl : exists l, fst (get_available_models w) = Ret l)
    by (apply try_except_returns; intros e w'; now exists []).
  destruct Hl as [l Hl].
  destruct (get_available_models w) as [r1 w1] eqn:Eg. simpl in C, F, Hl. subst r1.
  pose proof (eq_refl c) as Ec0. unfold c at 2 in Ec0.
  unfold call_claude_model, choose_model in Ec0.
  unfold bind at 1 in Ec0. unfold bind at 1 in Ec0. rewrite Eg in Ec0.
  unfold bind at 1 in Ec0.
  destruct (claude_models l w1) as [[found|e] w2] eqn:Ec;
    destruct (claude_models_quiet _ _ _ _ Ec) as [-> He].
  - destruct found as [|first rest].
    + rewrite bind_print in Ec0. unfold bind at 1 in Ec0.
      rewrite print_models_lines in Ec0. simpl in Ec0. rewrite Ec0. simpl.
      split; [exact F|]. split; [now left | discriminate].
    + rewrite bind_printf in Ec0. unfold ret at 1 in Ec0.
      assert (Ec1 : c = call_claude_model prompt (Some first)
                          (put_line [Lit "Using model: "; Val first] w1))
        by (rewrite Ec0; reflexivity).
      destruct (chat_returns prompt first
                  (put_line [Lit "Using model: "; Val first] w1))
        as (Hr & (_ & _ & _ & _ & Cc) & Fc).
      rewrite <- Ec1 in Hr, Cc, Fc.
      split; [rewrite Fc; exact F|]. split.
      * right. exists first. rewrite Cc. simpl. rewrite C. now rewrite <- app_assoc.
      * intros e. rewrite Hr. discriminate.
  - simpl in Ec0. rewrite Ec0. simpl. split; [exact F|]. split; [now left|].
    intros e' [= <-]. now apply He.
Qed.

End ClaudeMain.

(** X20. [main] of [claude_gateway.py] writes no file and sends at most two
    requests: the catalog query and, when a Claude model is listed, one chat
    completion.  The only exception that can leave it is the
    [AttributeError] of a catalog entry whose identifier is no string.  An
    answer that is empty (or any other false value) is reported like a
    failed call, with the line that no response was received. *)
Theorem claude_main_sends_at_most_two_requests (argv : list string) (w : World) :
  let prompt := claude_prompt argv in
  let c := ClaudeGateway.call_claude_model prompt None (claude_started argv w) in
  let r := ClaudeGatewayMain.main argv w in
  fs (snd r) = fs w
  /\ (calls (snd r) = (calls w ++ [Discovery.models_request])%list
      \/ exists id, calls (snd r)
                    = (calls w ++ [Discovery.models_request;
                                   ClaudeGateway.chat_request prompt id])%list)
  /\ (forall e, fst r = Raise e -> exn_cls e = AttributeError)
  /\ (forall v, fst c = Ret v -> Py.truthy v = false ->
        r = (Ret tt, put_line [Lit "Failed to get a response from Claude."] (snd c))).
Proof.
  intros prompt c r.
  destruct (call_without_model_frame prompt (claude_started argv w)) as (F & C & He).
  fold c in F, C, He.
  assert (Er : r = bind (ClaudeGateway.call_claude_model prompt None)
                 (fun response =>
                    if Py.truthy response then
                      print "Claude's response:" ;;
                      print (PyLib.times "-" 50) ;;
                      printf [Val response] ;;
                      print (PyLib.times "-" 50)
                    else print "Failed to get a response from Claude.")
                 (claude_started argv w)) by reflexivity.
  unfold bind at 1 in Er. fold c in Er.
  destruct c as [[v|e] w1]; simpl in F, C, He, Er.
  - destruct (Py.truthy v) eqn:Ht.
    + rewrite !bind_print, bind_printf in Er. unfold print, printf in Er.
      rewrite Er. simpl.
      split; [exact F|]. split; [exact C|]. split; [discriminate|].
      intros v' [= <-]. congruence.
    + unfold print, printf in Er. rewrite Er. simpl.
      split; [exact F|]. split; [exact C|]. split; [discriminate|].
      intros v' [= <-] _. reflexivity.
  - rewrite Er. simpl. split; [exact F|]. split; [exact C|]. split; [|discriminate].
    intros e' [= <-]. now apply He.
Qed.

(** ** The order of names and the order of time *)
Section NameOrder.

Lemma ascii_compare_refl (c : ascii) : Ascii.compare c c = Eq.
Proof. unfold Ascii.compare. apply N.compare_refl. Qed.

Lemma compare_app_same (p a b : string) :
  String.compare (p ++ a) (p ++ b) = String.compare a b.
Proof.
  induction p as [|c p IH]; [reflexivity|].
  change (String c p ++ a) with (String c (p ++ a)).
  change (String c p ++ b) with (String c (p ++ b)).
  simpl. now rewrite ascii_compare_refl, IH.
Qed.

Lemma compare_app_lt (a b x y : string) :
  String.length a = String.length b -> String.compare a b = Lt ->
  String.compare (a ++ x) (b ++ y) = Lt.
Proof.
  revert b. induction a as [|c a IH]; intros [|d b] Hlen H; try discriminate.
  change (String c a ++ x) with (String c (a ++ x)).
  change (String d b ++ y) with (String d (b ++ y)).
  simpl in *. destruct (Ascii.compare c d); try assumption.
  apply IH; [lia | exact H].
Qed.

Lemma pad2_length n : n < 100 -> String.length (PyStr.pad 2 n) = 2.
Proof. intros Hn. apply digits_length. now apply pad2_digits. Qed.

Lemma pad2_lt n m :
  n < m -> m < 100 -> String.compare (PyStr.pad 2 n) (PyStr.pad 2 m) = Lt.
Proof.
  intros Hnm Hm.
  assert (H : forallb (fun k =>
                forallb (fun j => match String.compare (PyStr.pad 2 j) (PyStr.pad 2 k) with
                                  | Lt => true
                                  | _ => false
                                  end) (seq 0 k)) (seq 0 100) = true)
    by (vm_compute; reflexivity).
  rewrite forallb_forall in H. specialize (H m).
  rewrite forallb_forall in H. specialize (H ltac:(apply in_seq; lia) n).
  destruct (String.compare (PyStr.pad 2 n) (PyStr.pad 2 m)); try reflexivity;
    discriminate H; apply in_seq; lia.
Qed.

Lemma pad4_split n :
  n < 100 * 100 -> PyStr.pad 4 n = PyStr.pad 2 (n / 100) ++ PyStr.pad 2 (n mod 100).
Proof.
  intros Hn.
  assert (H : forallb (fun k => String.eqb (PyStr.pad 4 k)
                         (PyStr.pad 2 (k / 100) ++ PyStr.pad 2 (k mod 100)))
                      (seq 0 (100 * 100)) = true) by (vm_compute; reflexivity).
  rewrite forallb_forall in H. apply String.eqb_eq, H, in_seq. lia.
Qed.

Lemma pad4_lt n m :
  n < m -> m < 100 * 100 -> String.compare (PyStr.pad 4 n) (PyStr.pad 4 m) = Lt.
Proof.
  intros Hnm Hm. rewrite !pad4_split by lia.
  assert (Hq : n / 100 <= m / 100) by (apply Nat.Div0.div_le_mono; lia).
  assert (Hm100 : m / 100 < 100) by (apply Nat.Div0.div_lt_upper_bound; lia).
  destruct (Nat.eq_dec (n / 100) (m / 100)) as [E|N].
  - rewrite E, compare_app_same. apply pad2_lt.
    + pose proof (Nat.div_mod_eq n 100). pose proof (Nat.div_mod_eq m 100). lia.
    + apply Nat.mod_upper_bound. lia.
  - apply compare_app_lt; [rewrite !pad2_length; lia | apply pad2_lt; lia].
Qed.

(** zero-padded time stamps compare as the readings they print *)
Lemma strftime_lt a b (x y : string) :
  valid_datetime a = true -> valid_datetime b = true -> earlier a b = true ->
  String.compare (strftime a ++ x) (strftime b ++ y) = Lt.
Proof.
  intros Ha Hb.
  destruct (valid_datetime_bounds a Ha) as (Ay & Am & Ad & Ah & Ami & As).
  destruct (valid_datetime_bounds b Hb) as (By & Bm & Bd & Bh & Bmi & Bs).
  unfold earlier, strftime. destruct a as [ya ma da ha mia sa], b as [yb mb db hb mib sb].
  simpl in *. rewrite !append_assoc.
  assert (L4 : forall n, n < 100 * 100 -> String.length (PyStr.pad 4 n) = 4)
    by (intros n Hn; apply digits_length; now apply pad4_digits).
  intros H.
  repeat match type of H with
  | ((?n <? ?m)%nat || ((?n =? ?m)%nat && _) = true) =>
      apply orb_prop in H as [H|H];
      [apply Nat.ltb_lt in H; apply compare_app_lt;
         [rewrite ?pad2_length, ?L4 by lia; reflexivity
         | first [apply pad4_lt | apply pad2_lt]; lia]
      |apply andb_prop in H as [E H]; apply Nat.eqb_eq in E; subst;
       rewrite compare_app_same;
       try (change ("_" ++ ?u) with (String "_" u); simpl String.compare;
            rewrite ?ascii_compare_refl)]
  end.
  discriminate H.
Qed.

End NameOrder.

(** X21. File names order like time.  Of two files that [generate_image]
    named for the same model at two valid clock readings, the one named at
    the earlier reading has the smaller name, whatever the positions of the
    payloads; the same holds for two files named by [main] of the other
    script.  In the viewer's descending order the later file therefore comes
    first. *)
Theorem later_files_have_greater_names
        (model_id : string) (a b : datetime) (i j : nat) :
  valid_datetime a = true -> valid_datetime b = true -> earlier a b = true ->
  PyLib.str_lt (SetupStableDiffusion.image_filename model_id (strftime a) i)
               (SetupStableDiffusion.image_filename model_id (strftime b) j) = true
  /\ PyLib.str_lt (StableDiffusionScript.image_filename (strftime a) i)
                  (StableDiffusionScript.image_filename (strftime b) j) = true
  /\ descending [SetupStableDiffusion.image_filename model_id (strftime b) j;
                 SetupStableDiffusion.image_filename model_id (strftime a) i] = true.
Proof.
  intros Ha Hb Hab.
  assert (H1 : PyLib.str_lt (SetupStableDiffusion.image_filename model_id (strftime a) i)
                 (SetupStableDiffusion.image_filename model_id (strftime b) j) = true).
  { unfold PyLib.str_lt, SetupStableDiffusion.image_filename.
    rewrite compare_app_same.
    rewrite <- !(append_assoc (PyStr.replace "." "_" (PyStr.replace ":" "_" model_id)) "_").
    rewrite compare_app_same.
    now rewrite (strftime_lt a b _ _ Ha Hb Hab). }
  split; [exact H1|]. split.
  - unfold PyLib.str_lt, StableDiffusionScript.image_filename.
    rewrite compare_app_same.
    now rewrite (strftime_lt a b _ _ Ha Hb Hab).
  - simpl. now rewrite (str_lt_asym _ _ H1).
Qed.

Lemma later_files_have_greater_names_witness :
  let a := Scenarios.at_second 5 in
  let b := Scenarios.at_second 6 in
  PyLib.str_lt (SetupStableDiffusion.image_filename "p1" (strftime a) 3)
               (SetupStableDiffusion.image_filename "p1" (strftime b) 0) = true
  /\ PyLib.str_lt (StableDiffusionScript.image_filename (strftime a) 3)
                  (StableDiffusionScript.image_filename (strftime b) 0) = true
  /\ descending [SetupStableDiffusion.image_filename "p1" (strftime b) 0;
                 SetupStableDiffusion.image_filename "p1" (strftime a) 3] = true.
Proof.
  apply (later_files_have_greater_names "p1" (Scenarios.at_second 5)
           (Scenarios.at_second 6) 3 0); reflexivity.
Defined.
